(** * IREPS tender scraper: change tracking, enrichment, login and OTP hand-over

    A shallow embedding of the decision logic of
    - [change_detector.py]  (class [ChangeDetector]),
    - [ireps_scraper/scraper.py]  ([_parse_row_cells], [_scrape_details],
      [scrape_tenders]; the listing harvest [_extract_table_rows] and
      [_scrape_listing]; the detail page readers [_extract_detail_fields],
      [_extract_documents], [_capture_tender_doc_url] and
      [_extract_attached_docs]),
    - [login.py]  ([_perform_login]),
    - [ireps_scraper/otp_receiver.py]  (class [OTPReceiver]),
    - [ireps_scraper/captcha_solver.py]  ([solve_from_element]),
    followed by the properties the specification states about them and by
    further properties of the same code.

    Python dicts are finite maps ([gmap]) from string keys to values, dict
    objects that are mutated in place live in a store indexed by reference,
    exceptions are an explicit result type, and everything the browser, the
    clock or the SMS gateway decides is an input of the model. *)

From stdpp Require Import gmap strings list fin_maps fin_sets pretty.
From Stdlib Require Import ZArith Lia Ascii.

Local Open Scope string_scope.
Local Open Scope list_scope.

(* ===================================================================== *)
(** * Definitions                                                          *)
(* ===================================================================== *)

(** ** Python string primitives

    Strings are sequences of code points below 256.  [str.strip] removes the
    characters for which [str.isspace] holds; in that range these are
    TAB, LF, VT, FF, CR, FS, GS, RS, US, SPACE, NEL and NBSP. *)
Module PyStr.

Definition isspace (a : ascii) : bool :=
  let n := nat_of_ascii a in
  (((9 <=? n) && (n <=? 13)) || ((28 <=? n) && (n <=? 32))
   || (n =? 133) || (n =? 160))%nat.

Fixpoint lstrip (s : string) : string :=
  match s with
  | EmptyString => EmptyString
  | String a r => if isspace a then lstrip r else s
  end.

Definition rstrip (s : string) : string := String.rev (lstrip (String.rev s)).

Definition strip (s : string) : string := rstrip (lstrip s).

(** [str.lower] on the letters A-Z.  The other code points below 256 that
    Python lowers map to non-ASCII letters, so membership of the result in
    a set of ASCII words is the same with this definition. *)
Definition lower_ascii (a : ascii) : ascii :=
  let n := nat_of_ascii a in
  if ((65 <=? n) && (n <=? 90))%nat then ascii_of_nat (n + 32)%nat else a.

Fixpoint lower (s : string) : string :=
  match s with
  | EmptyString => EmptyString
  | String a r => String (lower_ascii a) (lower r)
  end.

Definition startswith (p s : string) : bool := String.prefix p s.

(** Truthiness of a string: non-empty. *)
Definition truthy (s : string) : bool :=
  match s with EmptyString => false | _ => true end.

End PyStr.

(** ** Exceptions and results *)

Inductive exn :=
  | AttributeError
  | RuntimeError (msg : string)
  | OtherError (msg : string).

Inductive result (A : Type) :=
  | Ok (a : A)
  | Raise (e : exn).
Arguments Ok {A} a.
Arguments Raise {A} e.

Definition rbind {A B} (r : result A) (k : A → result B) : result B :=
  match r with
  | Ok a => k a
  | Raise e => Raise e
  end.

Notation "'rdo' x <- e1 ; e2" := (rbind e1 (λ x, e2))
  (at level 10, x pattern, e1 at level 100, e2 at level 200, only parsing).

(** ** Values stored in tender dicts *)

(** A document descriptor [{"file_name": .., "file_url": .., "description": ..}]. *)
Abbreviation doc := (gmap string string).

Inductive pyval :=
  | VStr (s : string)
  | VNone
  | VDocs (ds : list doc)
  | VChanges (m : gmap string (string * string)).

Abbreviation dict := (gmap string pyval).

Global Instance pyval_eq_dec : EqDecision pyval.
Proof. solve_decision. Defined.

Global Instance pyval_inhabited : Inhabited pyval := populate VNone.

(** Python truthiness of a value. *)
Definition py_truthy (v : pyval) : bool :=
  match v with
  | VStr s => PyStr.truthy s
  | VNone => false
  | VDocs ds => match ds with [] => false | _ => true end
  | VChanges m => bool_decide (m ≠ ∅)
  end.

(** [d.get(k, "")]. *)
Definition get_or_empty (d : dict) (k : string) : pyval :=
  default (VStr "") (d !! k).

(** [doc.get("file_url")], with [None] for a missing key. *)
Definition doc_url (d : doc) : option string := d !! "file_url".

Definition doc_url_truthy (d : doc) : bool :=
  match doc_url d with
  | Some u => PyStr.truthy u
  | None => false
  end.

(** [tender.setdefault(k, v)], on the dict itself. *)
Definition setdefault (d : dict) (k : string) (v : pyval) : dict :=
  match d !! k with
  | Some _ => d
  | None => <[k := v]> d
  end.

(** References to dict and list objects. *)
Abbreviation loc := nat.

(** The object store: tender dicts and the lists that hold references to
    them.  A reference that was never written reads as the empty object. *)
Record heap := Heap {
  h_dicts : gmap loc dict;
  h_lists : gmap loc (list loc);
}.

Definition read_dict (h : heap) (l : loc) : dict := default ∅ (h_dicts h !! l).
Definition read_list (h : heap) (l : loc) : list loc := default [] (h_lists h !! l).
Definition write_dict (h : heap) (l : loc) (d : dict) : heap :=
  Heap (<[l := d]> (h_dicts h)) (h_lists h).

(** [tender[k] = v] on the object behind reference [l]. *)
Definition set_item (h : heap) (l : loc) (k : string) (v : pyval) : heap :=
  write_dict h l (<[k := v]> (read_dict h l)).

(** [tender.get("tender_no", "").strip()]: only a string has [strip]. *)
Definition get_tender_no (t : dict) : result string :=
  match get_or_empty t "tender_no" with
  | VStr s => Ok (PyStr.strip s)
  | _ => Raise AttributeError
  end.

(** ** change_detector.py *)

Inductive change_type := NEW | UPDATED | STATUS_CHANGED | UNCHANGED.

Global Instance change_type_eq_dec : EqDecision change_type.
Proof. solve_decision. Defined.

Definition change_type_name (c : change_type) : string :=
  match c with
  | NEW => "NEW"
  | UPDATED => "UPDATED"
  | STATUS_CHANGED => "STATUS_CHANGED"
  | UNCHANGED => "UNCHANGED"
  end.

Record buckets := Buckets {
  b_new : list loc;
  b_updated : list loc;
  b_status_changed : list loc;
  b_unchanged : list loc;
}.

Record summary := Summary {
  total_scraped : nat;
  new_count : nat;
  updated_count : nat;
  status_changed_count : nat;
  unchanged_count : nat;
  timestamp : string;
}.

(** The dict returned by [detect_changes].  The four bucket lists are created
    by the call and are given by their contents; ["all"] is a reference to a
    list object of the store. *)
Record report := Report {
  r_new : list loc;
  r_updated : list loc;
  r_status_changed : list loc;
  r_unchanged : list loc;
  r_all : loc;
  r_summary : summary;
}.

(** Two dicts agree on every key that is not internal. *)
Definition visible_eq (d d' : dict) : Prop :=
  ∀ k, PyStr.startswith "_" k = false → d !! k = d' !! k.

(** The [tender_no] of a dict is a string, or the key is missing. *)
Definition tender_no_is_str (d : dict) : Prop :=
  ∃ s, get_tender_no d = Ok s.

(** The dict carries an identity: a [tender_no] that is not blank. *)
Definition has_identity (d : dict) : bool :=
  match get_tender_no d with
  | Ok s => PyStr.truthy s
  | Raise _ => false
  end.

(** The identity of a dict: its stripped [tender_no] ([""] without one). *)
Definition tender_id (d : dict) : string :=
  match get_tender_no d with
  | Ok s => s
  | Raise _ => ""
  end.

Section ChangeDetector.

(** [str(v)] of a value that is neither a string nor [None] is Python's
    built-in [repr] of a list or dict; it is an input of the model. *)
Variable py_repr : pyval → string.

Definition py_str (v : pyval) : string :=
  match v with
  | VStr s => s
  | VNone => "None"
  | _ => py_repr v
  end.

(** [str(d.get(key, "")).strip()] *)
Definition norm_field (d : dict) (key : string) : string :=
  PyStr.strip (py_str (get_or_empty d key)).

(** Keys [_diff] skips: internal keys and the navigation-only link. *)
Definition skipped_key (key : string) : bool :=
  PyStr.startswith "_" key || bool_decide (key = "detail_url").

(** One iteration of the loop of [_diff]. *)
Definition diff_step (old new : dict) (key : string)
    (changes : gmap string (string * string)) : gmap string (string * string) :=
  if skipped_key key then changes
  else
    let old_val := norm_field old key in
    let new_val := norm_field new key in
    if decide (old_val = new_val) then changes
    else <[key := (old_val, new_val)]> changes.

(** [ChangeDetector._diff] *)
Definition _diff (old new : dict) : gmap string (string * string) :=
  let all_keys : gset string := dom old ∪ dom new in
  set_fold (diff_step old new) ∅ all_keys.

(** The body of the loop of [detect_changes] for the dict behind [l]. *)
Definition detect_one (memory : gmap string dict) (st : heap * buckets) (l : loc)
    : result (heap * buckets) :=
  let '(h, b) := st in
  let tender := read_dict h l in
  rdo tender_no <- get_tender_no tender;
  if negb (PyStr.truthy tender_no) then Ok (h, b)
  else
    match memory !! tender_no with
    | None =>
        let h := set_item h l "_change_type" (VStr "NEW") in
        Ok (h, Buckets (b_new b ++ [l]) (b_updated b) (b_status_changed b) (b_unchanged b))
    | Some old =>
        let changes := _diff old tender in
        if decide (changes = ∅) then
          let h := set_item h l "_change_type" (VStr "UNCHANGED") in
          Ok (h, Buckets (b_new b) (b_updated b) (b_status_changed b) (b_unchanged b ++ [l]))
        else if decide (is_Some (changes !! "status")) then
          let h := set_item h l "_change_type" (VStr "STATUS_CHANGED") in
          let h := set_item h l "_old_status" (get_or_empty old "status") in
          let h := set_item h l "_new_status" (get_or_empty (read_dict h l) "status") in
          Ok (h, Buckets (b_new b) (b_updated b) (b_status_changed b ++ [l]) (b_unchanged b))
        else
          let h := set_item h l "_change_type" (VStr "UPDATED") in
          let h := set_item h l "_changes" (VChanges changes) in
          Ok (h, Buckets (b_new b) (b_updated b ++ [l]) (b_status_changed b) (b_unchanged b))
    end.

Fixpoint detect_loop (memory : gmap string dict) (st : heap * buckets) (ls : list loc)
    : result (heap * buckets) :=
  match ls with
  | [] => Ok st
  | l :: ls => rdo st <- detect_one memory st l; detect_loop memory st ls
  end.

(** [ChangeDetector.detect_changes]: [tenders] is a reference to the
    caller's list, [now] is [datetime.now().isoformat()]. *)
Definition detect_changes (memory : gmap string dict) (now : string)
    (h : heap) (tenders : loc) : result (heap * report) :=
  let items := read_list h tenders in
  rdo (h, b) <- detect_loop memory (h, Buckets [] [] [] []) items;
  let summary := Summary (length items) (length (b_new b)) (length (b_updated b))
                   (length (b_status_changed b)) (length (b_unchanged b)) now in
  Ok (h, Report (b_new b) (b_updated b) (b_status_changed b) (b_unchanged b)
           tenders summary).

(** *** Notions used to state what [detect_changes] does *)

(** The entry of the diff for one key, in the words of the specification:
    internal and navigation-only keys are not compared, the others are
    compared after [str] and [strip] on both sides. *)
Definition field_change (old new : dict) (key : string) : option (string * string) :=
  if skipped_key key then None
  else if decide (norm_field old key = norm_field new key) then None
  else Some (norm_field old key, norm_field new key).

(** The classification of one tender dict against the snapshot; [None] for
    a dict without a usable [tender_no]. *)
Definition classify (memory : gmap string dict) (tender : dict) : option change_type :=
  match get_tender_no tender with
  | Ok tender_no =>
      if PyStr.truthy tender_no then
        match memory !! tender_no with
        | None => Some NEW
        | Some old =>
            if decide (_diff old tender = ∅) then Some UNCHANGED
            else if decide (is_Some (_diff old tender !! "status")) then Some STATUS_CHANGED
            else Some UPDATED
        end
      else None
  | Raise _ => None
  end.

Definition add_bucket (c : option change_type) (l : loc) (b : buckets) : buckets :=
  match c with
  | Some NEW => Buckets (b_new b ++ [l]) (b_updated b) (b_status_changed b) (b_unchanged b)
  | Some UPDATED => Buckets (b_new b) (b_updated b ++ [l]) (b_status_changed b) (b_unchanged b)
  | Some STATUS_CHANGED =>
      Buckets (b_new b) (b_updated b) (b_status_changed b ++ [l]) (b_unchanged b)
  | Some UNCHANGED => Buckets (b_new b) (b_updated b) (b_status_changed b) (b_unchanged b ++ [l])
  | None => b
  end.

(** The annotations [detect_changes] leaves on a dict agree with its class. *)
Definition annotated (memory : gmap string dict) (d : dict) : Prop :=
  ∀ c, classify memory d = Some c →
    d !! "_change_type" = Some (VStr (change_type_name c)) ∧
    (c = STATUS_CHANGED → ∀ tender_no old,
        get_tender_no d = Ok tender_no → memory !! tender_no = Some old →
        d !! "_old_status" = Some (get_or_empty old "status") ∧
        d !! "_new_status" = Some (get_or_empty d "status")) ∧
    (c = UPDATED → ∀ tender_no old,
        get_tender_no d = Ok tender_no → memory !! tender_no = Some old →
        d !! "_changes" = Some (VChanges (_diff old d))).

End ChangeDetector.

(** ** change_detector.py: [update_memory] *)

(** [d.get(k)]: [None] for a missing key. *)
Definition get_or_none (d : dict) (k : string) : pyval :=
  default VNone (d !! k).

(** [d.get(k, [])]. *)
Definition get_or_nil (d : dict) (k : string) : pyval :=
  default (VDocs []) (d !! k).

(** [{doc.get("file_url") for doc in old_docs if doc.get("file_url")}] *)
Definition seen_urls_of (old_docs : list doc) : gset string :=
  list_to_set (omap (λ d, if doc_url_truthy d then doc_url d else None) old_docs).

(** The loop [for doc in new_docs] of the merge branch: a document is
    appended when its [file_url] is truthy and not yet seen. *)
Fixpoint merge_loop (new_docs : list doc) (merged : list doc) (seen_urls : gset string)
    : list doc :=
  match new_docs with
  | [] => merged
  | d :: rest =>
      match doc_url d with
      | Some u =>
          if PyStr.truthy u && bool_decide (u ∉ seen_urls)
          then merge_loop rest (merged ++ [d]) ({[u]} ∪ seen_urls)
          else merge_loop rest merged seen_urls
      | None => merge_loop rest merged seen_urls
      end
  end.

(** Iterating a value as a list of document dicts; a string or a dict
    yields strings, on which [doc.get] raises. *)
Definition as_docs (v : pyval) : result (list doc) :=
  match v with
  | VDocs ds => Ok ds
  | _ => Raise AttributeError
  end.

(** The attached-documents part of the loop body of [update_memory]. *)
Definition merge_attached (existing clean : dict) : result dict :=
  let old_docs := get_or_nil existing "attached_documents" in
  let new_docs := get_or_nil clean "attached_documents" in
  if negb (py_truthy new_docs) && py_truthy old_docs then
    Ok (<["attached_documents" := old_docs]> clean)
  else if py_truthy new_docs && py_truthy old_docs then
    rdo old_l <- as_docs old_docs;
    rdo new_l <- as_docs new_docs;
    let merged := merge_loop new_l old_l (seen_urls_of old_l) in
    Ok (<["attached_documents" := VDocs merged]> clean)
  else Ok clean.

(** The loop body of [update_memory] for one tender dict. *)
Definition update_one (now : string) (memory : gmap string dict) (tender : dict)
    : result (gmap string dict) :=
  rdo tender_no <- get_tender_no tender;
  if negb (PyStr.truthy tender_no) then Ok memory
  else
    let clean : dict := filter (λ kv, PyStr.startswith "_" kv.1 = false) tender in
    let clean := <["_last_seen" := VStr now]> clean in
    let clean := delete "detail_url" clean in
    let existing : dict := default ∅ (memory !! tender_no) in
    let new_doc_url := get_or_none clean "tender_doc_download_url" in
    let old_doc_url := get_or_none existing "tender_doc_download_url" in
    let clean :=
      if negb (py_truthy new_doc_url) && py_truthy old_doc_url
      then <["tender_doc_download_url" := old_doc_url]> clean
      else clean in
    rdo clean <- merge_attached existing clean;
    Ok (<[tender_no := clean]> memory).

(** The loop of [update_memory].  The clock is read anew in every iteration
    that stores an entry: [now i] is the value of
    [datetime.now().isoformat()] in the iteration on the record at position
    [i] of the list (a record with a blank [tender_no] is skipped before
    the clock is read). *)
Fixpoint update_loop (now : nat → string) (memory : gmap string dict)
    (tenders : list dict) : result (gmap string dict) :=
  match tenders with
  | [] => Ok memory
  | t :: ts =>
    rdo memory <- update_one (now 0) memory t;
    update_loop (λ i, now (S i)) memory ts
  end.

(** [ChangeDetector.update_memory]: the new value of [self._memory], which
    [save_memory] then writes to disk.  The tender dicts are only read. *)
Definition update_memory (now : nat → string) (memory : gmap string dict)
    (h : heap) (tenders : loc) : result (gmap string dict) :=
  update_loop now memory (read_dict h <$> read_list h tenders).

(** *** The merge in the words of the specification *)

(** A collection keyed by [file_url]: every descriptor has a non-empty
    [file_url] and no two share one. *)
Definition keyed (ds : list doc) : Prop :=
  Forall (λ d, doc_url_truthy d = true) ds ∧ NoDup (doc_url <$> ds).

(** Old entries first, then the new ones whose [file_url] is not among the
    old ones, in their order. *)
Definition union_by_url (old_docs new_docs : list doc) : list doc :=
  old_docs ++ filter (λ d, doc_url d ∉ doc_url <$> old_docs) new_docs.

(** The condition of the merge loop on a document, for a given set of seen
    urls. *)
Definition unseen (seen_urls : gset string) (d : doc) : bool :=
  match doc_url d with
  | Some u => PyStr.truthy u && bool_decide (u ∉ seen_urls)
  | None => false
  end.

(** The attached documents of the snapshot entry of [tender_no]. *)
Definition snapshot_docs (memory : gmap string dict) (tender_no : string) : pyval :=
  get_or_nil (default ∅ (memory !! tender_no)) "attached_documents".

(** ** scraper.py: Phase 1 row parsing *)

Module Scraper.

(** Substring test, Python's [sub in s]. *)
Fixpoint contains (sub s : string) : bool :=
  String.prefix sub s ||
  match s with
  | EmptyString => false
  | String _ r => contains sub r
  end.

(** locators.py: column indices of the listing table. *)
Definition COL_DEPTT : nat := 0.
Definition COL_TENDER_NO : nat := 1.
Definition COL_TENDER_TITLE : nat := 2.
Definition COL_STATUS : nat := 3.
Definition COL_WORK_AREA : nat := 4.
Definition COL_DUE_DATE : nat := 5.
Definition COL_DUE_DAYS : nat := 6.
Definition COL_ACTIONS : nat := 7.

(** config.py *)
Definition MAX_RETRIES : nat := 3.

(** What the locators of the Actions cell of a row answer. *)
Record action_view := ActionView {
  av_has_img : bool;                 (* img[title="View Tender Details"] found *)
  av_has_link : bool;                (* it has an <a> ancestor *)
  av_onclick : string;               (* onclick attribute of that link, or "" *)
  av_onclick_target : option string; (* group 1 of the postRequestNewWindow pattern *)
  av_href : string;                  (* href attribute of that link, or "" *)
}.

(** A table row as the page shows it: the inner text of each [td] ([None]
    when reading the cell fails) and its Actions cell ([Raise] when a
    locator call on it fails). *)
Record row_view := RowView {
  rv_cells : list (option string);
  rv_action : result action_view;
}.

(** [_safe_cell_text] *)
Definition _safe_cell_text (cells : list (option string)) (index : nat) : string :=
  match cells !! index with
  | Some (Some text) => PyStr.strip text
  | _ => ""
  end.

Definition _JUNK_TENDER_NOS : list string :=
  [ "Tender No"; "tender no"; "Search Tender"; "Organization";
    "Select Date"; "Tender Closing Date"; "Tender Uploading Date";
    "Deptt./Rly. Unit"; "Actions" ].

Definition _VALID_STATUSES : list string :=
  [ "published"; "active"; "closed"; "cancelled"; "expired" ].

Definition absolute_url (path : string) : string :=
  if PyStr.startswith "http" path then path else "https://www.ireps.gov.in" +:+ path.

(** The detail link of a row, read from the control that carries the
    "View Tender Details" image. *)
Definition extract_detail_url (cell_count : nat) (action : result action_view)
    : result string :=
  if bool_decide (COL_ACTIONS < cell_count) then
    rdo a <- action;
    if av_has_img a && av_has_link a then
      let detail_url :=
        match PyStr.truthy (av_onclick a), av_onclick_target a with
        | true, Some path => absolute_url path
        | _, _ => ""
        end in
      if negb (PyStr.truthy detail_url) && PyStr.truthy (av_href a)
         && negb (bool_decide (av_href a = "#")) && PyStr.truthy (PyStr.strip (av_href a))
      then Ok (absolute_url (av_href a))
      else Ok detail_url
    else Ok ""
  else Ok "".

(** The dict literal [_parse_row_cells] returns: the listing fields, the
    navigation link and the Phase 2 fields, still empty. *)
Definition new_tender (deptt tender_no tender_title status work_area due_date due_days
    detail_url : string) : dict :=
  list_to_map
    [ ("deptt_rly_unit", VStr deptt);
      ("tender_no", VStr tender_no);
      ("tender_title", VStr tender_title);
      ("status", VStr status);
      ("work_area", VStr work_area);
      ("due_date_time", VStr due_date);
      ("due_days", VStr due_days);
      ("detail_url", VStr detail_url);
      ("tender_type", VStr "");
      ("date_of_issue", VStr "");
      ("estimated_value", VStr "");
      ("emd_amount", VStr "");
      ("document_cost", VStr "");
      ("contact_officer", VStr "");
      ("corrigendum", VStr "");
      ("description", VStr "");
      ("tender_doc_download_url", VNone);
      ("attached_documents", VDocs []) ].

(** [_parse_row_cells]: [Ok None] when the row is not a tender row. *)
Definition _parse_row_cells (row : row_view) : result (option dict) :=
  let cells := rv_cells row in
  let cell_count := length cells in
  let deptt := _safe_cell_text cells COL_DEPTT in
  let tender_no := _safe_cell_text cells COL_TENDER_NO in
  let tender_title := _safe_cell_text cells COL_TENDER_TITLE in
  let status := _safe_cell_text cells COL_STATUS in
  let work_area := _safe_cell_text cells COL_WORK_AREA in
  let due_date := _safe_cell_text cells COL_DUE_DATE in
  let due_days := _safe_cell_text cells COL_DUE_DAYS in
  if negb (PyStr.truthy tender_no) then Ok None
  else if bool_decide (50 < String.length tender_no) || contains (String "010" "") tender_no
  then Ok None
  else if bool_decide (tender_no ∈ _JUNK_TENDER_NOS) then Ok None
  else if PyStr.truthy status && negb (bool_decide (PyStr.lower status ∈ _VALID_STATUSES))
  then Ok None
  else
    rdo detail_url <- extract_detail_url cell_count (rv_action row);
    Ok (Some (new_tender deptt tender_no tender_title status work_area due_date due_days
                detail_url)).

(** ** scraper.py: Phase 2, the enrichment stage *)

(** What [_extract_documents] gives for an opened detail page, or that the
    document block raised. *)
Inductive doc_outcome :=
  | DocsOk (url : option string) (docs : list doc)
  | DocsRaise.

(** locators.py: the fields of [DETAIL_LABELS], in their order. *)
Definition DETAIL_FIELDS : list string :=
  [ "tender_type"; "date_of_issue"; "estimated_value"; "emd_amount"; "document_cost";
    "contact_officer"; "corrigendum"; "description"; "closing_date" ].

(** The field-specific validation of [_extract_detail_fields] on the value
    text found for a field. *)
Definition accept_value (field_name value_text : string) : bool :=
  PyStr.truthy value_text
  && negb (bool_decide (field_name = "closing_date") && negb (contains "/" value_text))
  && negb (bool_decide (field_name = "description")
           && bool_decide (value_text ∈ ["File Name"; "file name"; "Description"; "Sl. No"])).

(** [_extract_detail_fields]: [value_text f] is the text the label lookup of
    field [f] ends with ([""] when it finds none). *)
Definition _extract_detail_fields (value_text : string → string) : gmap string string :=
  list_to_map
    (omap (λ f, if accept_value f (value_text f) then Some (f, value_text f) else None)
       DETAIL_FIELDS).

(** One pass of the retry loop on a tender: what the browser does. *)
Inductive attempt :=
  | AtError (msg : string)   (* an exception with this message, before any field is read *)
  | AtAuthRedirect           (* the detail tab shows "Authenticate Yourself" *)
  | AtLoaded (value_text : string → string) (d : doc_outcome).
                             (* the detail page is read, then its documents *)

(** A data row of the listing during Phase 2 (the header row is left out). *)
Inductive listing_row :=
  | LRowShort                (* fewer than 7 cells *)
  | LRowRaises               (* reading the row raises: the outer handler continues *)
  | LRow (work_area tender_no : string) (icon : bool) (attempts : nat → attempt).

Inductive page_view :=
  | PageRaises (e : exn)     (* locating the table raises *)
  | PageNoTable
  | PageRows (rows : list listing_row).

(** The listing as Phase 2 walks it: the navigation back to the listing, the
    page shown then, and the pages that "Next" leads to, in order. *)
Record browser := Browser {
  br_goto : result unit;
  br_first : page_view;
  br_next : list page_view;
}.

Definition MAX_CONSECUTIVE_FAILURES : nat := 3.

(** The local variables of [_scrape_details] and the store. *)
Record sd_state := SdState {
  sd_heap : heap;
  sd_pending : gmap string loc;
  sd_enriched : nat;
  sd_failed : nat;
  sd_consecutive_failures : nat;
}.

(** [tender.update({k: v for k, v in detail_data.items() if v})] *)
Definition update_detail (tender : dict) (detail_data : gmap string string) : dict :=
  (VStr <$> filter (λ kv, PyStr.truthy kv.2 = true) detail_data) ∪ tender.

(** The two [setdefault] calls that mark a tender without detail data. *)
Definition mark_empty_dict (tender : dict) : dict :=
  let tender := setdefault tender "tender_doc_download_url" VNone in
  setdefault tender "attached_documents" (VDocs []).

(** The document block of an attempt. *)
Definition store_docs (tender : dict) (d : doc_outcome) : dict :=
  match d with
  | DocsOk url docs =>
      <["attached_documents" := VDocs docs]>
        (<["tender_doc_download_url" := from_option VStr VNone url]> tender)
  | DocsRaise => mark_empty_dict tender
  end.

(** What a successful attempt makes of a tender dict. *)
Definition enrich_dict (tender : dict) (value_text : string → string) (d : doc_outcome)
    : dict :=
  store_docs (update_detail tender (_extract_detail_fields value_text)) d.

Definition mark_empty (h : heap) (l : loc) : heap :=
  write_dict h l (mark_empty_dict (read_dict h l)).

Inductive retry_result :=
  | RetrySuccess (h : heap)
  | RetryFailed              (* every attempt raised *)
  | RetryReturn.             (* [return tenders] from inside the loop *)

(** [for retry in range(config.MAX_RETRIES)], with [n] passes left. *)
Fixpoint retry_loop (n retry : nat) (attempts : nat → attempt) (h : heap) (l : loc)
    : retry_result :=
  match n with
  | 0 => RetryFailed
  | S n =>
      match attempts retry with
      | AtLoaded value_text d =>
          RetrySuccess (write_dict h l (enrich_dict (read_dict h l) value_text d))
      | AtAuthRedirect => RetryReturn
      | AtError msg =>
          if contains "closed" (PyStr.lower msg) || contains "target" (PyStr.lower msg)
          then RetryReturn
          else retry_loop n (S retry) attempts h l
      end
  end.

Inductive row_result :=
  | RowContinue (st : sd_state)
  | RowReturn (h : heap).

(** The body of [for row_idx in range(1, row_count)] after the breaker check. *)
Definition row_body (r : listing_row) (st : sd_state) : row_result :=
  match r with
  | LRowShort => RowContinue st
  | LRowRaises => RowContinue st
  | LRow work_area tender_no icon attempts =>
      if negb (bool_decide (PyStr.lower (PyStr.strip work_area) = "works")) then RowContinue st
      else
        let tender_no := PyStr.strip tender_no in
        match sd_pending st !! tender_no with
        | None => RowContinue st
        | Some l =>
            if negb icon then
              let h := set_item (sd_heap st) l "tender_doc_download_url" VNone in
              let h := set_item h l "attached_documents" (VDocs []) in
              RowContinue (SdState h (delete tender_no (sd_pending st)) (sd_enriched st)
                             (S (sd_failed st)) (S (sd_consecutive_failures st)))
            else
              match retry_loop MAX_RETRIES 0 attempts (sd_heap st) l with
              | RetryReturn => RowReturn (sd_heap st)
              | RetrySuccess h =>
                  RowContinue (SdState h (delete tender_no (sd_pending st))
                                 (S (sd_enriched st)) (sd_failed st) 0)
              | RetryFailed =>
                  RowContinue (SdState (mark_empty (sd_heap st) l)
                                 (delete tender_no (sd_pending st)) (sd_enriched st)
                                 (S (sd_failed st)) (S (sd_consecutive_failures st)))
              end
        end
  end.

Inductive rows_result :=
  | RowsDone (st : sd_state)
  | RowsReturn (h : heap).

(** The row loop of one listing page, with the breaker check at its head. *)
Fixpoint rows_loop (rows : list listing_row) (st : sd_state) : rows_result :=
  match rows with
  | [] => RowsDone st
  | r :: rest =>
      if bool_decide (MAX_CONSECUTIVE_FAILURES ≤ sd_consecutive_failures st)%nat then RowsDone st
      else
        match row_body r st with
        | RowContinue st => rows_loop rest st
        | RowReturn h => RowsReturn h
        end
  end.

(** The code after the [while] loop: every tender still pending is marked. *)
Definition mark_remaining (st : sd_state) : heap :=
  map_fold (λ _ l h, mark_empty h l) (sd_heap st) (sd_pending st).

(** [while pending:] entered with [pending] non-empty, on the page [cur]. *)
Fixpoint pages_loop (tenders : loc) (cur : page_view) (rest : list page_view)
    (st : sd_state) : heap * result loc :=
  match cur with
  | PageRaises e => (sd_heap st, Raise e)
  | PageNoTable => (mark_remaining st, Ok tenders)
  | PageRows rows =>
      match rows_loop rows st with
      | RowsReturn h => (h, Ok tenders)
      | RowsDone st =>
          if bool_decide (MAX_CONSECUTIVE_FAILURES ≤ sd_consecutive_failures st)%nat
          then (mark_remaining st, Ok tenders)
          else if decide (sd_pending st = ∅) then (mark_remaining st, Ok tenders)
          else
            match rest with
            | [] => (mark_remaining st, Ok tenders)
            | next :: rest => pages_loop tenders next rest st
            end
      end
  end.

(** The loop that builds [pending]. *)
Fixpoint build_pending (h : heap) (items : list loc) (pending : gmap string loc)
    : result (gmap string loc) :=
  match items with
  | [] => Ok pending
  | l :: items =>
      rdo tno <- get_tender_no (read_dict h l);
      build_pending h items (if PyStr.truthy tno then <[tno := l]> pending else pending)
  end.

(** [_scrape_details]: the store after the call, and the returned list
    reference or the exception that escapes. *)
Definition _scrape_details (context : bool) (br : browser) (h : heap) (tenders : loc)
    : heap * result loc :=
  if negb context then (h, Ok tenders)
  else
    match build_pending h (read_list h tenders) ∅ with
    | Raise e => (h, Raise e)
    | Ok pending =>
        if decide (pending = ∅) then (h, Ok tenders)
        else
          match br_goto br with
          | Raise e => (h, Raise e)
          | Ok _ => pages_loop tenders (br_first br) (br_next br) (SdState h pending 0 0 0)
          end
    end.

(** [scrape_tenders] from the end of Phase 1: [listing_tenders] is the list
    [_scrape_listing] returned. *)
Definition scrape_tenders (context : bool) (br : browser) (h : heap) (listing_tenders : loc)
    : heap * loc :=
  match read_list h listing_tenders with
  | [] =>
      let l := fresh (dom (h_lists h)) in
      (Heap (h_dicts h) (<[l := []]> (h_lists h)), l)
  | _ =>
      match _scrape_details context br h listing_tenders with
      | (h, Ok enriched_tenders) => (h, enriched_tenders)
      | (h, Raise _) => (h, listing_tenders)
      end
  end.

(** *** The circuit breaker in the words of the specification

    The specification speaks of records and of the outcome of each: a
    record is enriched from its detail view, which is opened in up to a
    fixed number of tries, or its enrichment fails; a failed record is
    marked with empty enrichment fields and processing goes on; the rest of
    the stage is abandoned once a configured number of consecutive records
    have failed.  The definitions below follow these words.  They keep the
    history of the outcomes and no counter, and they read the outcome of a
    record off what the browser does, not off the bookkeeping of
    [_scrape_details]. *)

(** What opening the detail view of a record comes to. *)
Inductive spec_view :=
  | ViewLoaded (value_text : string → string) (d : doc_outcome)
  | ViewUnreachable          (* no try opened it: the enrichment of the record fails *)
  | ViewStageEnds.           (* the session expired or the browser is gone *)

(** What one try decides: nothing when it fails with an ordinary error. *)
Definition spec_try (a : attempt) : option spec_view :=
  match a with
  | AtLoaded value_text d => Some (ViewLoaded value_text d)
  | AtAuthRedirect => Some ViewStageEnds
  | AtError msg =>
      if contains "closed" (PyStr.lower msg) || contains "target" (PyStr.lower msg)
      then Some ViewStageEnds
      else None
  end.

(** Up to [MAX_RETRIES] tries; the first one that decides, decides. *)
Definition spec_open_view (attempts : nat → attempt) : spec_view :=
  default ViewUnreachable
    (head (omap (λ retry, spec_try (attempts retry)) (seq 0 MAX_RETRIES))).

(** What a listing row is to the stage. *)
Inductive spec_record :=
  | NotARecord               (* no pending record: it has no outcome *)
  | RecordEnriched (tender_no : string) (l : loc)
      (value_text : string → string) (d : doc_outcome)
  | RecordFailed (tender_no : string) (l : loc) (control_missing : bool)
  | StageEnds.

Definition spec_record_of (r : listing_row) (pending : gmap string loc) : spec_record :=
  match r with
  | LRow work_area tender_no icon attempts =>
      if bool_decide (PyStr.lower (PyStr.strip work_area) = "works") then
        match pending !! PyStr.strip tender_no with
        | Some l =>
            if icon then
              match spec_open_view attempts with
              | ViewLoaded value_text d =>
                  RecordEnriched (PyStr.strip tender_no) l value_text d
              | ViewUnreachable => RecordFailed (PyStr.strip tender_no) l false
              | ViewStageEnds => StageEnds
              end
            else RecordFailed (PyStr.strip tender_no) l true
        | None => NotARecord
        end
      else NotARecord
  | LRowShort => NotARecord
  | LRowRaises => NotARecord
  end.

(** The state of the stage: the store, the records still to be enriched,
    and the outcomes so far, the most recent first ([true]: enriched,
    [false]: failed). *)
Record spec_state := SpecState {
  sp_heap : heap;
  sp_pending : gmap string loc;
  sp_history : list bool;
}.

(** The breaker is tripped when the [MAX_CONSECUTIVE_FAILURES] most recent
    outcomes are all failures. *)
Definition tripped (history : list bool) : bool :=
  bool_decide (take MAX_CONSECUTIVE_FAILURES history
               = replicate MAX_CONSECUTIVE_FAILURES false).

(** A failed record is marked with empty enrichment fields: both fields
    are set when the control that opens the detail view is missing, and
    set if absent when the view could not be reached. *)
Definition spec_mark_failed (h : heap) (l : loc) (control_missing : bool) : heap :=
  if control_missing then
    set_item (set_item h l "tender_doc_download_url" VNone) l "attached_documents" (VDocs [])
  else write_dict h l (mark_empty_dict (read_dict h l)).

Inductive spec_rows_result :=
  | SpecDone (s : spec_state)
  | SpecReturn (h : heap).

(** The rows of one listing page, as long as the breaker is not tripped. *)
Fixpoint spec_rows (rows : list listing_row) (s : spec_state) : spec_rows_result :=
  match rows with
  | [] => SpecDone s
  | r :: rest =>
      if tripped (sp_history s) then SpecDone s
      else
        match spec_record_of r (sp_pending s) with
        | NotARecord => spec_rows rest s
        | RecordEnriched tender_no l value_text d =>
            spec_rows rest
              (SpecState
                 (write_dict (sp_heap s) l (enrich_dict (read_dict (sp_heap s) l) value_text d))
                 (delete tender_no (sp_pending s)) (true :: sp_history s))
        | RecordFailed tender_no l control_missing =>
            spec_rows rest
              (SpecState (spec_mark_failed (sp_heap s) l control_missing)
                 (delete tender_no (sp_pending s)) (false :: sp_history s))
        | StageEnds => SpecReturn (sp_heap s)
        end
  end.





End Scraper.

(** ** otp_receiver.py *)

Module Otp.

(** Clock readings ([time.time()]) are only ever compared; they are integers
    here (ticks of the clock). *)
Abbreviation time := Z.

(** A delivery to the webhook: the code [_extract_otp] found in the message,
    if any, and the clock reading taken when it is stored. *)
Record delivery := Delivery {
  d_otp : option string;
  d_time : time;
}.

(** The fields of [OTPReceiver]. *)
Record receiver := Receiver {
  _latest_otp : option string;
  _otp_timestamp : time;
  _otp_request_time : time;
  _event : bool;
  _use_existing_server : bool;
}.

(** [OTPReceiver.__init__] *)
Definition init : receiver := Receiver None 0 0 false false.

Definition otp_truthy (o : option string) : bool :=
  match o with
  | Some s => PyStr.truthy s
  | None => false
  end.

(** The handler of [/sms-webhook], from [if otp:] on. *)
Definition sms_webhook (d : delivery) (r : receiver) : receiver :=
  if otp_truthy (d_otp d)
  then Receiver (d_otp d) (d_time d) (_otp_request_time r) true (_use_existing_server r)
  else r.

Definition deliver_all (ds : list delivery) (r : receiver) : receiver :=
  foldl (λ r d, sms_webhook d r) r ds.

(** [clear_for_new_otp], called when the clock reads [now]. *)
Definition clear_for_new_otp (now : time) (r : receiver) : receiver :=
  Receiver (_latest_otp r) (_otp_timestamp r) now false (_use_existing_server r).

(** The test made under the lock. *)
Definition fresh_ticket (request_time : time) (r : receiver) : bool :=
  otp_truthy (_latest_otp r) && bool_decide (request_time < _otp_timestamp r)%Z.

(** The polling loop against an already running server: the answers of
    [/get-otp] received before the timeout, in order. *)
Fixpoint poll_existing (request_time : time) (answers : list (option string * time))
    (r : receiver) : receiver * option string :=
  match answers with
  | [] => (r, None)
  | (otp, otp_ts) :: answers =>
      if otp_truthy otp && bool_decide (request_time < otp_ts)%Z
      then (Receiver otp otp_ts (_otp_request_time r) (_event r) (_use_existing_server r), otp)
      else poll_existing request_time answers r
  end.

(** [str.isdigit] on code points below 256. *)
Definition isdigit_ascii (a : ascii) : bool :=
  let n := nat_of_ascii a in
  (((48 <=? n) && (n <=? 57)) || (n =? 178) || (n =? 179) || (n =? 185))%nat.

Fixpoint all_digits (s : string) : bool :=
  match s with
  | EmptyString => true
  | String a r => isdigit_ascii a && all_digits r
  end.

Definition isdigit (s : string) : bool := PyStr.truthy s && all_digits s.

(** The manual fallback: [typed] is what [input] returns ([None] for
    EOF or an interrupt), [now] the clock reading when it is stored. *)
Definition manual_entry (typed : option string) (now : time) (r : receiver)
    : receiver * option string :=
  match typed with
  | None => (r, None)
  | Some line =>
      let manual_otp := PyStr.strip line in
      if PyStr.truthy manual_otp && isdigit manual_otp
         && bool_decide (4 ≤ String.length manual_otp ≤ 8)%nat
      then (Receiver (Some manual_otp) now (_otp_request_time r) (_event r)
              (_use_existing_server r), Some manual_otp)
      else (r, None)
  end.

(** What happens around a call of [wait_for_otp]. *)
Record wait_env := WaitEnv {
  w_headless : bool;                         (* config.HEADLESS *)
  w_during : list delivery;                  (* deliveries after the first test and up to
                                                the second one, within the timeout *)
  w_answers : list (option string * time);   (* answers of the polled server *)
  w_typed : option string;                   (* the manual entry *)
  w_now : time;                              (* the clock at the manual entry *)
}.

(** [wait_for_otp]: the receiver afterwards and the returned code.  The
    event wait returns [True] when the event is set on entry or a delivery
    sets it before the timeout. *)
Definition wait_for_otp (env : wait_env) (r : receiver) : receiver * option string :=
  let request_time := _otp_request_time r in
  if fresh_ticket request_time r then (r, _latest_otp r)
  else
    let '(r, found) :=
      if _use_existing_server r then poll_existing request_time (w_answers env) r
      else
        let r' := deliver_all (w_during env) r in
        let arrived := _event r' in
        if arrived && fresh_ticket request_time r' then (r', _latest_otp r')
        else (r', None) in
    match found with
    | Some otp => (r, Some otp)
    | None =>
        if w_headless env then (r, None)
        else manual_entry (w_typed env) (w_now env) r
    end.

End Otp.

(** ** login.py *)

Module Login.

(** Where a Playwright call of an attempt fails, if one does.  Such an
    error is not a [RuntimeError]. *)
Inductive crash_point := NoCrash | CrashBeforeGetOtp | CrashAfterGetOtp.

(** What the site, the solver and the OTP receiver answer in one attempt. *)
Record attempt_env := AttemptEnv {
  ae_crash : crash_point;
  ae_captcha_image : bool;          (* a CAPTCHA image is located *)
  ae_captcha_text : option string;  (* [solve_from_element]; [None]: its RuntimeError *)
  ae_captcha_rejected : bool;       (* "incorrect", "invalid" or "wrong" shown *)
  ae_webhook_otp : option string;   (* [wait_for_otp(timeout=90)] *)
  ae_rejected : bool;               (* "Authenticate Yourself" shown after Proceed *)
  ae_fresh_otp : option string;     (* [wait_for_otp(timeout=60)] *)
  ae_fresh_rejected : bool;         (* shown again after the second Proceed *)
}.

(** The variables of [_perform_login] and the files it writes. *)
Record login_state := LoginState {
  cached_otp : option string;
  otp_generations : nat;
  attempts_started : nat;           (* passes of the attempt loop entered *)
  otp_cache_file : option string;
  session_saved : bool;
}.

Inductive attempt_outcome :=
  | LoggedIn (st : login_state)
  | CaptchaRetry (st : login_state)             (* [continue] *)
  | Raised (e : exn) (st : login_state).

Definition with_cached (st : login_state) (c : option string) : login_state :=
  LoginState c (otp_generations st) (attempts_started st) (otp_cache_file st) (session_saved st).

Definition with_cache_file (st : login_state) (f : option string) : login_state :=
  LoginState (cached_otp st) (otp_generations st) (attempts_started st) f (session_saved st).

Definition success (st : login_state) (used_cache : bool) (otp : string) : attempt_outcome :=
  let st := LoginState (cached_otp st) (otp_generations st) (attempts_started st)
              (otp_cache_file st) true in
  LoggedIn (if used_cache then with_cache_file st (Some otp) else st).

(** Step 5 without a cached code: the code comes from the webhook. *)
Definition submit_webhook_otp (env : attempt_env) (st : login_state) : attempt_outcome :=
  match ae_webhook_otp env with
  | Some otp =>
      if PyStr.truthy otp then
        let st := with_cache_file st (Some otp) in
        if ae_rejected env
        then Raised (RuntimeError "OTP from webhook rejected by IREPS") st
        else success st false otp
      else Raised (RuntimeError "OTP not received within 90 seconds") st
  | None => Raised (RuntimeError "OTP not received within 90 seconds") st
  end.

(** Step 5 with the cached code [otp], and the recovery when it is rejected. *)
Definition submit_cached_otp (otp : string) (env : attempt_env) (st : login_state)
    : attempt_outcome :=
  if ae_rejected env then
    let st := with_cache_file (with_cached st None) None in
    match ae_fresh_otp env with
    | Some fresh_otp =>
        if PyStr.truthy fresh_otp then
          if bool_decide (fresh_otp ≠ otp) then
            let st := with_cache_file st (Some fresh_otp) in
            if ae_fresh_rejected env
            then Raised (RuntimeError "both cached and fresh OTP rejected") st
            else success st true fresh_otp
          else Raised (RuntimeError "OTP rejected by IREPS")
                 (with_cache_file st (Some fresh_otp))
        else Raised (RuntimeError "cached OTP expired and no fresh OTP") st
    | None => Raised (RuntimeError "cached OTP expired and no fresh OTP") st
    end
  else success st true otp.

(** Steps 5 to 7 of an attempt, after "Get OTP" was accepted. *)
Definition submit_otp (env : attempt_env) (st : login_state) : attempt_outcome :=
  match cached_otp st with
  | Some otp =>
      if PyStr.truthy otp then submit_cached_otp otp env st
      else submit_webhook_otp env st
  | None => submit_webhook_otp env st
  end.

(** The [try] block of one pass of the attempt loop. *)
Definition attempt_body (max_login_attempts attempt : nat) (env : attempt_env)
    (st : login_state) : attempt_outcome :=
  match ae_crash env with
  | CrashBeforeGetOtp => Raised (OtherError "playwright") st
  | _ =>
      if negb (ae_captcha_image env)
      then Raised (RuntimeError "Could not locate CAPTCHA image on page") st
      else
        match ae_captcha_text env with
        | None => Raised (RuntimeError "CAPTCHA solving failed") st
        | Some _ =>
            let st := LoginState (cached_otp st) (S (otp_generations st)) (attempts_started st)
                        (otp_cache_file st) (session_saved st) in
            match ae_crash env with
            | CrashAfterGetOtp => Raised (OtherError "playwright") st
            | _ =>
                if ae_captcha_rejected env then
                  if bool_decide (max_login_attempts ≤ attempt)%nat
                  then Raised (RuntimeError "CAPTCHA incorrect on all attempts") st
                  else CaptchaRetry st
                else submit_otp env st
            end
        end
  end.

(** [for attempt in range(1, max_login_attempts + 1)] with [n] passes left,
    then the code after the loop. *)
Fixpoint attempt_loop (max_login_attempts n attempt : nat) (envs : nat → attempt_env)
    (st : login_state) : result bool * login_state :=
  match n with
  | 0 => (Raise (RuntimeError "IREPS login failed"), st)
  | S n =>
      let st := LoginState (cached_otp st) (otp_generations st) (S (attempts_started st))
                  (otp_cache_file st) (session_saved st) in
      match attempt_body max_login_attempts attempt (envs attempt) st with
      | LoggedIn st => (Ok true, st)
      | CaptchaRetry st => attempt_loop max_login_attempts n (S attempt) envs st
      | Raised (RuntimeError msg) st =>
          if bool_decide (max_login_attempts ≤ attempt)%nat
          then (Raise (RuntimeError msg), st)
          else attempt_loop max_login_attempts n (S attempt) envs st
      | Raised e st => (Raise e, st)
      end
  end.

(** [_perform_login]: [loaded] is what [_load_cached_otp] returns and
    [cache_file] the code in the cache file, [envs k] the answers during
    attempt [k]. *)
Definition _perform_login (max_login_attempts : nat) (loaded cache_file : option string)
    (envs : nat → attempt_env) : result bool * login_state :=
  attempt_loop max_login_attempts max_login_attempts 1 envs
    (LoginState loaded 0 0 cache_file false).

(** [ensure_session]: the saved session is used when it is young enough and
    verifies, otherwise the full login runs with its default of 2 attempts. *)
Definition ensure_session (session_is_valid verify_session : bool)
    (loaded cache_file : option string) (envs : nat → attempt_env)
    : result bool * login_state :=
  if session_is_valid && verify_session
  then (Ok true, LoginState loaded 0 0 cache_file false)
  else _perform_login 2 loaded cache_file envs.

End Login.

(** ** scraper.py: Phase 1, the listing *)

Module Listing.
Import Scraper.

(** config.py: the development limit on harvested tenders, 0 for none. *)
Definition MAX_TENDERS_DEV : nat := 0.

(** A row of the listing table as the row loop meets it. *)
Inductive table_row :=
  | TRowRaises                 (* locating the row or counting its cells raises *)
  | TRow (row : row_view).

(** The current page as [_extract_table_rows] finds it. *)
Inductive table_view :=
  | TableRaises                (* a locator call raises before the row loop *)
  | TableNone                  (* no table carries the expected headers *)
  | TableRows (rows : list table_row).

(** One iteration of [for row_idx in range(row_count)]; every exception of
    the body is caught and the loop goes on. *)
Definition table_row_step (tenders : list dict) (r : table_row) : list dict :=
  match r with
  | TRowRaises => tenders
  | TRow row =>
      if bool_decide (length (rv_cells row) < 7) then tenders
      else
        match _parse_row_cells row with
        | Ok (Some tender) =>
            if bool_decide (tender ≠ ∅) && py_truthy (get_or_none tender "tender_no") then
              match get_or_empty tender "work_area" with
              | VStr work_area =>
                  if bool_decide (PyStr.lower (PyStr.strip work_area) ≠ "works") then tenders
                  else tenders ++ [tender]
              | _ => tenders
              end
            else tenders
        | Ok None => tenders
        | Raise _ => tenders
        end
  end.

(** [_extract_table_rows] *)
Definition _extract_table_rows (page : table_view) : list dict :=
  match page with
  | TableRaises => []
  | TableNone => []
  | TableRows rows => foldl table_row_step [] rows
  end.

(** The listing as Phase 1 walks it: the navigation to the search page with
    the tab click, the page shown then, and the pages that a click on "Next"
    leads to, in order; after the last of them [_click_next_page] answers
    [False]. *)
Record listing := MkListing {
  ls_open : result unit;
  ls_first : table_view;
  ls_next : list table_view;
}.

(** [while True:] of [_scrape_listing], on the page [cur]. *)
Fixpoint listing_loop (dev_limit : nat) (cur : table_view) (rest : list table_view)
    (all_tenders : list dict) : list dict :=
  let all_tenders := all_tenders ++ _extract_table_rows cur in
  if negb (dev_limit =? 0)%nat && (dev_limit <=? length all_tenders)%nat
  then take dev_limit all_tenders
  else
    match rest with
    | [] => all_tenders
    | next :: rest => listing_loop dev_limit next rest all_tenders
    end.

(** [_scrape_listing], with [dev_limit] the value of
    [config.MAX_TENDERS_DEV or 0]. *)
Definition _scrape_listing (dev_limit : nat) (ls : listing) : result (list dict) :=
  rdo _ <- ls_open ls;
  Ok (listing_loop dev_limit (ls_first ls) (ls_next ls) []).

End Listing.

(** ** scraper.py: the detail page and its documents *)

Module Detail.
Import Scraper.

(** [value.count(c)] for a single character. *)
Fixpoint count_char (c : ascii) (s : string) : nat :=
  match s with
  | EmptyString => 0
  | String a r => (if Ascii.eqb a c then 1 else 0) + count_char c r
  end.

(** [_is_junk_value] *)
Definition _is_junk_value (value : string) : bool :=
  if negb (PyStr.truthy value) then false
  else if bool_decide (3 < count_char "009" value) then true
  else if contains "createOptorDpdw()" value || contains "document.getElementById" value
  then true
  else if bool_decide (500 < String.length value) then true
  else false.

(** locators.py: [DETAIL_LABELS]. *)
Definition DETAIL_LABELS : list (string * string) :=
  [ ("tender_type", "Tender Type");
    ("date_of_issue", "Date of Issue");
    ("estimated_value", "Estimated Value");
    ("emd_amount", "EMD Amount");
    ("document_cost", "Document Cost");
    ("contact_officer", "Contact Officer");
    ("corrigendum", "Corrigendum");
    ("description", "Description");
    ("closing_date", "Closing Date") ].

(** What the detail page answers for one label. *)
Inductive label_view :=
  | LabelRaises                (* a locator call raises: the handler logs and goes on *)
  | LabelMissing               (* neither the exact nor the inexact text is found *)
  | LabelFound (row_cell : option string) (sibling : result (option string)).
      (* the inner text of the second cell of the label's row, if there is
         one, and of the label's next sibling, which is only asked for when
         the row gives no value *)

(** The value text the loop body of [_extract_detail_fields] ends with for
    one label, [""] when the body is left early. *)
Definition label_value (label_text : string) (v : label_view) : string :=
  match v with
  | LabelRaises => ""
  | LabelMissing => ""
  | LabelFound row_cell sibling =>
      let value_text :=
        match row_cell with
        | Some text =>
            let candidate := PyStr.strip text in
            if PyStr.truthy candidate && negb (bool_decide (candidate = label_text))
               && negb (_is_junk_value candidate)
            then candidate else ""
        | None => ""
        end in
      if negb (PyStr.truthy value_text) then
        match sibling with
        | Ok (Some text) =>
            let candidate := PyStr.strip text in
            if PyStr.truthy candidate && negb (_is_junk_value candidate)
            then candidate else ""
        | Ok None => ""
        | Raise _ => ""
        end
      else value_text
  end.

(** The value text of every field of a detail page, given what the page
    answers for the label of each field. *)
Definition page_value_text (page : string → label_view) (field_name : string) : string :=
  match list_to_map (M := gmap string string) DETAIL_LABELS !! field_name with
  | Some label_text => label_value label_text (page field_name)
  | None => ""
  end.

(** The link of a row of the [#attach_docs] table. *)
Record doc_link := DocLink {
  dl_text : string;                  (* inner text *)
  dl_onclick : string;               (* onclick attribute, or "" *)
  dl_onclick_target : option string; (* group 1 of the window.open pattern *)
  dl_href : string;                  (* href attribute, or "" *)
}.

(** A data row of the [#attach_docs] table. *)
Inductive doc_row :=
  | DRowRaises                 (* a call raises before the url is recorded *)
  | DRow (cell_count : nat) (link : option doc_link) (description : result string).
      (* [description]: the inner text of the third cell, read when there
         are three cells *)

Inductive attach_view :=
  | AttachRaises               (* locating the table or counting its rows raises *)
  | AttachNone
  | AttachRows (rows : list doc_row).

Definition new_doc (file_name file_url description : string) : doc :=
  {[ "file_name" := file_name; "file_url" := file_url; "description" := description ]}.

(** The url of a document row: from [onclick], else from [href]; [None]
    when the row is skipped for want of a url. *)
Definition doc_file_url (link : doc_link) : option string :=
  let onclick := PyStr.strip (dl_onclick link) in
  let file_url : option string :=
    if PyStr.truthy onclick then
      match dl_onclick_target link with
      | Some path => Some (absolute_url path)
      | None => None
      end
    else None in
  let file_url :=
    if negb (from_option PyStr.truthy false file_url) then
      let href := PyStr.strip (dl_href link) in
      if PyStr.truthy href && negb (bool_decide (href = "#"))
         && negb (bool_decide (href = "javascript:void(0)"))
      then Some (absolute_url href)
      else file_url
    else file_url in
  if negb (from_option PyStr.truthy false file_url) then None else file_url.

(** One iteration of [for row_idx in range(1, row_count)] on [documents] and
    [seen_urls]. *)
Definition attached_step (st : list doc * gset string) (r : doc_row)
    : list doc * gset string :=
  let '(documents, seen_urls) := st in
  match r with
  | DRowRaises => st
  | DRow cell_count link description =>
      if bool_decide (cell_count < 2)%nat then st
      else
        match link with
        | None => st
        | Some link =>
            let file_name := PyStr.strip (dl_text link) in
            match doc_file_url link with
            | None => st
            | Some file_url =>
                if bool_decide (file_url ∈ seen_urls) then st
                else
                  let seen_urls := {[file_url]} ∪ seen_urls in
                  if bool_decide (3 ≤ cell_count)%nat then
                    match description with
                    | Ok text =>
                        (documents ++ [new_doc file_name file_url (PyStr.strip text)],
                         seen_urls)
                    | Raise _ => (documents, seen_urls)
                    end
                  else (documents ++ [new_doc file_name file_url ""], seen_urls)
            end
        end
  end.

(** [_extract_attached_docs] *)
Definition _extract_attached_docs (page : attach_view) : result (list doc) :=
  match page with
  | AttachRaises => Raise (OtherError "locator")
  | AttachNone => Ok []
  | AttachRows rows => Ok (foldl attached_step ([], ∅) rows).1
  end.

(** What the page answers to [_capture_tender_doc_url]. *)
Record doc_button := DocButton {
  db_js_url : result (option string);      (* the url found in the page scripts *)
  db_button : result bool;                 (* the download control is found *)
  db_new_tab : result string;              (* the url of the tab the click opens *)
  db_form_action : result (option string); (* the form action after the click *)
}.

(** [_capture_tender_doc_url]; [context] tells whether a context is given. *)
Definition _capture_tender_doc_url (context : bool) (b : doc_button) : option string :=
  let from_js :=
    match db_js_url b with
    | Ok (Some js_url) => if PyStr.truthy js_url then Some (absolute_url js_url) else None
    | _ => None
    end in
  match from_js with
  | Some u => Some u
  | None =>
      if context then
        match db_button b with
        | Ok true =>
            let from_tab :=
              match db_new_tab b with
              | Ok tender_doc_url =>
                  if PyStr.truthy tender_doc_url
                     && negb (bool_decide (tender_doc_url ∈ ["about:blank"; "#"]))
                  then Some tender_doc_url else None
              | Raise _ => None
              end in
            match from_tab with
            | Some u => Some u
            | None =>
                match db_form_action b with
                | Ok (Some download_url) =>
                    if PyStr.truthy download_url then Some (absolute_url download_url)
                    else None
                | _ => None
                end
            end
        | _ => None
        end
      else None
  end.

(** [_extract_documents]: both parts catch every exception. *)
Definition _extract_documents (context : bool) (b : doc_button) (page : attach_view)
    : doc_outcome :=
  DocsOk (_capture_tender_doc_url context b)
         (match _extract_attached_docs page with
          | Ok documents => documents
          | Raise _ => []
          end).

End Detail.

(** ** captcha_solver.py *)

Module Captcha.

(** What one pass of the retry loop of [solve_from_element] meets: an
    exception with its message (from the screenshot, from the service, or
    from reading the answer), or the text under ["code"] in the answer,
    [""] when there is none. *)
Inductive solve_answer :=
  | SolveRaises (msg : string)
  | SolveCode (code : string).

(** [for attempt in range(1, max_retries + 1)] with [n] passes left, then
    the [raise] after the loop. *)
Fixpoint solve_loop (max_retries n attempt : nat) (answers : nat → solve_answer)
    (last_error : option string) : result string :=
  match n with
  | 0 =>
      Raise (RuntimeError ("CAPTCHA solving failed after " +:+ pretty max_retries
                           +:+ " attempts: " +:+ default "None" last_error))
  | S n =>
      match answers attempt with
      | SolveCode code =>
          let solved_text := PyStr.strip code in
          if negb (PyStr.truthy solved_text)
          then solve_loop max_retries n (S attempt) answers
                 (Some "2captcha returned empty result")
          else Ok solved_text
      | SolveRaises msg => solve_loop max_retries n (S attempt) answers (Some msg)
      end
  end.

(** [CaptchaSolver.solve_from_element] *)
Definition solve_from_element (max_retries : nat) (answers : nat → solve_answer)
    : result string :=
  solve_loop max_retries max_retries 1 answers None.

End Captcha.

(* ===================================================================== *)
(** * Properties                                                           *)
(* ===================================================================== *)

(** ** The store *)

Lemma read_dict_write_eq h l d : read_dict (write_dict h l d) l = d.
Proof. unfold read_dict, write_dict. simpl. by rewrite lookup_insert_eq. Qed.

Lemma read_dict_write_ne h l l' d : l ≠ l' → read_dict (write_dict h l d) l' = read_dict h l'.
Proof. intros ?. unfold read_dict, write_dict. simpl. by rewrite lookup_insert_ne. Qed.

Lemma read_dict_set_item_eq h l k v :
  read_dict (set_item h l k v) l = <[k := v]> (read_dict h l).
Proof. apply read_dict_write_eq. Qed.

Lemma read_dict_set_item_ne h l l' k v :
  l ≠ l' → read_dict (set_item h l k v) l' = read_dict h l'.
Proof. apply read_dict_write_ne. Qed.

Lemma h_lists_set_item h l k v : h_lists (set_item h l k v) = h_lists h.
Proof. done. Qed.

Lemma read_list_set_item h l k v l' : read_list (set_item h l k v) l' = read_list h l'.
Proof. done. Qed.

Lemma setdefault_present (d : dict) k v w : d !! k = Some w → setdefault d k v = d.
Proof. intros H. unfold setdefault. by rewrite H. Qed.

Lemma setdefault_is_Some (d : dict) k v : is_Some (setdefault d k v !! k).
Proof.
  unfold setdefault. destruct (d !! k) eqn:Hk; [by rewrite Hk|].
  rewrite lookup_insert_eq. by eexists.
Qed.

Lemma setdefault_lookup_ne (d : dict) k k' v : k ≠ k' → setdefault d k v !! k' = d !! k'.
Proof.
  intros Hne. unfold setdefault. destruct (d !! k); [done|]. by rewrite lookup_insert_ne.
Qed.

(** ** [visible_eq] *)

Lemma visible_eq_refl d : visible_eq d d.
Proof. by intros k _. Qed.

Lemma visible_eq_trans d1 d2 d3 : visible_eq d1 d2 → visible_eq d2 d3 → visible_eq d1 d3.
Proof. intros H1 H2 k Hk. by rewrite H1, H2. Qed.

Lemma visible_eq_insert d k v : PyStr.startswith "_" k = true → visible_eq d (<[k := v]> d).
Proof.
  intros Hk k' Hk'. rewrite lookup_insert_ne; [done|]. intros ->. congruence.
Qed.

Lemma get_tender_no_visible d d' : visible_eq d d' → get_tender_no d = get_tender_no d'.
Proof.
  intros H. unfold get_tender_no, get_or_empty. by rewrite (H "tender_no").
Qed.

Lemma get_status_visible d d' :
  visible_eq d d' → get_or_empty d "status" = get_or_empty d' "status".
Proof. intros H. unfold get_or_empty. by rewrite (H "status"). Qed.

(** ** [_diff] and the classification *)

Section ChangeDetectorFacts.

Variable py_repr : pyval → string.

Lemma norm_field_absent (d : dict) k : d !! k = None → norm_field py_repr d k = "".
Proof. intros H. unfold norm_field, get_or_empty. by rewrite H. Qed.

Lemma norm_field_visible d d' k :
  visible_eq d d' → skipped_key k = false →
  norm_field py_repr d k = norm_field py_repr d' k.
Proof.
  intros H Hk. unfold norm_field, get_or_empty.
  apply orb_false_iff in Hk as [Hk _]. by rewrite (H k Hk).
Qed.

(** The loop of [_diff] computes [field_change] at every key. *)
Lemma diff_lookup old new k :
  _diff py_repr old new !! k = field_change py_repr old new k.
Proof.
  unfold _diff.
  assert (∀ X : gset string, ∀ k,
    set_fold (diff_step py_repr old new) ∅ X !! k =
      if decide (k ∈ X) then field_change py_repr old new k else None) as Hfold.
  { intros X.
    pose (P := λ (acc : gmap string (string * string)) (Y : gset string),
             ∀ k', acc !! k' =
               if decide (k' ∈ Y) then field_change py_repr old new k' else None).
    apply (set_fold_ind_L P (diff_step py_repr old new) ∅); unfold P; clear P.
    - intros k'. rewrite lookup_empty. case_decide; [set_solver|done].
    - intros x Y acc Hx IH k'.
      destruct (decide (k' = x)) as [->|Hne].
      + destruct (decide (x ∈ {[x]} ∪ Y)) as [_|Hn]; [|set_solver].
        specialize (IH x). destruct (decide (x ∈ Y)) as [|_]; [done|].
        unfold diff_step, field_change.
        destruct (skipped_key x); [done|].
        case_decide; [done|]. by rewrite lookup_insert_eq.
      + assert (diff_step py_repr old new x acc !! k' = acc !! k') as ->.
        { unfold diff_step. destruct (skipped_key x); [done|].
          case_decide; [done|]. by rewrite lookup_insert_ne. }
        rewrite IH.
        destruct (decide (k' ∈ Y)) as [Hy|Hy];
          destruct (decide (k' ∈ {[x]} ∪ Y)) as [Hxy|Hxy]; try done.
        * exfalso. apply Hxy. apply elem_of_union. by right.
        * exfalso. apply elem_of_union in Hxy as [Hx'|Hx']; [|done].
          by apply elem_of_singleton in Hx'. }
  rewrite Hfold. case_decide as Hin; [done|].
  unfold field_change. destruct (skipped_key k); [done|].
  assert (old !! k = None) as Ho by (apply not_elem_of_dom; set_solver).
  assert (new !! k = None) as Hn by (apply not_elem_of_dom; set_solver).
  rewrite (norm_field_absent old k Ho), (norm_field_absent new k Hn).
  by case_decide.
Qed.

Lemma diff_visible old t t' :
  visible_eq t t' → _diff py_repr old t = _diff py_repr old t'.
Proof.
  intros H. apply map_eq. intros k. rewrite !diff_lookup. unfold field_change.
  destruct (skipped_key k) eqn:Hk; [done|].
  by rewrite (norm_field_visible t t' k H Hk).
Qed.

Lemma classify_visible memory t t' :
  visible_eq t t' → classify py_repr memory t = classify py_repr memory t'.
Proof.
  intros H. unfold classify. rewrite (get_tender_no_visible t t' H).
  destruct (get_tender_no t'); [|done].
  destruct (PyStr.truthy a); [|done].
  destruct (memory !! a); [|done].
  by rewrite (diff_visible _ t t' H).
Qed.

(** The diff is empty exactly when no comparable field differs. *)
Lemma diff_empty_iff old new :
  _diff py_repr old new = ∅ ↔
  ∀ k, skipped_key k = false → norm_field py_repr old k = norm_field py_repr new k.
Proof.
  split.
  - intros H k Hk. pose proof (diff_lookup old new k) as Hl.
    rewrite H, lookup_empty in Hl. unfold field_change in Hl. rewrite Hk in Hl.
    by case_decide.
  - intros H. apply map_eq. intros k. rewrite diff_lookup, lookup_empty.
    unfold field_change. destruct (skipped_key k) eqn:Hk; [done|].
    case_decide as Hd; [done|]. destruct Hd. by apply H.
Qed.

Lemma diff_status_iff old new :
  is_Some (_diff py_repr old new !! "status") ↔
  norm_field py_repr old "status" ≠ norm_field py_repr new "status".
Proof.
  rewrite diff_lookup. unfold field_change.
  assert (skipped_key "status" = false) as -> by done.
  case_decide as Hd; split.
  - intros [? ?]. done.
  - intros Hne. by destruct Hne.
  - done.
  - intros _. by eexists.
Qed.

End ChangeDetectorFacts.

(** ** The loop of [detect_changes] *)

Section DetectLoopFacts.

Variable py_repr : pyval → string.

Lemma classify_unfold memory d tender_no :
  get_tender_no d = Ok tender_no → PyStr.truthy tender_no = true →
  classify py_repr memory d =
    match memory !! tender_no with
    | None => Some NEW
    | Some old =>
        if decide (_diff py_repr old d = ∅) then Some UNCHANGED
        else if decide (is_Some (_diff py_repr old d !! "status")) then Some STATUS_CHANGED
        else Some UPDATED
    end.
Proof. intros H1 H2. unfold classify. by rewrite H1, H2. Qed.

Lemma annotated_intro memory d d' c :
  visible_eq d d' →
  classify py_repr memory d = Some c →
  d' !! "_change_type" = Some (VStr (change_type_name c)) →
  (c = STATUS_CHANGED → ∀ tender_no old,
      get_tender_no d = Ok tender_no → memory !! tender_no = Some old →
      d' !! "_old_status" = Some (get_or_empty old "status") ∧
      d' !! "_new_status" = Some (get_or_empty d "status")) →
  (c = UPDATED → ∀ tender_no old,
      get_tender_no d = Ok tender_no → memory !! tender_no = Some old →
      d' !! "_changes" = Some (VChanges (_diff py_repr old d))) →
  annotated py_repr memory d'.
Proof.
  intros Hv Hc Hct Hsc Hup c' Hc'.
  rewrite <- (classify_visible py_repr memory d d' Hv) in Hc'.
  assert (c' = c) as -> by congruence.
  split; [done|]. split.
  - intros -> no old Hno Hm. rewrite <- (get_tender_no_visible d d' Hv) in Hno.
    rewrite <- (get_status_visible d d' Hv). by apply (Hsc eq_refl no old).
  - intros -> no old Hno Hm. rewrite <- (get_tender_no_visible d d' Hv) in Hno.
    rewrite <- (diff_visible py_repr old d d' Hv). by apply (Hup eq_refl no old).
Qed.

Lemma detect_one_spec memory h b l :
  tender_no_is_str (read_dict h l) →
  ∃ h', detect_one py_repr memory (h, b) l
          = Ok (h', add_bucket (classify py_repr memory (read_dict h l)) l b)
    ∧ h_lists h' = h_lists h
    ∧ (∀ l', l ≠ l' → read_dict h' l' = read_dict h l')
    ∧ visible_eq (read_dict h l) (read_dict h' l)
    ∧ annotated py_repr memory (read_dict h' l).
Proof.
  intros [no Hno]. unfold detect_one. rewrite Hno. simpl.
  destruct (PyStr.truthy no) eqn:Ht; simpl.
  2: { exists h. unfold classify. rewrite Hno, Ht. simpl.
       split; [done|]. split; [done|]. split; [done|].
       split; [apply visible_eq_refl|].
       intros c Hc. unfold classify in Hc. by rewrite Hno, Ht in Hc. }
  rewrite (classify_unfold memory _ no Hno Ht).
  destruct (memory !! no) as [old|] eqn:Hm.
  - destruct (decide (_diff py_repr old (read_dict h l) = ∅)) as [He|He].
    + eexists. split; [reflexivity|]. split; [done|]. split.
      { intros l' Hl'. by rewrite read_dict_set_item_ne. }
      rewrite read_dict_set_item_eq.
      assert (visible_eq (read_dict h l) (<["_change_type" := VStr "UNCHANGED"]> (read_dict h l)))
        as Hv by (by apply visible_eq_insert).
      split; [done|].
      apply (annotated_intro memory (read_dict h l) _ UNCHANGED Hv).
      * rewrite (classify_unfold memory _ no Hno Ht), Hm. by rewrite decide_True.
      * by rewrite lookup_insert_eq.
      * done.
      * done.
    + destruct (decide (is_Some (_diff py_repr old (read_dict h l) !! "status"))) as [Hs|Hs].
      * eexists. split; [reflexivity|]. split; [done|]. split.
        { intros l' Hl'. by rewrite !read_dict_set_item_ne. }
        rewrite !read_dict_set_item_eq.
        set (d := read_dict h l) in *.
        assert (visible_eq d
                  (<["_new_status" := get_or_empty
                       (<["_old_status" := get_or_empty old "status"]>
                          (<["_change_type" := VStr "STATUS_CHANGED"]> d)) "status"]>
                     (<["_old_status" := get_or_empty old "status"]>
                        (<["_change_type" := VStr "STATUS_CHANGED"]> d)))) as Hv.
        { eapply visible_eq_trans; [|by apply visible_eq_insert].
          eapply visible_eq_trans; [|by apply visible_eq_insert].
          by apply visible_eq_insert. }
        split; [done|].
        apply (annotated_intro memory d _ STATUS_CHANGED Hv).
        -- rewrite (classify_unfold memory _ no Hno Ht), Hm.
           rewrite decide_False by done. by rewrite decide_True.
        -- by rewrite lookup_insert_ne, lookup_insert_ne, lookup_insert_eq.
        -- intros _ no' old' Hno' Hm'.
           assert (no' = no) as -> by congruence.
           assert (old' = old) as -> by congruence.
           split.
           ++ by rewrite lookup_insert_ne, lookup_insert_eq.
           ++ rewrite lookup_insert_eq. f_equal.
              unfold get_or_empty. by rewrite lookup_insert_ne, lookup_insert_ne.
        -- done.
      * eexists. split; [reflexivity|]. split; [done|]. split.
        { intros l' Hl'. by rewrite !read_dict_set_item_ne. }
        rewrite !read_dict_set_item_eq.
        set (d := read_dict h l) in *.
        assert (visible_eq d
                  (<["_changes" := VChanges (_diff py_repr old d)]>
                     (<["_change_type" := VStr "UPDATED"]> d))) as Hv.
        { eapply visible_eq_trans; [|by apply visible_eq_insert].
          by apply visible_eq_insert. }
        split; [done|].
        apply (annotated_intro memory d _ UPDATED Hv).
        -- rewrite (classify_unfold memory _ no Hno Ht), Hm.
           rewrite decide_False by done. by rewrite decide_False.
        -- by rewrite lookup_insert_ne, lookup_insert_eq.
        -- done.
        -- intros _ no' old' Hno' Hm'.
           assert (no' = no) as -> by congruence.
           assert (old' = old) as -> by congruence.
           by rewrite lookup_insert_eq.
  - eexists. split; [reflexivity|]. split; [done|]. split.
    { intros l' Hl'. by rewrite read_dict_set_item_ne. }
    rewrite read_dict_set_item_eq.
    assert (visible_eq (read_dict h l) (<["_change_type" := VStr "NEW"]> (read_dict h l)))
      as Hv by (by apply visible_eq_insert).
    split; [done|].
    apply (annotated_intro memory (read_dict h l) _ NEW Hv).
    + by rewrite (classify_unfold memory _ no Hno Ht), Hm.
    + by rewrite lookup_insert_eq.
    + done.
    + done.
Qed.

Lemma foldl_add_bucket_ext (f g : loc → option change_type) ls : ∀ b,
  (∀ l, l ∈ ls → f l = g l) →
  foldl (λ b l, add_bucket (f l) l b) b ls = foldl (λ b l, add_bucket (g l) l b) b ls.
Proof.
  induction ls as [|l ls IH]; intros b H; [done|]. simpl.
  rewrite (H l) by apply list_elem_of_here.
  apply IH. intros l' Hl'. apply H. by apply list_elem_of_further.
Qed.

Lemma detect_loop_spec memory ls : ∀ h b,
  Forall (λ l, tender_no_is_str (read_dict h l)) ls →
  ∃ h', detect_loop py_repr memory (h, b) ls
          = Ok (h', foldl (λ b l, add_bucket (classify py_repr memory (read_dict h l)) l b) b ls)
    ∧ h_lists h' = h_lists h
    ∧ (∀ l, visible_eq (read_dict h l) (read_dict h' l))
    ∧ (∀ l, l ∉ ls → read_dict h' l = read_dict h l)
    ∧ (∀ l, l ∈ ls → annotated py_repr memory (read_dict h' l)).
Proof.
  induction ls as [|l ls IH]; intros h b Hall.
  - exists h. simpl. split; [done|]. split; [done|].
    split; [intros; apply visible_eq_refl|]. split; [done|].
    intros l Hl. by apply elem_of_nil in Hl.
  - apply Forall_cons in Hall as [Hl Hall].
    destruct (detect_one_spec memory h b l Hl) as (h1 & Hone & Hlists1 & Hne1 & Hvis1 & Hann1).
    assert (∀ l', visible_eq (read_dict h l') (read_dict h1 l')) as Hvis.
    { intros l'. destruct (decide (l = l')) as [<-|Hne]; [done|].
      rewrite (Hne1 l' Hne). apply visible_eq_refl. }
    assert (Forall (λ l, tender_no_is_str (read_dict h1 l)) ls) as Hall1.
    { eapply Forall_impl; [exact Hall|]. intros l' [s Hs]. exists s.
      by rewrite <- (get_tender_no_visible _ _ (Hvis l')). }
    destruct (IH h1 (add_bucket (classify py_repr memory (read_dict h l)) l b) Hall1)
      as (h' & Hloop & Hlists & Hvis' & Hout & Hann).
    exists h'.
    change (detect_loop py_repr memory (h, b) (l :: ls))
      with (rbind (detect_one py_repr memory (h, b) l)
              (λ st, detect_loop py_repr memory st ls)).
    rewrite Hone. cbn [rbind]. rewrite Hloop. cbn [foldl].
    split.
    { f_equal. f_equal. apply foldl_add_bucket_ext. intros l' _.
      symmetry. by apply classify_visible. }
    split; [congruence|].
    split; [intros l'; eapply visible_eq_trans; [apply Hvis|apply Hvis']|].
    split.
    { intros l' Hl'. apply not_elem_of_cons in Hl' as [Hne Hl'].
      rewrite (Hout l' Hl'). apply Hne1. congruence. }
    intros l' Hl'. destruct (decide (l' ∈ ls)) as [Hin|Hnin]; [by apply Hann|].
    apply elem_of_cons in Hl' as [->|?]; [|done].
    by rewrite (Hout l Hnin).
Qed.

Lemma foldl_add_bucket (cls : loc → option change_type) ls : ∀ b,
  let b' := foldl (λ b l, add_bucket (cls l) l b) b ls in
  b_new b' = b_new b ++ filter (λ l, cls l = Some NEW) ls ∧
  b_updated b' = b_updated b ++ filter (λ l, cls l = Some UPDATED) ls ∧
  b_status_changed b' = b_status_changed b ++ filter (λ l, cls l = Some STATUS_CHANGED) ls ∧
  b_unchanged b' = b_unchanged b ++ filter (λ l, cls l = Some UNCHANGED) ls.
Proof.
  induction ls as [|l ls IH]; intros b; simpl.
  - by rewrite !app_nil_r.
  - destruct (IH (add_bucket (cls l) l b)) as (H1 & H2 & H3 & H4).
    rewrite H1, H2, H3, H4. rewrite !filter_cons.
    destruct (cls l) as [[]|]; simpl;
      repeat (rewrite decide_True by done); repeat (rewrite decide_False by done);
      by rewrite <- ?app_assoc.
Qed.

(** What [detect_changes] returns, in terms of [classify]. *)
Lemma detect_changes_spec memory now h tenders :
  Forall (λ l, tender_no_is_str (read_dict h l)) (read_list h tenders) →
  ∃ h' rep,
    detect_changes py_repr memory now h tenders = Ok (h', rep)
    ∧ let items := read_list h tenders in
      let cls := λ l, classify py_repr memory (read_dict h l) in
      r_new rep = filter (λ l, cls l = Some NEW) items
    ∧ r_updated rep = filter (λ l, cls l = Some UPDATED) items
    ∧ r_status_changed rep = filter (λ l, cls l = Some STATUS_CHANGED) items
    ∧ r_unchanged rep = filter (λ l, cls l = Some UNCHANGED) items
    ∧ r_all rep = tenders
    ∧ r_summary rep = Summary (length items) (length (r_new rep)) (length (r_updated rep))
                        (length (r_status_changed rep)) (length (r_unchanged rep)) now
    ∧ h_lists h' = h_lists h
    ∧ (∀ l, visible_eq (read_dict h l) (read_dict h' l))
    ∧ (∀ l, l ∉ items → read_dict h' l = read_dict h l)
    ∧ (∀ l, l ∈ items → annotated py_repr memory (read_dict h' l)).
Proof.
  intros Hall.
  destruct (detect_loop_spec memory (read_list h tenders) h (Buckets [] [] [] []) Hall)
    as (h' & Hloop & Hlists & Hvis & Hout & Hann).
  unfold detect_changes. rewrite Hloop. simpl.
  eexists _, _. split; [reflexivity|]. simpl.
  destruct (foldl_add_bucket (λ l, classify py_repr memory (read_dict h l))
              (read_list h tenders) (Buckets [] [] [] [])) as (H1 & H2 & H3 & H4).
  simpl in *. rewrite H1, H2, H3, H4. done.
Qed.

Lemma classify_is_Some memory d :
  is_Some (classify py_repr memory d) ↔ has_identity d = true.
Proof.
  unfold classify, has_identity. destruct (get_tender_no d) as [no|].
  - destruct (PyStr.truthy no).
    + split; [done|]. intros _. destruct (memory !! no); [|by eexists].
      repeat case_decide; by eexists.
    + split; [by intros [? ?]|done].
  - split; [by intros [? ?]|done].
Qed.

Lemma filter_classes_partition (cls : loc → option change_type) ls :
  filter (λ l, cls l = Some NEW) ls ++ filter (λ l, cls l = Some UPDATED) ls ++
  filter (λ l, cls l = Some STATUS_CHANGED) ls ++ filter (λ l, cls l = Some UNCHANGED) ls
  ≡ₚ filter (λ l, is_Some (cls l)) ls.
Proof.
  induction ls as [|l ls IH]; [done|].
  rewrite !filter_cons. destruct (cls l) as [[]|] eqn:Hc.
  - rewrite decide_True by done. rewrite !(decide_False (P := _ = _)) by done.
    rewrite decide_True by (by eexists). rewrite <- IH. solve_Permutation.
  - rewrite (decide_True (P := Some UPDATED = Some UPDATED)) by done.
    rewrite !(decide_False (P := _ = _)) by done.
    rewrite decide_True by (by eexists). rewrite <- IH. solve_Permutation.
  - rewrite (decide_True (P := Some STATUS_CHANGED = Some STATUS_CHANGED)) by done.
    rewrite !(decide_False (P := _ = _)) by done.
    rewrite decide_True by (by eexists). rewrite <- IH. solve_Permutation.
  - rewrite (decide_True (P := Some UNCHANGED = Some UNCHANGED)) by done.
    rewrite !(decide_False (P := _ = _)) by done.
    rewrite decide_True by (by eexists). rewrite <- IH. solve_Permutation.
  - rewrite !(decide_False (P := _ = _)) by done.
    rewrite decide_False by (by intros [? ?]). done.
Qed.

Lemma filter_classified_identity memory (h : heap) (ls : list loc) :
  filter (λ l, is_Some (classify py_repr memory (read_dict h l))) ls
  = filter (λ l, has_identity (read_dict h l) = true) ls.
Proof.
  induction ls as [|l ls IH]; [done|].
  rewrite !filter_cons.
  destruct (decide (is_Some (classify py_repr memory (read_dict h l)))) as [Hs|Hs].
  - rewrite decide_True by (by apply (classify_is_Some memory)).
    by rewrite IH.
  - rewrite decide_False; [done|]. intros Hid. apply Hs.
    by apply (classify_is_Some memory).
Qed.

(** What the call does to one classified record of the input. *)
Lemma detect_changes_classified memory now h tenders l c :
  Forall (λ l, tender_no_is_str (read_dict h l)) (read_list h tenders) →
  l ∈ read_list h tenders →
  classify py_repr memory (read_dict h l) = Some c →
  ∃ h' rep,
    detect_changes py_repr memory now h tenders = Ok (h', rep)
    ∧ (l ∈ r_new rep ↔ c = NEW)
    ∧ (l ∈ r_updated rep ↔ c = UPDATED)
    ∧ (l ∈ r_status_changed rep ↔ c = STATUS_CHANGED)
    ∧ (l ∈ r_unchanged rep ↔ c = UNCHANGED)
    ∧ read_dict h' l !! "_change_type" = Some (VStr (change_type_name c))
    ∧ (c = STATUS_CHANGED → ∀ tender_no old,
          get_tender_no (read_dict h l) = Ok tender_no → memory !! tender_no = Some old →
          read_dict h' l !! "_old_status" = Some (get_or_empty old "status") ∧
          read_dict h' l !! "_new_status" = Some (get_or_empty (read_dict h l) "status"))
    ∧ (c = UPDATED → ∀ tender_no old,
          get_tender_no (read_dict h l) = Ok tender_no → memory !! tender_no = Some old →
          read_dict h' l !! "_changes" = Some (VChanges (_diff py_repr old (read_dict h l)))).
Proof.
  intros Hall Hl Hc.
  destruct (detect_changes_spec memory now h tenders Hall)
    as (h' & rep & Hrun & Hnew & Hupd & Hsc & Hunch & _ & _ & _ & Hvis & _ & Hann).
  exists h', rep. split; [done|].
  rewrite Hnew, Hupd, Hsc, Hunch. rewrite !list_elem_of_filter, Hc.
  split; [split; [by intros [[= <-] _]|by intros ->]|].
  split; [split; [by intros [[= <-] _]|by intros ->]|].
  split; [split; [by intros [[= <-] _]|by intros ->]|].
  split; [split; [by intros [[= <-] _]|by intros ->]|].
  assert (classify py_repr memory (read_dict h' l) = Some c) as Hc'
    by (by rewrite <- (classify_visible py_repr memory _ _ (Hvis l))).
  destruct (Hann l Hl c Hc') as (Hct & Hs & Hu).
  split; [done|]. split.
  - intros -> no old Hno Hm.
    rewrite (get_tender_no_visible _ _ (Hvis l)) in Hno.
    rewrite (get_status_visible _ _ (Hvis l)). by apply (Hs eq_refl no old).
  - intros -> no old Hno Hm.
    rewrite (get_tender_no_visible _ _ (Hvis l)) in Hno.
    rewrite (diff_visible py_repr old _ _ (Hvis l)). by apply (Hu eq_refl no old).
Qed.

Lemma classify_known memory d c :
  classify py_repr memory d = Some c → c ≠ NEW →
  ∃ tender_no old, get_tender_no d = Ok tender_no ∧ memory !! tender_no = Some old.
Proof.
  unfold classify. destruct (get_tender_no d) as [no|]; [|done].
  destruct (PyStr.truthy no); [|done].
  destruct (memory !! no) as [old|] eqn:Hm; [intros _ _; by exists no, old|].
  intros [= <-] Hc. done.
Qed.

(** The annotations of every classified record, and the frame of the call. *)
Lemma detect_changes_records memory now h tenders :
  Forall (λ l, tender_no_is_str (read_dict h l)) (read_list h tenders) →
  ∃ h' rep,
    detect_changes py_repr memory now h tenders = Ok (h', rep)
    ∧ r_all rep = tenders
    ∧ h_lists h' = h_lists h
    ∧ (∀ l, visible_eq (read_dict h l) (read_dict h' l))
    ∧ (∀ l, l ∉ read_list h tenders → read_dict h' l = read_dict h l)
    ∧ (∀ l c, l ∈ read_list h tenders →
         classify py_repr memory (read_dict h l) = Some c →
         (l ∈ r_new rep ↔ c = NEW)
         ∧ (l ∈ r_updated rep ↔ c = UPDATED)
         ∧ (l ∈ r_status_changed rep ↔ c = STATUS_CHANGED)
         ∧ (l ∈ r_unchanged rep ↔ c = UNCHANGED)
         ∧ read_dict h' l !! "_change_type" = Some (VStr (change_type_name c))
         ∧ (c = STATUS_CHANGED →
              is_Some (read_dict h' l !! "_old_status")
              ∧ read_dict h' l !! "_new_status" = Some (get_or_empty (read_dict h l) "status"))
         ∧ (c = UPDATED → ∃ m, read_dict h' l !! "_changes" = Some (VChanges m))).
Proof.
  intros Hall.
  destruct (detect_changes_spec memory now h tenders Hall)
    as (h' & rep & Hrun & Hnew & Hupd & Hsc & Hunch & Hall' & _ & Hlists & Hvis & Hout & Hann).
  exists h', rep. do 5 (split; [done|]).
  intros l c Hl Hc.
  rewrite Hnew, Hupd, Hsc, Hunch. rewrite !list_elem_of_filter, Hc.
  split; [split; [by intros [[= <-] _]|by intros ->]|].
  split; [split; [by intros [[= <-] _]|by intros ->]|].
  split; [split; [by intros [[= <-] _]|by intros ->]|].
  split; [split; [by intros [[= <-] _]|by intros ->]|].
  assert (classify py_repr memory (read_dict h' l) = Some c) as Hc'
    by (by rewrite <- (classify_visible py_repr memory _ _ (Hvis l))).
  destruct (Hann l Hl c Hc') as (Hct & Hs & Hu).
  split; [done|]. split.
  - intros ->. destruct (classify_known memory _ _ Hc') as (no & old & Hno & Hm); [done|].
    destruct (Hs eq_refl no old Hno Hm) as [Ho Hn]. split; [by eexists|].
    by rewrite (get_status_visible _ _ (Hvis l)).
  - intros ->. destruct (classify_known memory _ _ Hc') as (no & old & Hno & Hm); [done|].
    eexists. by apply (Hu eq_refl no old).
Qed.

End DetectLoopFacts.

(** ** Claims about [detect_changes] *)

(** Example data: the end-to-end scenario of the specification.  The
    snapshot knows T-1 as Active; the run harvested T-1 as Closed and a
    tender T-2; the list object 5 holds the two records. *)
Definition ex_repr : pyval → string := λ _, "".

Definition ex_memory : gmap string dict :=
  {[ "T-1" := {[ "status" := VStr "Active"; "tender_title" := VStr "X" ]} ]}.

Definition ex_heap : heap :=
  Heap {[ 0 := {[ "tender_no" := VStr "T-1"; "status" := VStr "Closed";
                  "tender_title" := VStr "X" ]};
          1 := {[ "tender_no" := VStr "T-2"; "status" := VStr "Active";
                  "tender_title" := VStr "Y" ]} ]}
       {[ 5 := [0; 1] ]}.

(** The same run one scrape later, with the snapshot holding T-1 as Closed. *)
Definition ex_entry_closed : dict :=
  {[ "tender_no" := VStr "T-1"; "status" := VStr " Closed "; "tender_title" := VStr "X";
     "_last_seen" := VStr "yesterday" ]}.

Definition ex_memory_closed : gmap string dict := {[ "T-1" := ex_entry_closed ]}.

(** A list whose only record has a blank [tender_no]. *)
Definition ex_heap_blank : heap :=
  Heap {[ 0 := {[ "tender_no" := VStr "  "; "status" := VStr "Active" ]} ]} {[ 5 := [0] ]}.

Lemma ex_heap_tender_nos :
  Forall (λ l, tender_no_is_str (read_dict ex_heap l)) (read_list ex_heap 5).
Proof.
  change (read_list ex_heap 5) with [0; 1].
  apply List.Forall_cons; [eexists; vm_compute; reflexivity|].
  apply List.Forall_cons; [eexists; vm_compute; reflexivity|].
  apply List.Forall_nil.
Defined.

Lemma ex_heap_first : 0 ∈ read_list ex_heap 5.
Proof. change (read_list ex_heap 5) with [0; 1]. apply list_elem_of_here. Defined.

(** C1: a record whose identity is in the snapshot and whose diff against
    the snapshot entry contains the status field is classified
    STATUS_CHANGED and never UPDATED, whatever else differs, and its entry
    carries the old and the new status. *)
Theorem C1_status_changed_precedence (py_repr : pyval → string)
    (memory : gmap string dict) (now : string) (h : heap) (tenders l : loc)
    (tender_no : string) (old : dict) :
  Forall (λ l, tender_no_is_str (read_dict h l)) (read_list h tenders) →
  l ∈ read_list h tenders →
  get_tender_no (read_dict h l) = Ok tender_no →
  PyStr.truthy tender_no = true →
  memory !! tender_no = Some old →
  is_Some (_diff py_repr old (read_dict h l) !! "status") →
  ∃ h' rep,
    detect_changes py_repr memory now h tenders = Ok (h', rep)
    ∧ l ∈ r_status_changed rep
    ∧ (l ∉ r_updated rep) ∧ (l ∉ r_new rep) ∧ (l ∉ r_unchanged rep)
    ∧ read_dict h' l !! "_change_type" = Some (VStr "STATUS_CHANGED")
    ∧ read_dict h' l !! "_old_status" = Some (get_or_empty old "status")
    ∧ read_dict h' l !! "_new_status" = Some (get_or_empty (read_dict h l) "status").
Proof.
  intros Hall Hl Hno Ht Hm Hs.
  assert (classify py_repr memory (read_dict h l) = Some STATUS_CHANGED) as Hc.
  { rewrite (classify_unfold py_repr memory _ tender_no Hno Ht), Hm.
    rewrite decide_False.
    - by rewrite decide_True.
    - intros He. rewrite He, lookup_empty in Hs. by destruct Hs. }
  destruct (detect_changes_classified py_repr memory now h tenders l STATUS_CHANGED Hall Hl Hc)
    as (h' & rep & Hrun & Hnew & Hupd & Hsc & Hunch & Hct & Hst & _).
  exists h', rep. split; [done|].
  split; [by apply Hsc|].
  split; [intros Hin; by apply Hupd in Hin|].
  split; [intros Hin; by apply Hnew in Hin|].
  split; [intros Hin; by apply Hunch in Hin|].
  split; [done|].
  by apply (Hst eq_refl tender_no old).
Qed.

Lemma C1_status_changed_precedence_witness :
  ∃ h' rep,
    detect_changes ex_repr ex_memory "now" ex_heap 5 = Ok (h', rep)
    ∧ 0 ∈ r_status_changed rep
    ∧ (0 ∉ r_updated rep) ∧ (0 ∉ r_new rep) ∧ (0 ∉ r_unchanged rep)
    ∧ read_dict h' 0 !! "_change_type" = Some (VStr "STATUS_CHANGED")
    ∧ read_dict h' 0 !! "_old_status"
        = Some (get_or_empty {[ "status" := VStr "Active"; "tender_title" := VStr "X" ]} "status")
    ∧ read_dict h' 0 !! "_new_status" = Some (get_or_empty (read_dict ex_heap 0) "status").
Proof.
  apply (C1_status_changed_precedence ex_repr ex_memory "now" ex_heap 5 0 "T-1").
  - exact ex_heap_tender_nos.
  - exact ex_heap_first.
  - vm_compute. reflexivity.
  - reflexivity.
  - vm_compute. reflexivity.
  - vm_compute. eexists. reflexivity.
Defined.

(** C7: a record whose identity is in the snapshot and whose every compared
    field equals the snapshot's after [str] and [strip] on both sides is
    classified UNCHANGED. *)
Theorem C7_equal_fields_unchanged (py_repr : pyval → string)
    (memory : gmap string dict) (now : string) (h : heap) (tenders l : loc)
    (tender_no : string) (old : dict) :
  Forall (λ l, tender_no_is_str (read_dict h l)) (read_list h tenders) →
  l ∈ read_list h tenders →
  get_tender_no (read_dict h l) = Ok tender_no →
  PyStr.truthy tender_no = true →
  memory !! tender_no = Some old →
  (∀ key, skipped_key key = false →
     norm_field py_repr old key = norm_field py_repr (read_dict h l) key) →
  ∃ h' rep,
    detect_changes py_repr memory now h tenders = Ok (h', rep)
    ∧ l ∈ r_unchanged rep
    ∧ (l ∉ r_new rep) ∧ (l ∉ r_updated rep) ∧ (l ∉ r_status_changed rep)
    ∧ read_dict h' l !! "_change_type" = Some (VStr "UNCHANGED").
Proof.
  intros Hall Hl Hno Ht Hm Heq.
  assert (classify py_repr memory (read_dict h l) = Some UNCHANGED) as Hc.
  { rewrite (classify_unfold py_repr memory _ tender_no Hno Ht), Hm.
    rewrite decide_True; [done|]. by apply diff_empty_iff. }
  destruct (detect_changes_classified py_repr memory now h tenders l UNCHANGED Hall Hl Hc)
    as (h' & rep & Hrun & Hnew & Hupd & Hsc & Hunch & Hct & _).
  exists h', rep. split; [done|].
  split; [by apply Hunch|].
  split; [intros Hin; by apply Hnew in Hin|].
  split; [intros Hin; by apply Hupd in Hin|].
  split; [intros Hin; by apply Hsc in Hin|].
  done.
Qed.

Lemma C7_equal_fields_unchanged_witness :
  ∃ h' rep,
    detect_changes ex_repr ex_memory_closed "now" ex_heap 5 = Ok (h', rep)
    ∧ 0 ∈ r_unchanged rep
    ∧ (0 ∉ r_new rep) ∧ (0 ∉ r_updated rep) ∧ (0 ∉ r_status_changed rep)
    ∧ read_dict h' 0 !! "_change_type" = Some (VStr "UNCHANGED").
Proof.
  apply (C7_equal_fields_unchanged ex_repr ex_memory_closed "now" ex_heap 5 0 "T-1"
           ex_entry_closed).
  - exact ex_heap_tender_nos.
  - exact ex_heap_first.
  - vm_compute. reflexivity.
  - reflexivity.
  - vm_compute. reflexivity.
  - apply (proj1 (diff_empty_iff ex_repr ex_entry_closed (read_dict ex_heap 0))).
    vm_compute. reflexivity.
Defined.

(** C6, as stated, fails: a record with a blank [tender_no] is counted in
    the total and put in no bucket. *)
Lemma C6_blank_record_in_no_bucket :
  ∃ h' rep,
    detect_changes ex_repr ex_memory "now" ex_heap_blank 5 = Ok (h', rep)
    ∧ 0 ∈ read_list ex_heap_blank 5
    ∧ (0 ∉ r_new rep) ∧ (0 ∉ r_updated rep)
    ∧ (0 ∉ r_status_changed rep) ∧ (0 ∉ r_unchanged rep)
    ∧ total_scraped (r_summary rep) = 1
    ∧ new_count (r_summary rep) + updated_count (r_summary rep)
      + status_changed_count (r_summary rep) + unchanged_count (r_summary rep) = 0.
Proof.
  eexists _, _. split; [vm_compute; reflexivity|]. cbn [r_new r_updated r_status_changed
    r_unchanged r_summary total_scraped new_count updated_count status_changed_count
    unchanged_count].
  split; [apply list_elem_of_here|].
  repeat (split; [apply not_elem_of_nil|]).
  split; reflexivity.
Qed.

(** C6, amended: for a list of records whose [tender_no] is a string or
    missing, the call returns a report in which every record with a
    non-blank [tender_no] is in exactly one of the four buckets, a record
    with a blank one is in none, the buckets hold nothing else, the counts
    of the summary are the bucket sizes, the total is the length of the
    input and the timestamp is the current time. *)
Theorem C6_report_partitions_identified (py_repr : pyval → string)
    (memory : gmap string dict) (now : string) (h : heap) (tenders : loc) :
  Forall (λ l, tender_no_is_str (read_dict h l)) (read_list h tenders) →
  ∃ h' rep,
    detect_changes py_repr memory now h tenders = Ok (h', rep)
    ∧ (∀ l, l ∈ read_list h tenders → has_identity (read_dict h l) = true →
         ∃ c, (l ∈ r_new rep ↔ c = NEW) ∧ (l ∈ r_updated rep ↔ c = UPDATED)
              ∧ (l ∈ r_status_changed rep ↔ c = STATUS_CHANGED)
              ∧ (l ∈ r_unchanged rep ↔ c = UNCHANGED))
    ∧ (∀ l, has_identity (read_dict h l) = false →
         (l ∉ r_new rep) ∧ (l ∉ r_updated rep)
         ∧ (l ∉ r_status_changed rep) ∧ (l ∉ r_unchanged rep))
    ∧ r_new rep ++ r_updated rep ++ r_status_changed rep ++ r_unchanged rep
        ≡ₚ filter (λ l, has_identity (read_dict h l) = true) (read_list h tenders)
    ∧ new_count (r_summary rep) = length (r_new rep)
    ∧ updated_count (r_summary rep) = length (r_updated rep)
    ∧ status_changed_count (r_summary rep) = length (r_status_changed rep)
    ∧ unchanged_count (r_summary rep) = length (r_unchanged rep)
    ∧ total_scraped (r_summary rep) = length (read_list h tenders)
    ∧ timestamp (r_summary rep) = now.
Proof.
  intros Hall.
  destruct (detect_changes_spec py_repr memory now h tenders Hall)
    as (h' & rep & Hrun & Hnew & Hupd & Hsc & Hunch & _ & Hsum & _).
  exists h', rep. split; [done|]. split.
  { intros l Hl Hid.
    apply (classify_is_Some py_repr memory) in Hid as [c Hc]. exists c.
    rewrite Hnew, Hupd, Hsc, Hunch. rewrite !list_elem_of_filter, Hc.
    split; [split; [by intros [[= <-] _]|by intros ->]|].
    split; [split; [by intros [[= <-] _]|by intros ->]|].
    split; [split; [by intros [[= <-] _]|by intros ->]|].
    split; [by intros [[= <-] _]|by intros ->]. }
  split.
  { intros l Hid.
    assert (classify py_repr memory (read_dict h l) = None) as Hc.
    { destruct (classify py_repr memory (read_dict h l)) eqn:Hc; [|done].
      assert (has_identity (read_dict h l) = true) as Hid'
        by (apply (classify_is_Some py_repr memory); rewrite Hc; by eexists).
      congruence. }
    rewrite Hnew, Hupd, Hsc, Hunch. rewrite !list_elem_of_filter, Hc.
    split; [by intros [? _]|]. split; [by intros [? _]|].
    split; [by intros [? _]|]. by intros [? _]. }
  split.
  { rewrite Hnew, Hupd, Hsc, Hunch. rewrite filter_classes_partition.
    by rewrite filter_classified_identity. }
  rewrite Hsum. simpl. done.
Qed.

Lemma C6_report_partitions_identified_witness :
  ∃ h' rep,
    detect_changes ex_repr ex_memory "now" ex_heap 5 = Ok (h', rep)
    ∧ (∀ l, l ∈ read_list ex_heap 5 → has_identity (read_dict ex_heap l) = true →
         ∃ c, (l ∈ r_new rep ↔ c = NEW) ∧ (l ∈ r_updated rep ↔ c = UPDATED)
              ∧ (l ∈ r_status_changed rep ↔ c = STATUS_CHANGED)
              ∧ (l ∈ r_unchanged rep ↔ c = UNCHANGED))
    ∧ (∀ l, has_identity (read_dict ex_heap l) = false →
         (l ∉ r_new rep) ∧ (l ∉ r_updated rep)
         ∧ (l ∉ r_status_changed rep) ∧ (l ∉ r_unchanged rep))
    ∧ r_new rep ++ r_updated rep ++ r_status_changed rep ++ r_unchanged rep
        ≡ₚ filter (λ l, has_identity (read_dict ex_heap l) = true) (read_list ex_heap 5)
    ∧ new_count (r_summary rep) = length (r_new rep)
    ∧ updated_count (r_summary rep) = length (r_updated rep)
    ∧ status_changed_count (r_summary rep) = length (r_status_changed rep)
    ∧ unchanged_count (r_summary rep) = length (r_unchanged rep)
    ∧ total_scraped (r_summary rep) = length (read_list ex_heap 5)
    ∧ timestamp (r_summary rep) = "now".
Proof.
  apply (C6_report_partitions_identified ex_repr ex_memory "now" ex_heap 5).
  exact ex_heap_tender_nos.
Defined.

(** C10: [detect_changes] writes on the caller's dicts.  Every record with
    an identity gets the key [_change_type] in the store, a STATUS_CHANGED
    one also [_old_status] and [_new_status], an UPDATED one also
    [_changes]; the buckets hold the caller's references; the ["all"] entry
    of the report is the reference to the caller's list, which still holds
    the same references. *)
Theorem C10_annotations_in_place (py_repr : pyval → string)
    (memory : gmap string dict) (now : string) (h : heap) (tenders : loc) :
  Forall (λ l, tender_no_is_str (read_dict h l)) (read_list h tenders) →
  ∃ h' rep,
    detect_changes py_repr memory now h tenders = Ok (h', rep)
    ∧ r_all rep = tenders
    ∧ read_list h' (r_all rep) = read_list h tenders
    ∧ (∀ l, l ∈ read_list h tenders → has_identity (read_dict h l) = true →
         ∃ c, read_dict h' l !! "_change_type" = Some (VStr (change_type_name c))
              ∧ (l ∈ r_new rep ↔ c = NEW)
              ∧ (l ∈ r_updated rep ↔ c = UPDATED)
              ∧ (l ∈ r_status_changed rep ↔ c = STATUS_CHANGED)
              ∧ (l ∈ r_unchanged rep ↔ c = UNCHANGED)
              ∧ (c = STATUS_CHANGED →
                   is_Some (read_dict h' l !! "_old_status")
                   ∧ read_dict h' l !! "_new_status"
                       = Some (get_or_empty (read_dict h l) "status"))
              ∧ (c = UPDATED → ∃ m, read_dict h' l !! "_changes" = Some (VChanges m))).
Proof.
  intros Hall.
  destruct (detect_changes_records py_repr memory now h tenders Hall)
    as (h' & rep & Hrun & Hall' & Hlists & _ & _ & Hrec).
  exists h', rep. split; [done|]. split; [done|].
  split; [rewrite Hall'; unfold read_list; by rewrite Hlists|].
  intros l Hl Hid.
  apply (classify_is_Some py_repr memory) in Hid as [c Hc]. exists c.
  destruct (Hrec l c Hl Hc) as (H1 & H2 & H3 & H4 & H5 & H6 & H7).
  done.
Qed.

Lemma C10_annotations_in_place_witness :
  ∃ h' rep,
    detect_changes ex_repr ex_memory "now" ex_heap 5 = Ok (h', rep)
    ∧ r_all rep = 5
    ∧ read_list h' (r_all rep) = read_list ex_heap 5
    ∧ (∀ l, l ∈ read_list ex_heap 5 → has_identity (read_dict ex_heap l) = true →
         ∃ c, read_dict h' l !! "_change_type" = Some (VStr (change_type_name c))
              ∧ (l ∈ r_new rep ↔ c = NEW)
              ∧ (l ∈ r_updated rep ↔ c = UPDATED)
              ∧ (l ∈ r_status_changed rep ↔ c = STATUS_CHANGED)
              ∧ (l ∈ r_unchanged rep ↔ c = UNCHANGED)
              ∧ (c = STATUS_CHANGED →
                   is_Some (read_dict h' l !! "_old_status")
                   ∧ read_dict h' l !! "_new_status"
                       = Some (get_or_empty (read_dict ex_heap l) "status"))
              ∧ (c = UPDATED → ∃ m, read_dict h' l !! "_changes" = Some (VChanges m))).
Proof.
  apply (C10_annotations_in_place ex_repr ex_memory "now" ex_heap 5).
  exact ex_heap_tender_nos.
Defined.

(** The end-to-end scenario of the specification, by evaluation. *)
Example end_to_end_scenario :
  ∃ h', detect_changes ex_repr ex_memory "now" ex_heap 5
        = Ok (h', Report [1] [] [0] [] 5 (Summary 2 1 0 1 0 "now"))
    ∧ read_dict h' 0 !! "_old_status" = Some (VStr "Active")
    ∧ read_dict h' 0 !! "_new_status" = Some (VStr "Closed")
    ∧ read_dict h' 1 !! "_change_type" = Some (VStr "NEW").
Proof. eexists. split; [vm_compute; reflexivity|]. by vm_compute. Qed.

(** ** [update_memory]: the merge of attached documents *)

Lemma filter_ext_in {A} (P Q : A → Prop) `{!∀ x, Decision (P x)} `{!∀ x, Decision (Q x)}
    (l : list A) :
  (∀ x, x ∈ l → P x ↔ Q x) → filter P l = filter Q l.
Proof.
  induction l as [|x l IH]; intros Hext; [done|].
  rewrite !filter_cons.
  assert (filter P l = filter Q l) as ->
    by (apply IH; intros y Hy; apply Hext; by apply list_elem_of_further).
  destruct (decide (P x)) as [Hp|Hp]; destruct (decide (Q x)) as [Hq|Hq]; try done.
  - destruct Hq. by apply (Hext x (list_elem_of_here x l)).
  - destruct Hp. by apply (Hext x (list_elem_of_here x l)).
Qed.

Lemma doc_url_truthy_inv d :
  doc_url_truthy d = true → ∃ u, doc_url d = Some u ∧ PyStr.truthy u = true.
Proof.
  unfold doc_url_truthy. destruct (doc_url d) as [u|]; [|done]. intros H. by exists u.
Qed.

Lemma elem_of_seen_urls_of old_docs u :
  u ∈ seen_urls_of old_docs ↔ PyStr.truthy u = true ∧ Some u ∈ doc_url <$> old_docs.
Proof.
  unfold seen_urls_of. rewrite elem_of_list_to_set, list_elem_of_omap, list_elem_of_fmap.
  split.
  - intros (d & Hd & Hu). unfold doc_url_truthy in Hu.
    destruct (doc_url d) as [u'|] eqn:Hdu; [|done].
    destruct (PyStr.truthy u') eqn:Ht; [|done]. injection Hu as ->.
    split; [done|]. exists d. by rewrite Hdu.
  - intros (Ht & d & Hdu & Hd). exists d. split; [done|].
    unfold doc_url_truthy. rewrite <- Hdu. by rewrite Ht.
Qed.

(** The merge loop appends the documents that pass its test, in order. *)
Lemma merge_loop_filter new_docs : ∀ merged seen_urls,
  NoDup (doc_url <$> new_docs) →
  merge_loop new_docs merged seen_urls
  = merged ++ filter (λ d, unseen seen_urls d = true) new_docs.
Proof.
  induction new_docs as [|d new_docs IH]; intros merged seen Hnd; simpl.
  - by rewrite app_nil_r.
  - rewrite fmap_cons in Hnd. apply NoDup_cons in Hnd as [Hd Hnd].
    rewrite filter_cons.
    destruct (decide (unseen seen d = true)) as [Hun|Hun]; revert Hun; unfold unseen at 1.
    + destruct (doc_url d) as [u|] eqn:Hu; [|done]. intros ->.
      rewrite (IH _ _ Hnd). rewrite <- app_assoc. simpl.
      f_equal. f_equal. apply filter_ext_in. intros d' Hd'.
      unfold unseen. destruct (doc_url d') as [u'|] eqn:Hu'; [|done].
      assert (u' ≠ u) as Hne.
      { intros ->. apply Hd. rewrite <- Hu'. by apply list_elem_of_fmap_2. }
      destruct (PyStr.truthy u'); [|done]. simpl.
      rewrite !bool_decide_eq_true. split.
      * intros Hn Hin. apply Hn, elem_of_union. by right.
      * intros Hn Hin. apply elem_of_union in Hin as [Hin|Hin]; [|done].
        by apply elem_of_singleton in Hin.
    + destruct (doc_url d) as [u|] eqn:Hu; [|intros _; by apply IH].
      destruct (PyStr.truthy u && bool_decide (u ∉ seen)); [done|].
      intros _. by apply IH.
Qed.

Lemma unseen_keyed old_docs d :
  doc_url_truthy d = true →
  unseen (seen_urls_of old_docs) d = true ↔ doc_url d ∉ doc_url <$> old_docs.
Proof.
  intros Hd. apply doc_url_truthy_inv in Hd as (u & Hu & Ht).
  unfold unseen. rewrite Hu, Ht. simpl. rewrite bool_decide_eq_true.
  rewrite elem_of_seen_urls_of. split.
  - intros H Hin. apply H. by split.
  - intros H [_ Hin]. by apply H.
Qed.

Lemma merge_loop_union old_docs new_docs :
  keyed new_docs →
  merge_loop new_docs old_docs (seen_urls_of old_docs) = union_by_url old_docs new_docs.
Proof.
  intros [Ht Hnd]. rewrite (merge_loop_filter _ _ _ Hnd). unfold union_by_url.
  f_equal. apply filter_ext_in. intros d Hd. apply unseen_keyed.
  by apply (proj1 (Forall_forall _ _) Ht).
Qed.

Lemma NoDup_fmap_filter {A B} (f : A → B) (P : A → Prop) `{!∀ x, Decision (P x)}
    (l : list A) :
  NoDup (f <$> l) → NoDup (f <$> filter P l).
Proof.
  induction l as [|x l IH]; [done|].
  rewrite fmap_cons, NoDup_cons. intros [Hx Hnd]. rewrite filter_cons.
  destruct (decide (P x)); [|by apply IH].
  rewrite fmap_cons, NoDup_cons. split; [|by apply IH].
  intros Hin. apply Hx. apply list_elem_of_fmap in Hin as (y & -> & Hy).
  apply list_elem_of_filter in Hy as [_ Hy]. by apply list_elem_of_fmap_2.
Qed.

Lemma union_by_url_keyed old_docs new_docs :
  keyed old_docs → keyed new_docs → keyed (union_by_url old_docs new_docs).
Proof.
  intros [Hto Hno] [Htn Hnn]. unfold union_by_url. split.
  - apply Forall_app. split; [done|].
    apply Forall_forall. intros d Hd. apply list_elem_of_filter in Hd as [_ Hd].
    by apply (proj1 (Forall_forall _ _) Htn).
  - rewrite fmap_app. apply NoDup_app. split; [done|]. split.
    + intros u Hu Hin. apply list_elem_of_fmap in Hin as (d & -> & Hd).
      by apply list_elem_of_filter in Hd as [Hd _].
    + by apply NoDup_fmap_filter.
Qed.

Lemma filter_none {A} (P : A → Prop) `{!∀ x, Decision (P x)} (l : list A) :
  (∀ x, x ∈ l → ¬ P x) → filter P l = [].
Proof.
  induction l as [|x l IH]; intros Hn; [done|].
  rewrite filter_cons. rewrite decide_False by (apply Hn; apply list_elem_of_here).
  apply IH. intros y Hy. apply Hn. by apply list_elem_of_further.
Qed.

(** Merging the same new documents again adds nothing. *)
Lemma union_by_url_again old_docs new_docs :
  union_by_url (union_by_url old_docs new_docs) new_docs = union_by_url old_docs new_docs.
Proof.
  unfold union_by_url at 1.
  rewrite filter_none; [by rewrite app_nil_r|].
  intros d Hd Hnot. apply Hnot. unfold union_by_url. rewrite fmap_app, elem_of_app.
  destruct (decide (doc_url d ∈ doc_url <$> old_docs)) as [Hin|Hin]; [by left|].
  right. apply list_elem_of_fmap_2. by apply list_elem_of_filter.
Qed.

Lemma filter_all {A} (P : A → Prop) `{!∀ x, Decision (P x)} (l : list A) :
  (∀ x, x ∈ l → P x) → filter P l = l.
Proof.
  induction l as [|x l IH]; intros Hp; [done|].
  rewrite filter_cons. rewrite decide_True by (apply Hp; apply list_elem_of_here).
  f_equal. apply IH. intros y Hy. apply Hp. by apply list_elem_of_further.
Qed.

Lemma union_by_url_nil_l new_docs : union_by_url [] new_docs = new_docs.
Proof.
  unfold union_by_url. simpl. apply filter_all. intros d _ Hin. by apply elem_of_nil in Hin.
Qed.

Lemma union_by_url_nil_r old_docs : union_by_url old_docs [] = old_docs.
Proof. unfold union_by_url. by rewrite filter_nil, app_nil_r. Qed.

(** The documents part of the loop body computes the union. *)
Lemma merge_attached_docs existing clean old_docs new_docs :
  get_or_nil existing "attached_documents" = VDocs old_docs →
  get_or_nil clean "attached_documents" = VDocs new_docs →
  keyed new_docs →
  ∃ clean', merge_attached existing clean = Ok clean'
    ∧ get_or_nil clean' "attached_documents" = VDocs (union_by_url old_docs new_docs).
Proof.
  intros Ho Hn Hk. unfold merge_attached. rewrite Ho, Hn.
  destruct new_docs as [|nd nds]; destruct old_docs as [|od ods]; simpl.
  - exists clean. by rewrite Hn.
  - eexists. split; [done|]. unfold get_or_nil. rewrite lookup_insert_eq. simpl.
    by rewrite union_by_url_nil_r.
  - exists clean. rewrite Hn. by rewrite union_by_url_nil_l.
  - eexists. split; [done|]. unfold get_or_nil. rewrite lookup_insert_eq. simpl.
    f_equal. by apply (merge_loop_union (od :: ods) (nd :: nds)).
Qed.

(** The cleaning steps of the loop body leave [attached_documents] alone. *)
Lemma clean_copy_docs now (tender : dict) (v : pyval) (b : bool) :
  let clean : dict := filter (λ kv, PyStr.startswith "_" kv.1 = false) tender in
  let clean := delete "detail_url" (<["_last_seen" := VStr now]> clean) in
  let clean := if b then <["tender_doc_download_url" := v]> clean else clean in
  clean !! "attached_documents" = tender !! "attached_documents".
Proof.
  simpl.
  assert ((delete "detail_url" (<["_last_seen" := VStr now]>
             (filter (λ kv : string * pyval, PyStr.startswith "_" kv.1 = false) tender)))
            !! "attached_documents" = tender !! "attached_documents") as Hc.
  { rewrite lookup_delete_ne by done. rewrite lookup_insert_ne by done.
    rewrite map_lookup_filter. by destruct (tender !! "attached_documents"). }
  destruct b; [|done]. by rewrite lookup_insert_ne.
Qed.

Lemma update_one_docs now memory tender tender_no old_docs new_docs :
  get_tender_no tender = Ok tender_no →
  PyStr.truthy tender_no = true →
  get_or_nil tender "attached_documents" = VDocs new_docs →
  snapshot_docs memory tender_no = VDocs old_docs →
  keyed new_docs →
  ∃ memory', update_one now memory tender = Ok memory'
    ∧ snapshot_docs memory' tender_no = VDocs (union_by_url old_docs new_docs)
    ∧ ∀ k, k ≠ tender_no → memory' !! k = memory !! k.
Proof.
  intros Hno Ht Hn Ho Hk. unfold update_one. rewrite Hno. cbn [rbind]. rewrite Ht.
  cbn [negb].
  set (existing := default ∅ (memory !! tender_no)).
  set (clean0 := delete "detail_url" (<["_last_seen" := VStr now]>
                   (filter (λ kv : string * pyval, PyStr.startswith "_" kv.1 = false) tender))).
  set (b := negb (py_truthy (get_or_none clean0 "tender_doc_download_url"))
            && py_truthy (get_or_none existing "tender_doc_download_url")).
  set (clean1 := if b then _ else clean0).
  assert (get_or_nil clean1 "attached_documents" = VDocs new_docs) as Hn1.
  { unfold get_or_nil in *. rewrite <- Hn. f_equal.
    apply (clean_copy_docs now tender (get_or_none existing "tender_doc_download_url") b). }
  destruct (merge_attached_docs existing clean1 old_docs new_docs Ho Hn1 Hk)
    as (clean' & Hm & Hd).
  rewrite Hm. cbn [rbind]. eexists. split; [done|]. split.
  - unfold snapshot_docs. by rewrite lookup_insert_eq.
  - intros k Hne. by rewrite lookup_insert_ne.
Qed.

Lemma has_identity_inv d :
  has_identity d = true →
  get_tender_no d = Ok (tender_id d) ∧ PyStr.truthy (tender_id d) = true.
Proof.
  unfold has_identity, tender_id. by destruct (get_tender_no d).
Qed.

(** A record that [update_memory] can merge: it has an identity, its
    documents are a keyed list, and so are those of its snapshot entry. *)
Definition mergeable (memory : gmap string dict) (t : dict) : Prop :=
  has_identity t = true
  ∧ (∃ new_docs, get_or_nil t "attached_documents" = VDocs new_docs ∧ keyed new_docs)
  ∧ (∃ old_docs, snapshot_docs memory (tender_id t) = VDocs old_docs ∧ keyed old_docs).

Lemma snapshot_docs_ext memory memory' k :
  memory' !! k = memory !! k → snapshot_docs memory' k = snapshot_docs memory k.
Proof. intros H. unfold snapshot_docs. by rewrite H. Qed.

(** The commit of a list of records with distinct identities. *)
Lemma update_loop_docs ts : ∀ (now : nat → string) memory,
  Forall (mergeable memory) ts →
  NoDup (tender_id <$> ts) →
  ∃ memory', update_loop now memory ts = Ok memory'
    ∧ (∀ t new_docs old_docs, t ∈ ts →
         get_or_nil t "attached_documents" = VDocs new_docs →
         snapshot_docs memory (tender_id t) = VDocs old_docs →
         snapshot_docs memory' (tender_id t) = VDocs (union_by_url old_docs new_docs))
    ∧ (∀ k, k ∉ tender_id <$> ts → memory' !! k = memory !! k).
Proof.
  induction ts as [|t ts IH]; intros now memory Hall Hnd.
  - exists memory. split; [done|]. split; [|done].
    intros t ? ? Ht. by apply elem_of_nil in Ht.
  - apply Forall_cons in Hall as [(Hid & (nd & Hn & Hkn) & (od & Ho & Hko)) Hall].
    rewrite fmap_cons in Hnd. apply NoDup_cons in Hnd as [Hfresh Hnd].
    apply has_identity_inv in Hid as [Hno Ht].
    destruct (update_one_docs (now 0) memory t (tender_id t) od nd Hno Ht Hn Ho Hkn)
      as (m1 & Hone & Hdocs1 & Hother1).
    assert (∀ t', t' ∈ ts → m1 !! tender_id t' = memory !! tender_id t') as Hsame.
    { intros t' Ht'. apply Hother1. intros Heq. apply Hfresh. rewrite <- Heq.
      by apply list_elem_of_fmap_2. }
    assert (Forall (mergeable m1) ts) as Hall1.
    { apply Forall_forall. intros t' Ht'.
      destruct (proj1 (Forall_forall _ _) Hall t' Ht') as (Hid' & Hn' & (od' & Ho' & Hko')).
      split; [done|]. split; [done|]. exists od'. split; [|done].
      by rewrite (snapshot_docs_ext memory m1 _ (Hsame t' Ht')). }
    destruct (IH (λ i, now (S i)) m1 Hall1 Hnd) as (m' & Hloop & Hdocs & Hother).
    exists m'. simpl. rewrite Hone. cbn [rbind]. split; [done|]. split.
    + intros t' nd' od' Ht' Hn' Ho'. apply elem_of_cons in Ht' as [->|Ht'].
      * rewrite (snapshot_docs_ext m1 m' _ (Hother _ Hfresh)).
        rewrite Hn in Hn'. rewrite Ho in Ho'. injection Hn' as <-. injection Ho' as <-.
        done.
      * apply (Hdocs t' nd' od' Ht' Hn').
        by rewrite (snapshot_docs_ext memory m1 _ (Hsame t' Ht')).
    + intros k Hk. apply not_elem_of_cons in Hk as [Hne Hk].
      rewrite (Hother k Hk). by apply Hother1.
Qed.

(** C5: [update_memory] merges the attached documents of each record with
    those of its snapshot entry as the union keyed by [file_url], old
    entries first and unseen new ones appended in order; the result has no
    duplicate [file_url], and committing the same records once more leaves
    every merged collection as it is. *)
Theorem C5_commit_merges_documents_idempotently (now now' : nat → string)
    (memory : gmap string dict) (h : heap) (tenders : loc) :
  Forall (mergeable memory) (read_dict h <$> read_list h tenders) →
  NoDup (tender_id <$> (read_dict h <$> read_list h tenders)) →
  ∃ memory1 memory2,
    update_memory now memory h tenders = Ok memory1
    ∧ update_memory now' memory1 h tenders = Ok memory2
    ∧ ∀ l new_docs old_docs, l ∈ read_list h tenders →
        get_or_nil (read_dict h l) "attached_documents" = VDocs new_docs →
        snapshot_docs memory (tender_id (read_dict h l)) = VDocs old_docs →
        snapshot_docs memory1 (tender_id (read_dict h l))
          = VDocs (old_docs ++ filter (λ d, doc_url d ∉ doc_url <$> old_docs) new_docs)
        ∧ NoDup (doc_url <$> (old_docs ++ filter (λ d, doc_url d ∉ doc_url <$> old_docs) new_docs))
        ∧ snapshot_docs memory2 (tender_id (read_dict h l))
          = snapshot_docs memory1 (tender_id (read_dict h l)).
Proof.
  intros Hall Hnd. unfold update_memory.
  set (ts := read_dict h <$> read_list h tenders) in *.
  destruct (update_loop_docs ts now memory Hall Hnd) as (m1 & Hrun1 & Hdocs1 & _).
  assert (Forall (mergeable m1) ts) as Hall1.
  { apply Forall_forall. intros t Ht.
    destruct (proj1 (Forall_forall _ _) Hall t Ht)
      as (Hid & (nd & Hn & Hkn) & (od & Ho & Hko)).
    split; [done|]. split; [by exists nd|].
    exists (union_by_url od nd). split; [by apply (Hdocs1 t nd od)|].
    by apply union_by_url_keyed. }
  destruct (update_loop_docs ts now' m1 Hall1 Hnd) as (m2 & Hrun2 & Hdocs2 & _).
  exists m1, m2. split; [done|]. split; [done|].
  intros l nd od Hl Hn Ho.
  assert (read_dict h l ∈ ts) as Ht by (by apply list_elem_of_fmap_2).
  pose proof (Hdocs1 _ nd od Ht Hn Ho) as H1.
  destruct (proj1 (Forall_forall _ _) Hall _ Ht)
    as (_ & (nd' & Hn' & Hkn) & (od' & Ho' & Hko)).
  rewrite Hn in Hn'. injection Hn' as <-. rewrite Ho in Ho'. injection Ho' as <-.
  split; [exact H1|]. split.
  - apply (union_by_url_keyed od nd Hko Hkn).
  - rewrite (Hdocs2 _ nd (union_by_url od nd) Ht Hn H1). rewrite H1.
    by rewrite union_by_url_again.
Qed.

(** Example data: the snapshot holds two documents of T-1, the new scrape
    found the second of them again and a third one. *)
Definition ex_doc (name url : string) : doc :=
  {[ "file_name" := name; "file_url" := url; "description" := "" ]}.

Definition ex_docs_memory : gmap string dict :=
  {[ "T-1" := {[ "tender_no" := VStr "T-1";
                 "attached_documents" :=
                   VDocs [ex_doc "a.pdf" "https://x/a"; ex_doc "b.pdf" "https://x/b"] ]} ]}.

Definition ex_docs_heap : heap :=
  Heap {[ 0 := {[ "tender_no" := VStr "T-1"; "status" := VStr "Active";
                  "detail_url" := VStr "https://x/detail";
                  "attached_documents" :=
                    VDocs [ex_doc "b.pdf" "https://x/b"; ex_doc "c.pdf" "https://x/c"] ]} ]}
       {[ 5 := [0] ]}.

Lemma ex_docs_mergeable :
  Forall (mergeable ex_docs_memory) (read_dict ex_docs_heap <$> read_list ex_docs_heap 5).
Proof.
  change (read_list ex_docs_heap 5) with [0]. rewrite fmap_cons.
  apply List.Forall_cons; [|apply List.Forall_nil].
  split; [vm_compute; reflexivity|]. split.
  - eexists. split; [vm_compute; reflexivity|].
    unfold keyed. apply (bool_decide_unpack _). vm_compute. reflexivity.
  - eexists. split; [vm_compute; reflexivity|].
    unfold keyed. apply (bool_decide_unpack _). vm_compute. reflexivity.
Defined.

Lemma C5_commit_merges_documents_idempotently_witness :
  ∃ memory1 memory2,
    update_memory (λ _, "t1") ex_docs_memory ex_docs_heap 5 = Ok memory1
    ∧ update_memory (λ _, "t2") memory1 ex_docs_heap 5 = Ok memory2
    ∧ ∀ l new_docs old_docs, l ∈ read_list ex_docs_heap 5 →
        get_or_nil (read_dict ex_docs_heap l) "attached_documents" = VDocs new_docs →
        snapshot_docs ex_docs_memory (tender_id (read_dict ex_docs_heap l)) = VDocs old_docs →
        snapshot_docs memory1 (tender_id (read_dict ex_docs_heap l))
          = VDocs (old_docs ++ filter (λ d, doc_url d ∉ doc_url <$> old_docs) new_docs)
        ∧ NoDup (doc_url <$> (old_docs ++ filter (λ d, doc_url d ∉ doc_url <$> old_docs) new_docs))
        ∧ snapshot_docs memory2 (tender_id (read_dict ex_docs_heap l))
          = snapshot_docs memory1 (tender_id (read_dict ex_docs_heap l)).
Proof.
  apply (C5_commit_merges_documents_idempotently (λ _, "t1") (λ _, "t2")
           ex_docs_memory ex_docs_heap 5).
  - exact ex_docs_mergeable.
  - apply (bool_decide_unpack _). vm_compute. reflexivity.
Defined.

(** The example by evaluation: a, b, c in this order, twice, and the
    navigation link is not stored. *)
Example commit_twice_example :
  let memory1 :=
    match update_memory (λ _, "t1") ex_docs_memory ex_docs_heap 5 with
    | Ok m => m
    | Raise _ => ∅
    end in
  let memory2 :=
    match update_memory (λ _, "t2") memory1 ex_docs_heap 5 with
    | Ok m => m
    | Raise _ => ∅
    end in
  snapshot_docs memory1 "T-1"
    = VDocs [ex_doc "a.pdf" "https://x/a"; ex_doc "b.pdf" "https://x/b";
             ex_doc "c.pdf" "https://x/c"]
  ∧ snapshot_docs memory2 "T-1" = snapshot_docs memory1 "T-1"
  ∧ default ∅ (memory1 !! "T-1") !! "detail_url" = None.
Proof. vm_compute. split; [reflexivity|]. split; reflexivity. Qed.

(** ** Claims about the scraper *)

Module ScraperFacts.
Import Scraper.

(** A listing row of a Works tender whose status cell is empty. *)
Definition ex_row_no_status : row_view :=
  RowView [Some "NR"; Some " T-9 "; Some "Track renewal"; Some ""; Some "Works";
           Some "25/02/2026 14:00"; Some "12"]
          (Raise (OtherError "no Actions cell")).

(** A listing row with a status outside the valid set. *)
Definition ex_row_bad_status : row_view :=
  RowView [Some "NR"; Some "T-9"; Some "Track renewal"; Some "Draft"; Some "Works";
           Some "25/02/2026 14:00"; Some "12"; Some ""]
          (Raise (OtherError "locator failed")).

(** A listing row that is accepted. *)
Definition ex_row_active : row_view :=
  RowView [Some "NR"; Some "T-9"; Some "Track renewal"; Some " ACTIVE "; Some "Works";
           Some "25/02/2026 14:00"; Some "12"; Some ""]
          (Ok (ActionView true true "postRequestNewWindow('/epsn/x','y')"
                 (Some "/epsn/x") "#")).

(** The record a row is accepted as, if it is. *)
Definition accepted_record (row : row_view) : option dict :=
  match _parse_row_cells row with
  | Ok (Some tender) => Some tender
  | _ => None
  end.

Lemma accepted_record_Some row :
  is_Some (accepted_record row) →
  _parse_row_cells row = Ok (Some (default ∅ (accepted_record row))).
Proof.
  unfold accepted_record. destruct (_parse_row_cells row) as [[t|]|]; try done.
  all: by intros [? ?].
Qed.

(** C9: the code on a row whose status cell is empty.  The comment above
    the check in [_parse_row_cells] reads "Must have a valid status to be a
    real tender row", but the guard [if status and ...] leaves the check
    out when the status text is empty: the row is accepted as a record, its
    stored status is the empty string, and the empty string is none of the
    valid values. *)
Lemma C9_empty_status_accepted :
  ∃ tender,
    _parse_row_cells ex_row_no_status = Ok (Some tender)
    ∧ tender !! "status" = Some (VStr "")
    ∧ _safe_cell_text (rv_cells ex_row_no_status) COL_STATUS = ""
    ∧ PyStr.lower "" ∉ _VALID_STATUSES.
Proof.
  exists (default ∅ (accepted_record ex_row_no_status)). split.
  - apply accepted_record_Some. apply (bool_decide_unpack _). vm_compute. reflexivity.
  - split; [vm_compute; reflexivity|]. split; [vm_compute; reflexivity|].
    apply (bool_decide_unpack _). vm_compute. reflexivity.
Qed.

Lemma new_tender_status deptt tender_no tender_title status work_area due_date due_days
    detail_url :
  new_tender deptt tender_no tender_title status work_area due_date due_days detail_url
    !! "status" = Some (VStr status).
Proof.
  unfold new_tender. cbn [list_to_map foldr uncurry fst snd].
  do 3 (rewrite lookup_insert_ne by done). by rewrite lookup_insert_eq.
Qed.

Lemma new_tender_doc_fields deptt tender_no tender_title status work_area due_date due_days
    detail_url :
  let t := new_tender deptt tender_no tender_title status work_area due_date due_days
             detail_url in
  t !! "tender_doc_download_url" = Some VNone
  ∧ t !! "attached_documents" = Some (VDocs [])
  ∧ t !! "tender_no" = Some (VStr tender_no).
Proof.
  unfold new_tender. cbn [list_to_map foldr uncurry fst snd]. split; [|split].
  - do 16 (rewrite lookup_insert_ne by done). by rewrite lookup_insert_eq.
  - do 17 (rewrite lookup_insert_ne by done). by rewrite lookup_insert_eq.
  - do 1 (rewrite lookup_insert_ne by done). by rewrite lookup_insert_eq.
Qed.

(** X24: the status check of [_parse_row_cells] on a non-empty status.  A
    row whose stripped status text is not empty and, lowercased, none of
    published, active, closed, cancelled, expired yields no record and no
    error, whatever its other cells and its Actions cell hold; and an
    accepted record stores the stripped status text of its row, which is
    then empty or one of the valid values. *)
Theorem X24_status_gate (row : row_view) :
  let status := _safe_cell_text (rv_cells row) COL_STATUS in
  (∀ tender, _parse_row_cells row = Ok (Some tender) →
     tender !! "status" = Some (VStr status)
     ∧ (status = "" ∨ PyStr.lower status ∈ _VALID_STATUSES))
  ∧ (status ≠ "" → PyStr.lower status ∉ _VALID_STATUSES →
     _parse_row_cells row = Ok None).
Proof.
  intros status. unfold _parse_row_cells. fold status.
  assert (PyStr.truthy status = true ↔ status ≠ "") as Htruthy.
  { destruct status; simpl; split; intros H; try done. }
  destruct (negb (PyStr.truthy (_safe_cell_text (rv_cells row) COL_TENDER_NO))).
  { split; [done|done]. }
  destruct (bool_decide (50 < String.length (_safe_cell_text (rv_cells row) COL_TENDER_NO))
            || contains (String "010" "") (_safe_cell_text (rv_cells row) COL_TENDER_NO)).
  { split; [done|done]. }
  destruct (bool_decide (_safe_cell_text (rv_cells row) COL_TENDER_NO ∈ _JUNK_TENDER_NOS)).
  { split; [done|done]. }
  destruct (PyStr.truthy status) eqn:Ht; cbn [andb negb].
  - destruct (bool_decide (PyStr.lower status ∈ _VALID_STATUSES)) eqn:Hv; cbn [negb].
    + apply bool_decide_eq_true in Hv. split; [|intros _ Hn; by destruct Hn].
      intros tender Hp.
      destruct (extract_detail_url (length (rv_cells row)) (rv_action row));
        cbn [rbind] in Hp; [|discriminate Hp].
      injection Hp as <-. split; [|by right].
      apply new_tender_status.
    + split; [intros tender Hp; discriminate Hp|reflexivity].
  - assert (status = "") as Hs by (by destruct status).
    split; [|intros Hn; by destruct Hn].
    intros tender Hp.
    destruct (extract_detail_url (length (rv_cells row)) (rv_action row));
      cbn [rbind] in Hp; [|discriminate Hp].
    injection Hp as <-. split; [|by left].
    apply new_tender_status.
Qed.

Lemma X24_status_gate_witness :
  (default ∅ (accepted_record ex_row_active) !! "status" = Some (VStr "ACTIVE")
   ∧ ("ACTIVE" = "" ∨ PyStr.lower "ACTIVE" ∈ _VALID_STATUSES))
  ∧ _parse_row_cells ex_row_bad_status = Ok None.
Proof.
  split.
  - apply (proj1 (X24_status_gate ex_row_active)).
    apply accepted_record_Some. apply (bool_decide_unpack _). vm_compute. reflexivity.
  - apply (proj2 (X24_status_gate ex_row_bad_status)).
    + vm_compute. discriminate.
    + apply (bool_decide_unpack _). vm_compute. reflexivity.
Defined.

(** *** The circuit breaker *)











(** Two runs of the row loop by evaluation.  [ex_fail] is a row whose
    every attempt raises, [ex_load] one whose detail view opens. *)
Definition ex_fail (tender_no : string) : listing_row :=
  LRow "Works" tender_no true (λ _, AtError "Timeout 15000ms exceeded").

Definition ex_load (tender_no : string) : listing_row :=
  LRow "Works" tender_no true (λ _, AtLoaded (λ _, "") (DocsOk None [])).

Definition ex_stage (nos : list string) : sd_state :=
  SdState (Heap (list_to_map (imap (λ i no, (i, new_tender "NR" no "" "Active" "Works" "" "" ""))
                                nos)) ∅)
          (list_to_map (imap (λ i no, (no, i)) nos)) 0 0 0.

(** The counters after the row loop: enriched, failed, consecutive
    failures, and the number of tenders left pending. *)
Definition ex_counters (r : rows_result) : option (nat * nat * nat * nat) :=
  match r with
  | RowsDone st =>
      Some (sd_enriched st, sd_failed st, sd_consecutive_failures st, size (sd_pending st))
  | RowsReturn _ => None
  end.

(** Six failures, never three in a row: every row is processed. *)
Example breaker_tolerates_interleaved_failures :
  ex_counters
    (rows_loop [ex_fail "a"; ex_fail "b"; ex_load "c"; ex_fail "d"; ex_fail "e"; ex_load "f";
                ex_fail "g"; ex_fail "h"]
       (ex_stage ["a"; "b"; "c"; "d"; "e"; "f"; "g"; "h"]))
  = Some (2, 6, 2, 0).
Proof. vm_compute. reflexivity. Qed.

(** Three failures in a row: the two rows after them are not processed. *)
Example breaker_trips_after_three :
  ex_counters
    (rows_loop [ex_fail "a"; ex_fail "b"; ex_fail "c"; ex_load "d"; ex_fail "e"]
       (ex_stage ["a"; "b"; "c"; "d"; "e"]))
  = Some (0, 3, 3, 2).
Proof. vm_compute. reflexivity. Qed.

(** The same two runs in the stage of the specification: the outcomes it
    records, the most recent first. *)
Definition ex_spec_stage (nos : list string) : spec_state :=
  SpecState (sd_heap (ex_stage nos)) (sd_pending (ex_stage nos)) [].

Definition ex_history (r : spec_rows_result) : option (list bool * nat) :=
  match r with
  | SpecDone s => Some (sp_history s, size (sp_pending s))
  | SpecReturn _ => None
  end.

Example spec_tolerates_interleaved_failures :
  ex_history
    (spec_rows [ex_fail "a"; ex_fail "b"; ex_load "c"; ex_fail "d"; ex_fail "e"; ex_load "f";
                ex_fail "g"; ex_fail "h"]
       (ex_spec_stage ["a"; "b"; "c"; "d"; "e"; "f"; "g"; "h"]))
  = Some ([false; false; true; false; false; true; false; false], 0).
Proof. vm_compute. reflexivity. Qed.

Example spec_trips_after_three :
  ex_history
    (spec_rows [ex_fail "a"; ex_fail "b"; ex_fail "c"; ex_load "d"; ex_fail "e"]
       (ex_spec_stage ["a"; "b"; "c"; "d"; "e"]))
  = Some ([false; false; false], 2).
Proof. vm_compute. reflexivity. Qed.

(** *** The enrichment stage keeps the harvested records *)

(** A dict that Phase 1 produced from some listing row. *)
Definition harvested (d : dict) : Prop :=
  ∃ row, _parse_row_cells row = Ok (Some d).

(** The detail view of tender [tno] is read with result [value_text], [d]
    in some attempt on a row, on a page, of the listing. *)
Definition row_loads (r : listing_row) (tno : string)
    (value_text : string → string) (d : doc_outcome) : Prop :=
  match r with
  | LRow _ tender_no _ attempts =>
      PyStr.strip tender_no = tno ∧ ∃ i, attempts i = AtLoaded value_text d
  | _ => False
  end.

Definition page_loads (p : page_view) (tno : string)
    (value_text : string → string) (d : doc_outcome) : Prop :=
  match p with
  | PageRows rows => ∃ r, r ∈ rows ∧ row_loads r tno value_text d
  | _ => False
  end.

Definition browser_loads (br : browser) (tno : string)
    (value_text : string → string) (d : doc_outcome) : Prop :=
  ∃ p, p ∈ br_first br :: br_next br ∧ page_loads p tno value_text d.

Lemma harvested_fields d :
  harvested d →
  d !! "tender_doc_download_url" = Some VNone
  ∧ d !! "attached_documents" = Some (VDocs []).
Proof.
  intros [row Hrow]. unfold _parse_row_cells in Hrow.
  repeat match type of Hrow with
         | (if ?c then _ else _) = _ => destruct c; [discriminate Hrow|]
         end.
  destruct (extract_detail_url (length (rv_cells row)) (rv_action row));
    cbn [rbind] in Hrow; [|discriminate Hrow].
  injection Hrow as <-.
  split; eapply new_tender_doc_fields.
Qed.

Lemma mark_empty_dict_present (d : dict) v w :
  d !! "tender_doc_download_url" = Some v → d !! "attached_documents" = Some w →
  mark_empty_dict d = d.
Proof.
  intros H1 H2. unfold mark_empty_dict.
  rewrite (setdefault_present d _ _ v H1). by rewrite (setdefault_present d _ _ w H2).
Qed.

Lemma mark_empty_dict_is_Some (d : dict) :
  is_Some (mark_empty_dict d !! "tender_doc_download_url")
  ∧ is_Some (mark_empty_dict d !! "attached_documents").
Proof.
  unfold mark_empty_dict. split; [|apply setdefault_is_Some].
  rewrite setdefault_lookup_ne by done. apply setdefault_is_Some.
Qed.

Lemma enrich_dict_is_Some (d : dict) value_text dout :
  is_Some (enrich_dict d value_text dout !! "tender_doc_download_url")
  ∧ is_Some (enrich_dict d value_text dout !! "attached_documents").
Proof.
  unfold enrich_dict, store_docs. destruct dout as [url docs|].
  - split.
    + rewrite lookup_insert_ne by done. rewrite lookup_insert_eq. by eexists.
    + rewrite lookup_insert_eq. by eexists.
  - apply mark_empty_dict_is_Some.
Qed.

Lemma read_dict_write_same h l l' : read_dict (write_dict h l (read_dict h l)) l' = read_dict h l'.
Proof.
  destruct (decide (l = l')) as [<-|Hne].
  - by rewrite read_dict_write_eq.
  - by rewrite read_dict_write_ne.
Qed.

Section Stage.

Variable h0 : heap.
Variable items : list loc.
Variable loads : string → (string → string) → doc_outcome → Prop.
Hypothesis Hharvested : ∀ l, l ∈ items → harvested (read_dict h0 l).

(** A record is as harvested, or enriched from a loaded detail view. *)
Definition record_ok (l : loc) (d : dict) : Prop :=
  d = read_dict h0 l
  ∨ ∃ value_text dout,
      loads (tender_id (read_dict h0 l)) value_text dout
      ∧ d = enrich_dict (read_dict h0 l) value_text dout.

Definition heap_ok (h : heap) : Prop :=
  h_lists h = h_lists h0 ∧ ∀ l, record_ok l (read_dict h l).

Definition stage_inv (st : sd_state) : Prop :=
  heap_ok (sd_heap st)
  ∧ ∀ tno l, sd_pending st !! tno = Some l →
      l ∈ items ∧ read_dict (sd_heap st) l = read_dict h0 l
      ∧ get_tender_no (read_dict h0 l) = Ok tno.

Lemma retry_loop_success n : ∀ retry attempts h l h',
  retry_loop n retry attempts h l = RetrySuccess h' →
  ∃ i value_text dout, attempts i = AtLoaded value_text dout
    ∧ h' = write_dict h l (enrich_dict (read_dict h l) value_text dout).
Proof.
  induction n as [|n IH]; intros retry attempts h l h' H; simpl in H; [done|].
  destruct (attempts retry) as [msg| |vt dout] eqn:Ha.
  - destruct (contains "closed" (PyStr.lower msg) || contains "target" (PyStr.lower msg));
      [done|]. by apply (IH (S retry)).
  - done.
  - injection H as <-. by exists retry, vt, dout.
Qed.

Lemma pending_distinct st tno l tno' l' :
  stage_inv st → sd_pending st !! tno = Some l → sd_pending st !! tno' = Some l' →
  tno' ≠ tno → l' ≠ l.
Proof.
  intros [_ Hp] H1 H2 Hne ->.
  destruct (Hp _ _ H1) as (_ & _ & Ht1). destruct (Hp _ _ H2) as (_ & _ & Ht2).
  congruence.
Qed.

Lemma row_body_inv r st :
  (∀ tno vt d, row_loads r tno vt d → loads tno vt d) →
  stage_inv st →
  match row_body r st with
  | RowContinue st' => stage_inv st'
  | RowReturn h => heap_ok h
  end.
Proof.
  intros Hloads Hinv. unfold row_body.
  destruct r as [| |work_area tender_no icon attempts]; [done|done|].
  destruct (negb (bool_decide (PyStr.lower (PyStr.strip work_area) = "works"))); [done|].
  destruct (sd_pending st !! PyStr.strip tender_no) as [l|] eqn:Hl; [|done].
  pose proof Hinv as [[Hlists Hrec] Hpend].
  destruct (Hpend _ _ Hl) as (Hin & Hsame & Hno).
  destruct (harvested_fields _ (Hharvested l Hin)) as [Hf1 Hf2].
  assert (∀ tno' l', delete (PyStr.strip tender_no) (sd_pending st) !! tno' = Some l' →
            sd_pending st !! tno' = Some l' ∧ l' ≠ l) as Hdel.
  { intros tno' l' Hd. apply lookup_delete_Some in Hd as [Hne Hd]. split; [done|].
    by apply (pending_distinct st (PyStr.strip tender_no) l tno' l'). }
  destruct (negb icon).
  { (* the icon is missing: the fields are set to the values they have *)
    assert (∀ l', read_dict (set_item (set_item (sd_heap st) l "tender_doc_download_url" VNone)
                               l "attached_documents" (VDocs [])) l'
                  = read_dict (sd_heap st) l') as Hread.
    { intros l'. destruct (decide (l = l')) as [<-|Hne].
      - rewrite !read_dict_set_item_eq. rewrite Hsame.
        rewrite (insert_id _ _ _ Hf1). by rewrite (insert_id _ _ _ Hf2).
      - by rewrite !read_dict_set_item_ne. }
    split; [split|]; cbn [sd_heap sd_pending].
    - done.
    - intros l'. rewrite Hread. apply Hrec.
    - intros tno' l' Hd. apply Hdel in Hd as [Hd _]. rewrite Hread. by apply Hpend. }
  destruct (retry_loop MAX_RETRIES 0 attempts (sd_heap st) l) as [h'| |] eqn:Hretry.
  - apply retry_loop_success in Hretry as (i & vt & dout & Ha & ->).
    split; [split|]; cbn [sd_heap sd_pending].
    + done.
    + intros l'. destruct (decide (l = l')) as [<-|Hne].
      * rewrite read_dict_write_eq. right. exists vt, dout. split.
        -- apply Hloads. simpl. unfold tender_id. rewrite Hno. split; [done|by exists i].
        -- by rewrite Hsame.
      * rewrite read_dict_write_ne by done. apply Hrec.
    + intros tno' l' Hd. apply Hdel in Hd as [Hd Hne].
      rewrite read_dict_write_ne by done. by apply Hpend.
  - assert (∀ l', read_dict (mark_empty (sd_heap st) l) l' = read_dict (sd_heap st) l')
      as Hread.
    { intros l'. unfold mark_empty.
      rewrite (mark_empty_dict_present (read_dict (sd_heap st) l) VNone (VDocs []));
        [apply read_dict_write_same| |]; by rewrite Hsame. }
    split; [split|]; cbn [sd_heap sd_pending].
    + done.
    + intros l'. rewrite Hread. apply Hrec.
    + intros tno' l' Hd. apply Hdel in Hd as [Hd _]. rewrite Hread. by apply Hpend.
  - done.
Qed.

Lemma rows_loop_inv rows : ∀ st,
  (∀ r tno vt d, r ∈ rows → row_loads r tno vt d → loads tno vt d) →
  stage_inv st →
  match rows_loop rows st with
  | RowsDone st' => stage_inv st'
  | RowsReturn h => heap_ok h
  end.
Proof.
  induction rows as [|r rows IH]; intros st Hloads Hinv; simpl; [done|].
  destruct (bool_decide (MAX_CONSECUTIVE_FAILURES ≤ sd_consecutive_failures st)%nat); [done|].
  pose proof (row_body_inv r st) as Hrow.
  destruct (row_body r st) as [st'|h].
  - apply IH.
    + intros r' tno vt d Hr'. apply Hloads. by apply list_elem_of_further.
    + apply Hrow; [|done]. intros tno vt d. apply Hloads. apply list_elem_of_here.
  - apply Hrow; [|done]. intros tno vt d. apply Hloads. apply list_elem_of_here.
Qed.

(** Marking the tenders still pending changes no dict: their fields are
    there already. *)
Lemma mark_remaining_reads st :
  stage_inv st →
  h_lists (mark_remaining st) = h_lists (sd_heap st)
  ∧ ∀ l, read_dict (mark_remaining st) l = read_dict (sd_heap st) l.
Proof.
  intros [_ Hpend]. unfold mark_remaining.
  assert (∀ tno l, sd_pending st !! tno = Some l →
            mark_empty_dict (read_dict (sd_heap st) l) = read_dict (sd_heap st) l) as Hkeep.
  { intros tno l Hl. destruct (Hpend _ _ Hl) as (Hin & Hsame & _).
    destruct (harvested_fields _ (Hharvested l Hin)) as [Hf1 Hf2].
    apply (mark_empty_dict_present _ VNone (VDocs [])); by rewrite Hsame. }
  revert Hkeep. generalize (sd_pending st) as pending. intros pending.
  apply (map_fold_weak_ind
           (λ (h : heap) (m : gmap string loc),
              (∀ tno l, m !! tno = Some l →
                 mark_empty_dict (read_dict (sd_heap st) l) = read_dict (sd_heap st) l) →
              h_lists h = h_lists (sd_heap st)
              ∧ ∀ l, read_dict h l = read_dict (sd_heap st) l)).
  - done.
  - intros tno l m h Hm IH Hkeep.
    destruct IH as [Hlists Hread].
    { intros tno' l' Hl'. apply (Hkeep tno' l').
      rewrite lookup_insert_ne; [done|]. intros ->. congruence. }
    split; [done|]. intros l'. unfold mark_empty.
    rewrite Hread. rewrite (Hkeep tno l) by apply lookup_insert_eq.
    rewrite <- (Hread l). rewrite read_dict_write_same. apply Hread.
Qed.

Lemma mark_remaining_ok st : stage_inv st → heap_ok (mark_remaining st).
Proof.
  intros Hinv. destruct (mark_remaining_reads st Hinv) as [Hlists Hread].
  destruct Hinv as [[Hl Hrec] _]. split; [congruence|].
  intros l. rewrite Hread. apply Hrec.
Qed.

Lemma pages_loop_inv tenders rest : ∀ cur st,
  (∀ p tno vt d, p ∈ cur :: rest → page_loads p tno vt d → loads tno vt d) →
  stage_inv st →
  heap_ok (pages_loop tenders cur rest st).1
  ∧ ((pages_loop tenders cur rest st).2 = Ok tenders
     ∨ ∃ e, (pages_loop tenders cur rest st).2 = Raise e).
Proof.
  induction rest as [|next rest IH]; intros cur st Hloads Hinv.
  all: destruct cur as [e| |rows]; simpl;
    [split; [apply Hinv|right; by exists e]
    |split; [by apply mark_remaining_ok|by left]|].
  all: pose proof (rows_loop_inv rows st) as Hrows.
  all: assert (∀ r tno vt d, r ∈ rows → row_loads r tno vt d → loads tno vt d) as Hl
         by (intros r tno vt d Hr Hrl; apply (Hloads (PageRows rows) tno vt d);
             [apply list_elem_of_here|by exists r]).
  all: specialize (Hrows Hl Hinv).
  all: destruct (rows_loop rows st) as [st'|h]; [|by split; [|left]].
  all: destruct (bool_decide (MAX_CONSECUTIVE_FAILURES ≤ sd_consecutive_failures st')%nat);
         [split; [by apply mark_remaining_ok|by left]|].
  all: destruct (decide (sd_pending st' = ∅));
         [split; [by apply mark_remaining_ok|by left]|].
  - split; [by apply mark_remaining_ok|by left].
  - apply IH; [|done]. intros p tno vt d Hp. apply Hloads. by apply list_elem_of_further.
Qed.

Lemma build_pending_spec h ls : ∀ acc pending,
  build_pending h ls acc = Ok pending →
  ∀ tno l, pending !! tno = Some l →
    acc !! tno = Some l ∨ (l ∈ ls ∧ get_tender_no (read_dict h l) = Ok tno).
Proof.
  induction ls as [|l0 ls IH]; intros acc pending H tno l Hl; simpl in H.
  - injection H as <-. by left.
  - destruct (get_tender_no (read_dict h l0)) as [tno0|] eqn:Hno; [|done].
    cbn [rbind] in H.
    destruct (IH _ _ H tno l Hl) as [Hacc|[Hin Ht]].
    + destruct (PyStr.truthy tno0); [|by left].
      destruct (decide (tno0 = tno)) as [->|Hne].
      * rewrite lookup_insert_eq in Hacc. injection Hacc as ->.
        right. split; [apply list_elem_of_here|done].
      * rewrite lookup_insert_ne in Hacc by done. by left.
    + right. split; [by apply list_elem_of_further|done].
Qed.

End Stage.

(** The stage, from the store [h] that Phase 1 left. *)
Lemma scrape_details_ok context br h tenders :
  (∀ l, l ∈ read_list h tenders → harvested (read_dict h l)) →
  heap_ok h (browser_loads br) (_scrape_details context br h tenders).1
  ∧ ((_scrape_details context br h tenders).2 = Ok tenders
     ∨ ∃ e, (_scrape_details context br h tenders).2 = Raise e).
Proof.
  intros Hharv.
  assert (heap_ok h (browser_loads br) h) as Hh by (split; [done|by left]).
  unfold _scrape_details. destruct (negb context); [by split; [|left]|].
  destruct (build_pending h (read_list h tenders) ∅) as [pending|e] eqn:Hb;
    [|split; [done|right; by exists e]].
  destruct (decide (pending = ∅)); [by split; [|left]|].
  destruct (br_goto br) as [[]|e]; [|split; [done|right; by exists e]].
  apply (pages_loop_inv h (read_list h tenders) (browser_loads br) Hharv).
  - intros p tno vt d Hp Hl. by exists p.
  - split; [done|]. intros tno l Hl. cbn [sd_pending sd_heap] in *.
    destruct (build_pending_spec h _ _ _ Hb tno l Hl) as [He|[Hin Hno]]; [done|].
    done.
Qed.

(** A harvested record for the examples, in a list object of its own. *)
Definition ex_harvest_heap : heap :=
  Heap {[ 0 := default ∅ (accepted_record ex_row_active) ]} {[ 5 := [0] ]}.

(** A listing whose only page shows that tender; every attempt to open
    its detail view fails. *)
Definition ex_browser_failing : browser :=
  Browser (Ok ()) (PageRows [LRow "Works" "T-9" true (λ _, AtError "timeout")]) [].

(** C2: the enrichment stage returns the harvested records themselves.
    Whether [_scrape_details] returns or raises, the result is the list
    Phase 1 built, with the same references; every record is either exactly
    as harvested, with [tender_doc_download_url] null and
    [attached_documents] empty, or it was enriched from a detail view that
    some attempt of the listing loaded, and then both fields are defined. *)
Theorem C2_enrichment_keeps_harvested (context : bool) (br : browser) (h : heap)
    (listing_tenders : loc) :
  (∀ l, l ∈ read_list h listing_tenders → harvested (read_dict h l)) →
  ∃ h' returned,
    scrape_tenders context br h listing_tenders = (h', returned)
    ∧ read_list h' returned = read_list h listing_tenders
    ∧ (read_list h listing_tenders ≠ [] → returned = listing_tenders)
    ∧ ∀ l, l ∈ read_list h listing_tenders →
        (read_dict h' l = read_dict h l
         ∧ read_dict h' l !! "tender_doc_download_url" = Some VNone
         ∧ read_dict h' l !! "attached_documents" = Some (VDocs []))
        ∨ (∃ value_text d,
             browser_loads br (tender_id (read_dict h l)) value_text d
             ∧ read_dict h' l = enrich_dict (read_dict h l) value_text d
             ∧ is_Some (read_dict h' l !! "tender_doc_download_url")
             ∧ is_Some (read_dict h' l !! "attached_documents")).
Proof.
  intros Hharv. unfold scrape_tenders.
  destruct (read_list h listing_tenders) as [|l0 ls] eqn:Hitems.
  - eexists _, _. split; [reflexivity|]. split.
    + unfold read_list. cbn [h_lists]. by rewrite lookup_insert_eq.
    + split; [done|]. intros l Hl. by apply elem_of_nil in Hl.
  - destruct (scrape_details_ok context br h listing_tenders) as [[Hlists Hrec] Hres].
    { intros l Hl. apply Hharv. by rewrite <- Hitems. }
    destruct (_scrape_details context br h listing_tenders) as [h' res].
    cbn [fst snd] in *.
    assert (∃ returned, (let (h0, r) := (h', res) in
                         match r with
                         | Ok enriched_tenders => (h0, enriched_tenders)
                         | Raise _ => (h0, listing_tenders)
                         end) = (h', returned) ∧ returned = listing_tenders)
      as (returned & -> & ->).
    { destruct Hres as [->|[e ->]]; by eexists. }
    exists h', listing_tenders. split; [done|]. split.
    { unfold read_list in *. by rewrite Hlists. }
    split; [done|]. intros l Hl.
    destruct (harvested_fields _ (Hharv l Hl)) as [Hf1 Hf2].
    destruct (Hrec l) as [Hsame|(vt & d & Hload & Henr)].
    + left. by rewrite Hsame.
    + right. exists vt, d. split; [done|]. split; [done|].
      rewrite Henr. apply enrich_dict_is_Some.
Qed.

Lemma C2_enrichment_keeps_harvested_witness :
  ∃ h' returned,
    scrape_tenders true ex_browser_failing ex_harvest_heap 5 = (h', returned)
    ∧ read_list h' returned = read_list ex_harvest_heap 5
    ∧ (read_list ex_harvest_heap 5 ≠ [] → returned = 5)
    ∧ ∀ l, l ∈ read_list ex_harvest_heap 5 →
        (read_dict h' l = read_dict ex_harvest_heap l
         ∧ read_dict h' l !! "tender_doc_download_url" = Some VNone
         ∧ read_dict h' l !! "attached_documents" = Some (VDocs []))
        ∨ (∃ value_text d,
             browser_loads ex_browser_failing (tender_id (read_dict ex_harvest_heap l))
               value_text d
             ∧ read_dict h' l = enrich_dict (read_dict ex_harvest_heap l) value_text d
             ∧ is_Some (read_dict h' l !! "tender_doc_download_url")
             ∧ is_Some (read_dict h' l !! "attached_documents")).
Proof.
  apply (C2_enrichment_keeps_harvested true ex_browser_failing ex_harvest_heap 5).
  intros l Hl. change (read_list ex_harvest_heap 5) with [0] in Hl.
  apply list_elem_of_singleton in Hl as ->.
  exists ex_row_active.
  change (read_dict ex_harvest_heap 0) with (default ∅ (accepted_record ex_row_active)).
  apply accepted_record_Some. apply (bool_decide_unpack _). vm_compute. reflexivity.
Defined.

End ScraperFacts.

(** ** Claims about the login flow *)

Module LoginFacts.
Import Login.

(** The state an attempt ends in. *)
Definition outcome_state (o : attempt_outcome) : login_state :=
  match o with
  | LoggedIn st => st
  | CaptchaRetry st => st
  | Raised _ st => st
  end.

(** In this attempt no Playwright call fails and the site rejects every
    code that is submitted. *)
Definition rejects (env : attempt_env) : Prop :=
  ae_crash env = NoCrash ∧ ae_rejected env = true ∧ ae_fresh_rejected env = true.

Lemma submit_otp_counters env st :
  attempts_started (outcome_state (submit_otp env st)) = attempts_started st
  ∧ otp_generations (outcome_state (submit_otp env st)) = otp_generations st.
Proof.
  unfold submit_otp, submit_cached_otp, submit_webhook_otp, success.
  repeat match goal with
         | |- context [match ?x with _ => _ end] => destruct x
         end; done.
Qed.

Lemma attempt_body_counters max attempt env st :
  attempts_started (outcome_state (attempt_body max attempt env st)) = attempts_started st
  ∧ (otp_generations (outcome_state (attempt_body max attempt env st))
     ≤ S (otp_generations st))%nat.
Proof.
  unfold attempt_body.
  destruct (ae_crash env); (destruct (ae_captcha_image env); cbn [negb];
    [destruct (ae_captcha_text env); [|by split; [|cbn; lia]]|by split; [|cbn; lia]]);
    try (split; [done|cbn; lia]).
  all: destruct (ae_captcha_rejected env);
         [destruct (bool_decide (max ≤ attempt)%nat); split; cbn; lia|].
  all: match goal with
       | |- context [submit_otp ?e ?s] =>
           destruct (submit_otp_counters e s) as [-> ->]
       end; cbn; lia.
Qed.

Lemma submit_otp_rejects env st :
  rejects env → ∃ msg st', submit_otp env st = Raised (RuntimeError msg) st'.
Proof.
  intros (_ & Hr & Hf). unfold submit_otp, submit_cached_otp, submit_webhook_otp.
  rewrite Hr, Hf.
  repeat match goal with
         | |- context [match ?x with _ => _ end] => destruct x
         end; by eexists _, _.
Qed.

Lemma attempt_body_rejects max attempt env st :
  rejects env →
  (∃ st', attempt_body max attempt env st = CaptchaRetry st' ∧ (attempt < max)%nat)
  ∨ (∃ msg st', attempt_body max attempt env st = Raised (RuntimeError msg) st').
Proof.
  intros Hrej. pose proof Hrej as (Hc & _ & _). unfold attempt_body. rewrite Hc.
  destruct (ae_captcha_image env); cbn [negb]; [|right; by eexists _, _].
  destruct (ae_captcha_text env); [|right; by eexists _, _].
  destruct (ae_captcha_rejected env).
  - destruct (bool_decide (max ≤ attempt)%nat) eqn:Hle.
    + right. by eexists _, _.
    + left. eexists. split; [done|]. apply bool_decide_eq_false in Hle. lia.
  - right. by apply submit_otp_rejects.
Qed.

Lemma attempt_loop_counters max n : ∀ attempt envs st,
  (attempts_started (attempt_loop max n attempt envs st).2 ≤ attempts_started st + n)%nat
  ∧ (otp_generations (attempt_loop max n attempt envs st).2 + attempts_started st
     ≤ otp_generations st + attempts_started (attempt_loop max n attempt envs st).2)%nat
  ∧ ((attempt_loop max n attempt envs st).1 = Ok true
     ∨ ∃ e, (attempt_loop max n attempt envs st).1 = Raise e).
Proof.
  induction n as [|n IH]; intros attempt envs st; simpl.
  - split; [lia|]. split; [lia|]. right. by eexists.
  - set (st1 := LoginState (cached_otp st) (otp_generations st) (S (attempts_started st))
                  (otp_cache_file st) (session_saved st)).
    pose proof (attempt_body_counters max attempt (envs attempt) st1) as [Ha Hg].
    destruct (attempt_body max attempt (envs attempt) st1) as [st2|st2|e st2];
      cbn [outcome_state] in Ha, Hg; cbn [attempts_started otp_generations st1] in Ha, Hg.
    + cbn [fst snd]. split; [lia|]. split; [lia|]. by left.
    + destruct (IH (S attempt) envs st2) as (H1 & H2 & H3).
      split; [lia|]. split; [lia|]. done.
    + destruct e as [|msg|msg]; cbn [fst snd].
      * split; [lia|]. split; [lia|]. right. by eexists.
      * destruct (bool_decide (max ≤ attempt)%nat); cbn [fst snd].
        -- split; [lia|]. split; [lia|]. right. by eexists.
        -- destruct (IH (S attempt) envs st2) as (H1 & H2 & H3).
           split; [lia|]. split; [lia|]. done.
      * split; [lia|]. split; [lia|]. right. by eexists.
Qed.

(** The last pass of the loop, when everything is rejected: the error is
    raised again. *)
Lemma last_attempt_rejects max envs st :
  rejects (envs max) →
  ∃ msg, (attempt_loop max 1 max envs st).1 = Raise (RuntimeError msg)
    ∧ attempts_started (attempt_loop max 1 max envs st).2 = S (attempts_started st).
Proof.
  intros Hr. cbn [attempt_loop].
  set (st1 := LoginState (cached_otp st) (otp_generations st) (S (attempts_started st))
                (otp_cache_file st) (session_saved st)).
  pose proof (attempt_body_counters max max (envs max) st1) as [Ha _].
  destruct (attempt_body_rejects max max (envs max) st1 Hr)
    as [(st2 & _ & Hlt)|(msg & st2 & Hb)]; [lia|].
  rewrite Hb in *. cbn [outcome_state attempts_started st1] in Ha.
  rewrite bool_decide_eq_true_2 by lia. exists msg. by split.
Qed.

(** An earlier pass, when everything is rejected: the loop goes on. *)
Lemma not_last_attempt_rejects max n attempt envs st :
  (attempt < max)%nat → rejects (envs attempt) →
  ∃ st', attempt_loop max (S n) attempt envs st = attempt_loop max n (S attempt) envs st'
    ∧ attempts_started st' = S (attempts_started st).
Proof.
  intros Hlt Hr. cbn [attempt_loop].
  set (st1 := LoginState (cached_otp st) (otp_generations st) (S (attempts_started st))
                (otp_cache_file st) (session_saved st)).
  pose proof (attempt_body_counters max attempt (envs attempt) st1) as [Ha _].
  destruct (attempt_body_rejects max attempt (envs attempt) st1 Hr)
    as [(st2 & Hb & _)|(msg & st2 & Hb)];
    rewrite Hb in *; cbn [outcome_state attempts_started st1] in Ha.
  - by exists st2.
  - rewrite bool_decide_eq_false_2 by lia. by exists st2.
Qed.

(** Two attempts in which nothing crashes and every code is rejected. *)
Definition ex_env_rejecting : attempt_env :=
  AttemptEnv NoCrash true (Some "x7k2p") false (Some "482910") true (Some "482910") true.

(** C3: a run of the full login starts at most 2 attempts, clicks "Get OTP"
    at most once per attempt, and ends with [True] or an exception.  When
    the site rejects what is submitted in attempt 1 and in attempt 2, the
    run ends after exactly 2 attempts with a [RuntimeError]; [ensure_session]
    hands the outcome of the login to its caller unchanged. *)
Theorem C3_login_attempt_cap (loaded cache_file : option string) (envs : nat → attempt_env) :
  let run := _perform_login 2 loaded cache_file envs in
  (attempts_started run.2 ≤ 2)%nat
  ∧ (otp_generations run.2 ≤ attempts_started run.2)%nat
  ∧ (run.1 = Ok true ∨ ∃ e, run.1 = Raise e)
  ∧ (rejects (envs 1) → rejects (envs 2) →
       ∃ msg, run.1 = Raise (RuntimeError msg) ∧ attempts_started run.2 = 2)
  ∧ (∀ session_is_valid verify_session,
       session_is_valid && verify_session = false →
       ensure_session session_is_valid verify_session loaded cache_file envs = run).
Proof.
  intros run. unfold run, _perform_login.
  set (st0 := LoginState loaded 0 0 cache_file false).
  destruct (attempt_loop_counters 2 2 1 envs st0) as (H1 & H2 & H3).
  cbn [attempts_started otp_generations st0] in H1, H2.
  split; [lia|]. split; [lia|]. split; [done|]. split.
  - intros Hr1 Hr2. clear H1 H2 H3.
    destruct (not_last_attempt_rejects 2 1 1 envs st0 ltac:(lia) Hr1) as (st2 & -> & Hst2).
    destruct (last_attempt_rejects 2 envs st2 Hr2) as (msg & Hres & Hn).
    exists msg. split; [done|]. rewrite Hn, Hst2. done.
  - intros v w Hvw. unfold ensure_session. by rewrite Hvw.
Qed.

Lemma C3_login_attempt_cap_witness :
  ∃ msg,
    (_perform_login 2 None None (λ _, ex_env_rejecting)).1 = Raise (RuntimeError msg)
    ∧ attempts_started (_perform_login 2 None None (λ _, ex_env_rejecting)).2 = 2.
Proof.
  apply (proj1 (proj2 (proj2 (proj2 (C3_login_attempt_cap None None (λ _, ex_env_rejecting)))))).
  - unfold rejects. vm_compute. split; [reflexivity|]. split; reflexivity.
  - unfold rejects. vm_compute. split; [reflexivity|]. split; reflexivity.
Defined.

(** The same run by evaluation: two clicks on "Get OTP", no session saved. *)
Example login_two_rejections :
  _perform_login 2 None None (λ _, ex_env_rejecting)
  = (Raise (RuntimeError "OTP from webhook rejected by IREPS"),
     LoginState None 2 2 (Some "482910") false).
Proof. vm_compute. reflexivity. Qed.

End LoginFacts.

(** ** Claims about the OTP receiver *)

Module OtpFacts.
Import Otp.

Lemma deliver_all_snoc ds d r :
  deliver_all (ds ++ [d]) r = sms_webhook d (deliver_all ds r).
Proof. unfold deliver_all. by rewrite foldl_app. Qed.

Lemma deliver_all_app ds ds' r :
  deliver_all (ds ++ ds') r = deliver_all ds' (deliver_all ds r).
Proof. unfold deliver_all. by rewrite foldl_app. Qed.

Lemma sms_webhook_frame d r :
  _otp_request_time (sms_webhook d r) = _otp_request_time r
  ∧ _use_existing_server (sms_webhook d r) = _use_existing_server r.
Proof. unfold sms_webhook. by destruct (otp_truthy (d_otp d)). Qed.

Lemma deliver_all_frame ds : ∀ r,
  _otp_request_time (deliver_all ds r) = _otp_request_time r
  ∧ _use_existing_server (deliver_all ds r) = _use_existing_server r.
Proof.
  induction ds as [|d ds IH]; intros r; [done|].
  change (deliver_all (d :: ds) r) with (deliver_all ds (sms_webhook d r)).
  destruct (IH (sms_webhook d r)) as [-> ->]. apply sms_webhook_frame.
Qed.

(** The ticket in the cell is the one that was there or a delivered one. *)
Lemma deliver_all_ticket ds : ∀ r,
  (_latest_otp (deliver_all ds r) = _latest_otp r
   ∧ _otp_timestamp (deliver_all ds r) = _otp_timestamp r)
  ∨ Delivery (_latest_otp (deliver_all ds r)) (_otp_timestamp (deliver_all ds r)) ∈ ds.
Proof.
  induction ds as [|d ds IH] using rev_ind; intros r; [by left|].
  rewrite deliver_all_snoc. unfold sms_webhook.
  destruct (otp_truthy (d_otp d)).
  - right. cbn. apply elem_of_app. right. destruct d. apply list_elem_of_here.
  - destruct (IH r) as [?|Hin]; [by left|]. right. apply elem_of_app. by left.
Qed.

(** A delivery with a code is what the cell holds right after it. *)
Lemma deliver_all_last ds otp ts r :
  PyStr.truthy otp = true →
  let r' := deliver_all (ds ++ [Delivery (Some otp) ts]) r in
  _latest_otp r' = Some otp ∧ _otp_timestamp r' = ts ∧ _event r' = true.
Proof.
  intros Ht. cbv zeta. rewrite deliver_all_snoc. unfold sms_webhook. cbn. by rewrite Ht.
Qed.

(** In unattended mode with its own listener, a returned code is the
    ticket of the cell, and that ticket is newer than the request. *)
Lemma wait_for_otp_returns env r otp :
  w_headless env = true → _use_existing_server r = false →
  (wait_for_otp env r).2 = Some otp →
  ∃ r', (r' = r ∨ r' = deliver_all (w_during env) r)
    ∧ _latest_otp r' = Some otp ∧ (_otp_request_time r < _otp_timestamp r')%Z.
Proof.
  intros Hh Hs. unfold wait_for_otp. rewrite Hs, Hh.
  destruct (fresh_ticket (_otp_request_time r) r) eqn:Hf.
  - cbn. intros Ho. exists r. split; [by left|]. split; [done|].
    unfold fresh_ticket in Hf. apply andb_true_iff in Hf as [_ Hf].
    by apply bool_decide_eq_true in Hf.
  - destruct (_event (deliver_all (w_during env) r)
              && fresh_ticket (_otp_request_time r) (deliver_all (w_during env) r)) eqn:Hw.
    + apply andb_true_iff in Hw as [_ Hf'].
      destruct (_latest_otp (deliver_all (w_during env) r)) as [o|] eqn:Hl; cbn.
      * intros [= ->]. exists (deliver_all (w_during env) r).
        split; [by right|]. split; [done|].
        unfold fresh_ticket in Hf'. apply andb_true_iff in Hf' as [_ Hf'].
        by apply bool_decide_eq_true in Hf'.
      * done.
    + done.
Qed.

(** A receiver that holds an old ticket, for the examples. *)
Definition ex_receiver : receiver := Receiver (Some "482910") 100 50 true false.

Definition ex_wait_env (during : list delivery) : wait_env :=
  WaitEnv true during [] None 0.

(** C4: the request is registered when the clock reads [T]; [early] are
    the deliveries between the registration and the call of [wait_for_otp],
    [w_during env] those during the wait.  In unattended mode with the
    receiver's own listener: a returned code belongs to a ticket stamped
    strictly after [T]; if every ticket, the one already in the cell
    included, is stamped at or before [T], nothing is returned; a ticket
    stamped after [T] that arrives before the wait begins is returned, and
    so is one that arrives during the wait. *)
Theorem C4_ticket_after_registration (r : receiver) (T : time) (early : list delivery)
    (env : wait_env) :
  w_headless env = true →
  _use_existing_server r = false →
  let r1 := deliver_all early (clear_for_new_otp T r) in
  (∀ otp, (wait_for_otp env r1).2 = Some otp →
     ∃ ts, (T < ts)%Z
       ∧ (Delivery (Some otp) ts ∈ early ++ w_during env
          ∨ (_latest_otp r = Some otp ∧ _otp_timestamp r = ts)))
  ∧ ((_otp_timestamp r ≤ T)%Z →
     Forall (λ d, (d_time d ≤ T)%Z) (early ++ w_during env) →
     (wait_for_otp env r1).2 = None)
  ∧ (∀ early' otp ts,
       early = early' ++ [Delivery (Some otp) ts] →
       PyStr.truthy otp = true → (T < ts)%Z →
       (wait_for_otp env r1).2 = Some otp)
  ∧ (∀ during' otp ts,
       fresh_ticket T r1 = false →
       w_during env = during' ++ [Delivery (Some otp) ts] →
       PyStr.truthy otp = true → (T < ts)%Z →
       (wait_for_otp env r1).2 = Some otp).
Proof.
  intros Hh Hs r1.
  destruct (deliver_all_frame early (clear_for_new_otp T r)) as [Hrt Hsrv].
  fold r1 in Hrt, Hsrv. cbn [clear_for_new_otp _otp_request_time _use_existing_server] in Hrt, Hsrv.
  rewrite Hs in Hsrv.
  assert (∀ otp, (wait_for_otp env r1).2 = Some otp →
            ∃ ts, (T < ts)%Z
              ∧ (Delivery (Some otp) ts ∈ early ++ w_during env
                 ∨ (_latest_otp r = Some otp ∧ _otp_timestamp r = ts))) as Hreturned.
  { intros otp Hw.
    destruct (wait_for_otp_returns env r1 otp Hh Hsrv Hw) as (r' & Hr' & Hl & Hlt).
    rewrite Hrt in Hlt. exists (_otp_timestamp r'). split; [done|].
    assert (r' = deliver_all early (clear_for_new_otp T r)
            ∨ r' = deliver_all (early ++ w_during env) (clear_for_new_otp T r)) as Hr''.
    { destruct Hr' as [->| ->]; [by left|right]. unfold r1. by rewrite deliver_all_app. }
    destruct Hr'' as [-> | ->].
    - destruct (deliver_all_ticket early (clear_for_new_otp T r)) as [[H1 H2]|Hin].
      + right. cbn in H1, H2. by rewrite <- H1, <- H2.
      + left. rewrite Hl in Hin. apply elem_of_app. by left.
    - destruct (deliver_all_ticket (early ++ w_during env) (clear_for_new_otp T r))
        as [[H1 H2]|Hin].
      + right. cbn in H1, H2. by rewrite <- H1, <- H2.
      + left. by rewrite Hl in Hin. }
  split; [exact Hreturned|]. split; [|split].
  - intros Hold Hall.
    destruct ((wait_for_otp env r1).2) as [otp|] eqn:Hw; [|done].
    destruct (Hreturned otp eq_refl) as (ts & Hlt & [Hin|[_ Hts]]).
    + apply (proj1 (Forall_forall _ _) Hall) in Hin. cbn in Hin. lia.
    + lia.
  - intros early' otp ts -> Ht Hlt.
    destruct (deliver_all_last early' otp ts (clear_for_new_otp T r) Ht) as (Hl & Hts & _).
    fold r1 in Hl, Hts.
    unfold wait_for_otp. rewrite Hrt.
    assert (fresh_ticket T r1 = true) as ->.
    { unfold fresh_ticket. rewrite Hl, Hts. cbn. rewrite Ht. cbn.
      by apply bool_decide_eq_true_2. }
    done.
  - intros during' otp ts Hstale Hd Ht Hlt.
    destruct (deliver_all_last during' otp ts r1 Ht) as (Hl & Hts & He).
    rewrite <- Hd in Hl, Hts, He.
    unfold wait_for_otp. rewrite Hrt, Hstale, Hsrv, He.
    assert (fresh_ticket T (deliver_all (w_during env) r1) = true) as ->.
    { unfold fresh_ticket. rewrite Hl, Hts. cbn. rewrite Ht. cbn.
      by apply bool_decide_eq_true_2. }
    cbn. by rewrite Hl.
Qed.

Lemma C4_ticket_after_registration_witness :
  (wait_for_otp (ex_wait_env [])
     (deliver_all [] (clear_for_new_otp 200 ex_receiver))).2 = None
  ∧ (wait_for_otp (ex_wait_env [])
       (deliver_all [Delivery (Some "482910") 203] (clear_for_new_otp 200 ex_receiver))).2
    = Some "482910".
Proof.
  split.
  - apply (proj1 (proj2 (C4_ticket_after_registration ex_receiver 200 [] (ex_wait_env [])
                           eq_refl eq_refl))).
    + vm_compute. discriminate.
    + apply List.Forall_nil.
  - apply (proj1 (proj2 (proj2
             (C4_ticket_after_registration ex_receiver 200 [Delivery (Some "482910") 203]
                (ex_wait_env []) eq_refl eq_refl))) [] "482910" 203%Z).
    + reflexivity.
    + reflexivity.
    + reflexivity.
Defined.

(** The same code delivered again is accepted when it is stamped after the
    request and refused when it is stamped at the request instant; a ticket
    that arrives while the flow waits is accepted. *)
Example same_code_new_ticket :
  (wait_for_otp (ex_wait_env [])
     (deliver_all [Delivery (Some "482910") 200] (clear_for_new_otp 200 ex_receiver))).2 = None
  ∧ (wait_for_otp (ex_wait_env [Delivery None 201; Delivery (Some "482910") 204])
       (clear_for_new_otp 200 ex_receiver)).2 = Some "482910".
Proof. vm_compute. by split. Qed.

End OtpFacts.

(* ===================================================================== *)
(** * Further properties                                                   *)
(* ===================================================================== *)

(** ** Python string primitives: facts *)

Module PyStrFacts.
Import PyStr.

(** The characters of a string, and [lstrip] on them. *)
Abbreviation chars := String.list_ascii_of_string.

Fixpoint lstrip_chars (l : list ascii) : list ascii :=
  match l with
  | [] => []
  | a :: r => if isspace a then lstrip_chars r else l
  end.

Lemma chars_inj s t : chars s = chars t → s = t.
Proof.
  intros H. rewrite <- (String.string_of_list_ascii_of_string s).
  rewrite <- (String.string_of_list_ascii_of_string t). by rewrite H.
Qed.

Lemma chars_lstrip s : chars (lstrip s) = lstrip_chars (chars s).
Proof. induction s as [|a s IH]; [done|]. simpl. by destruct (isspace a). Qed.

Lemma chars_rev_app s : ∀ t, chars (String.rev_app s t) = rev_append (chars s) (chars t).
Proof. induction s as [|a s IH]; intros t; [done|]. simpl. by rewrite IH. Qed.

Lemma chars_rev s : chars (String.rev s) = reverse (chars s).
Proof. unfold String.rev. by rewrite chars_rev_app. Qed.

Lemma chars_strip s :
  chars (strip s) = reverse (lstrip_chars (reverse (lstrip_chars (chars s)))).
Proof.
  unfold strip, rstrip. by rewrite chars_rev, chars_lstrip, chars_rev, chars_lstrip.
Qed.

Lemma lstrip_chars_split l :
  ∃ p, l = p ++ lstrip_chars l ∧ Forall (λ a, isspace a = true) p.
Proof.
  induction l as [|a l (p & Hl & Hp)]; [by exists []|]. simpl.
  destruct (isspace a) eqn:Ha.
  - exists (a :: p). split; [simpl; by rewrite <- Hl|by constructor].
  - by exists [].
Qed.

Lemma lstrip_chars_head l a r : lstrip_chars l = a :: r → isspace a = false.
Proof.
  induction l as [|b l IH]; [done|]. simpl. destruct (isspace b) eqn:Hb; [done|].
  by intros [= <- _].
Qed.

Lemma lstrip_chars_fixed a r : isspace a = false → lstrip_chars (a :: r) = a :: r.
Proof. intros H. simpl. by rewrite H. Qed.

(** Stripping on both ends leaves nothing to strip. *)
Lemma strip_chars_fixed l :
  let r := reverse (lstrip_chars (reverse (lstrip_chars l))) in
  lstrip_chars r = r ∧ lstrip_chars (reverse r) = reverse r.
Proof.
  cbv zeta. set (m := lstrip_chars l).
  destruct (lstrip_chars_split (reverse m)) as (p & Hm & _).
  set (t := lstrip_chars (reverse m)) in *.
  assert (m = reverse t ++ reverse p) as Hm'.
  { rewrite <- reverse_app, <- Hm. by rewrite reverse_involutive. }
  split.
  - destruct (reverse t) as [|a r] eqn:Hr; [done|].
    apply lstrip_chars_fixed. simpl in Hm'.
    by apply (lstrip_chars_head l a (r ++ reverse p)).
  - rewrite reverse_involutive. destruct t as [|a r] eqn:Ht; [done|].
    apply lstrip_chars_fixed. by apply (lstrip_chars_head (reverse m) a r).
Qed.

Lemma strip_idempotent s : strip (strip s) = strip s.
Proof.
  apply chars_inj. rewrite (chars_strip (strip s)). rewrite (chars_strip s).
  destruct (strip_chars_fixed (chars s)) as [H1 H2].
  rewrite H1, H2. by rewrite reverse_involutive.
Qed.

(** A stripped string neither starts nor ends with a whitespace character. *)
Lemma strip_no_outer_space s a r :
  (chars (strip s) = a :: r → isspace a = false)
  ∧ (chars (strip s) = r ++ [a] → isspace a = false).
Proof.
  destruct (strip_chars_fixed (chars s)) as [H1 H2]. rewrite <- chars_strip in H1, H2.
  split; intros Hs; rewrite Hs in *.
  - by apply (lstrip_chars_head _ _ _ H1).
  - rewrite reverse_snoc in H2. by apply (lstrip_chars_head _ _ _ H2).
Qed.

End PyStrFacts.

(** ** Further properties of the change detector *)

(** The keys [detect_changes] assigns. *)
Definition annotation_keys : list string :=
  ["_change_type"; "_old_status"; "_new_status"; "_changes"].

(** Every key outside [annotation_keys] reads the same in both stores, and
    no key of the first store is missing in the second. *)
Definition writes_only (h h' : heap) : Prop :=
  ∀ l key,
    (key ∉ annotation_keys → read_dict h' l !! key = read_dict h l !! key)
    ∧ (is_Some (read_dict h l !! key) → is_Some (read_dict h' l !! key)).

Lemma writes_only_refl h : writes_only h h.
Proof. by intros l key. Qed.

Lemma writes_only_trans h1 h2 h3 :
  writes_only h1 h2 → writes_only h2 h3 → writes_only h1 h3.
Proof.
  intros H12 H23 l key. destruct (H12 l key) as [Ha Hb]. destruct (H23 l key) as [Hc Hd].
  split.
  - intros Hk. by rewrite Hc, Ha.
  - intros Hs. by apply Hd, Hb.
Qed.

Lemma writes_only_set_item h l key v :
  key ∈ annotation_keys → writes_only h (set_item h l key v).
Proof.
  intros Hk l' key'. destruct (decide (l = l')) as [<-|Hl].
  - rewrite read_dict_set_item_eq. split.
    + intros Hk'. rewrite lookup_insert_ne; [done|]. by intros ->.
    + intros Hs. destruct (decide (key = key')) as [<-|Hne].
      * rewrite lookup_insert_eq. by eexists.
      * by rewrite lookup_insert_ne.
  - by rewrite (read_dict_set_item_ne _ _ _ _ _ Hl).
Qed.

Section DetectMore.

Variable py_repr : pyval → string.

Lemma detect_one_writes memory h b l h1 b1 :
  detect_one py_repr memory (h, b) l = Ok (h1, b1) → writes_only h h1.
Proof.
  unfold detect_one. destruct (get_tender_no (read_dict h l)) as [no|e]; [|done].
  cbn [rbind]. destruct (PyStr.truthy no); cbn [negb].
  2: { intros [= <- _]. apply writes_only_refl. }
  destruct (memory !! no) as [old|].
  2: { intros [= <- _]. apply writes_only_set_item. set_solver. }
  destruct (decide (_diff py_repr old (read_dict h l) = ∅)).
  { intros [= <- _]. apply writes_only_set_item. set_solver. }
  destruct (decide (is_Some (_diff py_repr old (read_dict h l) !! "status"))).
  - intros [= <- _].
    eapply writes_only_trans; [|apply writes_only_set_item; set_solver].
    eapply writes_only_trans; [|apply writes_only_set_item; set_solver].
    apply writes_only_set_item. set_solver.
  - intros [= <- _].
    eapply writes_only_trans; [|apply writes_only_set_item; set_solver].
    apply writes_only_set_item. set_solver.
Qed.

Lemma detect_loop_writes memory ls : ∀ h b h' b',
  detect_loop py_repr memory (h, b) ls = Ok (h', b') → writes_only h h'.
Proof.
  induction ls as [|l ls IH]; intros h b h' b'.
  - intros [= <- _]. apply writes_only_refl.
  - change (detect_loop py_repr memory (h, b) (l :: ls))
      with (rbind (detect_one py_repr memory (h, b) l)
              (λ st, detect_loop py_repr memory st ls)).
    destruct (detect_one py_repr memory (h, b) l) as [[h1 b1]|e] eqn:Hone; [|done].
    cbn [rbind]. intros Hrest.
    eapply writes_only_trans; [by eapply detect_one_writes|by eapply IH].
Qed.

(** X1: [_diff] reports a key exactly when the key is neither internal nor
    [detail_url] and the two sides differ after [str] and [strip]; the entry
    is the pair of the normalised values.  A dict has no difference with
    itself, and swapping the sides swaps every entry. *)
Theorem X1_diff_entries (old new : dict) :
  (∀ key o n,
     _diff py_repr old new !! key = Some (o, n) ↔
     skipped_key key = false
     ∧ o = norm_field py_repr old key ∧ n = norm_field py_repr new key ∧ o ≠ n)
  ∧ _diff py_repr old old = ∅
  ∧ (∀ key, _diff py_repr new old !! key
            = (λ p : string * string, (p.2, p.1)) <$> _diff py_repr old new !! key).
Proof.
  split; [|split].
  - intros key o n. rewrite diff_lookup. unfold field_change.
    destruct (skipped_key key); [split; [done|by intros [? _]]|].
    case_decide as Hd.
    + split; [done|]. intros (_ & -> & -> & Hne). done.
    + split.
      * intros [= <- <-]. done.
      * intros (_ & -> & -> & _). done.
  - apply diff_empty_iff. done.
  - intros key. rewrite !diff_lookup. unfold field_change.
    destruct (skipped_key key); [done|].
    destruct (decide (norm_field py_repr old key = norm_field py_repr new key)) as [He|He].
    + by rewrite decide_True.
    + by rewrite decide_False by congruence.
Qed.

(** X2: a record with a non-blank [tender_no] that the snapshot does not
    know is classified NEW: it is in the NEW bucket and in no other, and
    [_change_type] is written on it. *)
Theorem X2_absent_identity_new (memory : gmap string dict) (now : string) (h : heap)
    (tenders l : loc) (tender_no : string) :
  Forall (λ l, tender_no_is_str (read_dict h l)) (read_list h tenders) →
  l ∈ read_list h tenders →
  get_tender_no (read_dict h l) = Ok tender_no →
  PyStr.truthy tender_no = true →
  memory !! tender_no = None →
  ∃ h' rep,
    detect_changes py_repr memory now h tenders = Ok (h', rep)
    ∧ l ∈ r_new rep
    ∧ (l ∉ r_updated rep) ∧ (l ∉ r_status_changed rep) ∧ (l ∉ r_unchanged rep)
    ∧ read_dict h' l !! "_change_type" = Some (VStr "NEW").
Proof.
  intros Hall Hl Hno Ht Hm.
  assert (classify py_repr memory (read_dict h l) = Some NEW) as Hc
    by (by rewrite (classify_unfold py_repr memory _ tender_no Hno Ht), Hm).
  destruct (detect_changes_classified py_repr memory now h tenders l NEW Hall Hl Hc)
    as (h' & rep & Hrun & Hnew & Hupd & Hsc & Hunch & Hct & _).
  exists h', rep. split; [done|].
  split; [by apply Hnew|].
  split; [intros Hin; by apply Hupd in Hin|].
  split; [intros Hin; by apply Hsc in Hin|].
  split; [intros Hin; by apply Hunch in Hin|].
  done.
Qed.

(** X3: a record known to the snapshot whose status is the same after
    normalisation while some other compared field differs is classified
    UPDATED, and [_changes] holds exactly the compared fields that differ,
    each with its old and new normalised value. *)
Theorem X3_field_change_updated (memory : gmap string dict) (now : string) (h : heap)
    (tenders l : loc) (tender_no key : string) (old : dict) :
  Forall (λ l, tender_no_is_str (read_dict h l)) (read_list h tenders) →
  l ∈ read_list h tenders →
  get_tender_no (read_dict h l) = Ok tender_no →
  PyStr.truthy tender_no = true →
  memory !! tender_no = Some old →
  norm_field py_repr old "status" = norm_field py_repr (read_dict h l) "status" →
  skipped_key key = false →
  norm_field py_repr old key ≠ norm_field py_repr (read_dict h l) key →
  ∃ h' rep changes,
    detect_changes py_repr memory now h tenders = Ok (h', rep)
    ∧ l ∈ r_updated rep
    ∧ (l ∉ r_new rep) ∧ (l ∉ r_status_changed rep) ∧ (l ∉ r_unchanged rep)
    ∧ read_dict h' l !! "_change_type" = Some (VStr "UPDATED")
    ∧ read_dict h' l !! "_changes" = Some (VChanges changes)
    ∧ ∀ k, changes !! k = field_change py_repr old (read_dict h l) k.
Proof.
  intros Hall Hl Hno Ht Hm Hst Hk Hdiff.
  assert (classify py_repr memory (read_dict h l) = Some UPDATED) as Hc.
  { rewrite (classify_unfold py_repr memory _ tender_no Hno Ht), Hm.
    rewrite decide_False.
    - rewrite decide_False; [done|]. rewrite diff_status_iff. intros Hne. by apply Hne.
    - intros He. apply Hdiff. by apply (proj1 (diff_empty_iff py_repr _ _) He). }
  destruct (detect_changes_classified py_repr memory now h tenders l UPDATED Hall Hl Hc)
    as (h' & rep & Hrun & Hnew & Hupd & Hsc & Hunch & Hct & _ & Hch).
  exists h', rep, (_diff py_repr old (read_dict h l)). split; [done|].
  split; [by apply Hupd|].
  split; [intros Hin; by apply Hnew in Hin|].
  split; [intros Hin; by apply Hsc in Hin|].
  split; [intros Hin; by apply Hunch in Hin|].
  split; [done|]. split; [by apply (Hch eq_refl tender_no old)|].
  intros k. apply diff_lookup.
Qed.

(** X4: [detect_changes] writes the four annotation keys only: every other
    key reads as before on every dict, no key is ever removed, a dict that
    is not in the list is untouched, and no list object changes. *)
Theorem X4_detect_frame (memory : gmap string dict) (now : string) (h : heap)
    (tenders : loc) :
  Forall (λ l, tender_no_is_str (read_dict h l)) (read_list h tenders) →
  ∃ h' rep,
    detect_changes py_repr memory now h tenders = Ok (h', rep)
    ∧ (∀ l key, key ∉ annotation_keys →
         read_dict h' l !! key = read_dict h l !! key)
    ∧ (∀ l key, is_Some (read_dict h l !! key) → is_Some (read_dict h' l !! key))
    ∧ (∀ l, l ∉ read_list h tenders → read_dict h' l = read_dict h l)
    ∧ (∀ l, read_list h' l = read_list h l).
Proof.
  intros Hall.
  destruct (detect_changes_records py_repr memory now h tenders Hall)
    as (h' & rep & Hrun & _ & Hlists & _ & Hout & _).
  exists h', rep. split; [done|].
  assert (writes_only h h') as Hw.
  { unfold detect_changes in Hrun.
    destruct (detect_loop py_repr memory (h, Buckets [] [] [] []) (read_list h tenders))
      as [[h1 b1]|e] eqn:Hloop; [|done].
    cbn [rbind] in Hrun. injection Hrun as <- _.
    by apply (detect_loop_writes memory _ _ _ _ _ Hloop). }
  split; [intros l key; apply Hw|]. split; [intros l key; apply Hw|].
  split; [done|]. intros l. unfold read_list. by rewrite Hlists.
Qed.

(** X5: classification does not look at annotations.  Running
    [detect_changes] again on the annotated records, against the same
    snapshot and with the same clock reading, gives the same report. *)
Theorem X5_detect_repeatable (memory : gmap string dict) (now : string) (h : heap)
    (tenders : loc) :
  Forall (λ l, tender_no_is_str (read_dict h l)) (read_list h tenders) →
  ∃ h' rep h'',
    detect_changes py_repr memory now h tenders = Ok (h', rep)
    ∧ detect_changes py_repr memory now h' tenders = Ok (h'', rep).
Proof.
  intros Hall.
  destruct (detect_changes_spec py_repr memory now h tenders Hall)
    as (h' & rep & Hrun & Hnew & Hupd & Hsc & Hunch & Hall' & Hsum & Hlists & Hvis & _).
  assert (read_list h' tenders = read_list h tenders) as Hitems
    by (unfold read_list; by rewrite Hlists).
  assert (Forall (λ l, tender_no_is_str (read_dict h' l)) (read_list h' tenders)) as Hall2.
  { rewrite Hitems. eapply Forall_impl; [exact Hall|]. intros l [s Hs]. exists s.
    by rewrite <- (get_tender_no_visible _ _ (Hvis l)). }
  destruct (detect_changes_spec py_repr memory now h' tenders Hall2)
    as (h'' & rep2 & Hrun2 & Hnew2 & Hupd2 & Hsc2 & Hunch2 & Hall2' & Hsum2 & _).
  exists h', rep, h''. split; [done|]. rewrite Hrun2. f_equal. f_equal.
  assert (∀ c, filter (λ l, classify py_repr memory (read_dict h' l) = Some c)
                 (read_list h' tenders)
             = filter (λ l, classify py_repr memory (read_dict h l) = Some c)
                 (read_list h tenders)) as Hf.
  { intros c. rewrite Hitems. apply filter_ext_in. intros l _.
    by rewrite (classify_visible py_repr memory _ _ (Hvis l)). }
  cbv zeta in *.
  rewrite Hf in Hnew2, Hupd2, Hsc2, Hunch2.
  rewrite <- Hnew in Hnew2. rewrite <- Hupd in Hupd2. rewrite <- Hsc in Hsc2.
  rewrite <- Hunch in Hunch2.
  rewrite Hnew2, Hupd2, Hsc2, Hunch2, Hitems in Hsum2. rewrite <- Hsum in Hsum2.
  destruct rep, rep2. simpl in *. congruence.
Qed.

End DetectMore.

(** ** Further properties of [update_memory] *)

(** The copy of a record that the loop body starts from: internal keys
    dropped, [_last_seen] set, [detail_url] removed. *)
Definition clean_copy (now : string) (tender : dict) : dict :=
  delete "detail_url"
    (<["_last_seen" := VStr now]>
       (filter (λ kv : string * pyval, PyStr.startswith "_" kv.1 = false) tender)).

(** The copy after the [tender_doc_download_url] step. *)
Definition keep_doc_url (existing clean : dict) : dict :=
  if negb (py_truthy (get_or_none clean "tender_doc_download_url"))
     && py_truthy (get_or_none existing "tender_doc_download_url")
  then <["tender_doc_download_url" := get_or_none existing "tender_doc_download_url"]> clean
  else clean.

(** What a snapshot entry written at [now] looks like. *)
Definition clean_entry (now : string) (entry : dict) : Prop :=
  entry !! "_last_seen" = Some (VStr now)
  ∧ entry !! "detail_url" = None
  ∧ ∀ key, PyStr.startswith "_" key = true → key ≠ "_last_seen" → entry !! key = None.

(** The [tender_doc_download_url] of the snapshot entry of [tender_no]. *)
Definition snapshot_doc_url (memory : gmap string dict) (tender_no : string) : pyval :=
  get_or_none (default ∅ (memory !! tender_no)) "tender_doc_download_url".

Lemma filter_visible_lookup (tender : dict) key :
  filter (λ kv : string * pyval, PyStr.startswith "_" kv.1 = false) tender !! key
  = if PyStr.startswith "_" key then None else tender !! key.
Proof.
  rewrite map_lookup_filter. destruct (tender !! key) as [v|]; simpl.
  - destruct (PyStr.startswith "_" key) eqn:Hk.
    + rewrite option_guard_False; [done|]. simpl. congruence.
    + rewrite option_guard_True; done.
  - by destruct (PyStr.startswith "_" key).
Qed.

Lemma clean_copy_lookup now tender key :
  clean_copy now tender !! key =
    if decide (key = "detail_url") then None
    else if decide (key = "_last_seen") then Some (VStr now)
    else if PyStr.startswith "_" key then None
    else tender !! key.
Proof.
  unfold clean_copy. destruct (decide (key = "detail_url")) as [->|Hd].
  - apply lookup_delete_eq.
  - rewrite lookup_delete_ne by done.
    destruct (decide (key = "_last_seen")) as [->|Hl].
    + apply lookup_insert_eq.
    + rewrite lookup_insert_ne by done. apply filter_visible_lookup.
Qed.

Lemma update_one_unfold now memory tender tender_no :
  get_tender_no tender = Ok tender_no → PyStr.truthy tender_no = true →
  update_one now memory tender =
    rbind (merge_attached (default ∅ (memory !! tender_no))
             (keep_doc_url (default ∅ (memory !! tender_no)) (clean_copy now tender)))
          (λ clean, Ok (<[tender_no := clean]> memory)).
Proof. intros Hno Ht. unfold update_one. rewrite Hno. cbn [rbind]. by rewrite Ht. Qed.

Lemma update_one_blank now memory tender :
  tender_no_is_str tender → has_identity tender = false →
  update_one now memory tender = Ok memory.
Proof.
  intros [no Hno] Hid. unfold has_identity in Hid. rewrite Hno in Hid.
  unfold update_one. rewrite Hno. cbn [rbind]. by rewrite Hid.
Qed.

Lemma update_one_Ok_str now memory tender memory' :
  update_one now memory tender = Ok memory' → tender_no_is_str tender.
Proof.
  unfold update_one, tender_no_is_str. destruct (get_tender_no tender) as [no|e]; [|done].
  intros _. by exists no.
Qed.

Lemma merge_attached_other existing clean clean' key :
  merge_attached existing clean = Ok clean' → key ≠ "attached_documents" →
  clean' !! key = clean !! key.
Proof.
  unfold merge_attached. intros Hm Hk.
  destruct (negb (py_truthy (get_or_nil clean "attached_documents"))
            && py_truthy (get_or_nil existing "attached_documents")).
  { injection Hm as <-. by rewrite lookup_insert_ne. }
  destruct (py_truthy (get_or_nil clean "attached_documents")
            && py_truthy (get_or_nil existing "attached_documents")).
  - destruct (as_docs (get_or_nil existing "attached_documents")) as [ol|e]; [|done].
    destruct (as_docs (get_or_nil clean "attached_documents")) as [nl|e]; [|done].
    cbn [rbind] in Hm. injection Hm as <-. by rewrite lookup_insert_ne.
  - by injection Hm as <-.
Qed.

Lemma merge_loop_prefix new_docs : ∀ merged seen_urls,
  ∃ extra, merge_loop new_docs merged seen_urls = merged ++ extra.
Proof.
  induction new_docs as [|d new_docs IH]; intros merged seen; simpl.
  - exists []. by rewrite app_nil_r.
  - destruct (doc_url d) as [u|]; [|apply IH].
    destruct (PyStr.truthy u && bool_decide (u ∉ seen)); [|apply IH].
    destruct (IH (merged ++ [d]) ({[u]} ∪ seen)) as [extra ->].
    exists (d :: extra). by rewrite <- app_assoc.
Qed.

(** The merge never drops a document of the snapshot entry. *)
Lemma merge_attached_keeps existing clean clean' old_docs :
  merge_attached existing clean = Ok clean' →
  get_or_nil existing "attached_documents" = VDocs old_docs → old_docs ≠ [] →
  ∃ extra, get_or_nil clean' "attached_documents" = VDocs (old_docs ++ extra).
Proof.
  unfold merge_attached. intros Hm Ho Hne. rewrite Ho in Hm.
  assert (py_truthy (VDocs old_docs) = true) as Hot by (by destruct old_docs).
  rewrite Hot, !andb_true_r in Hm.
  destruct (py_truthy (get_or_nil clean "attached_documents")); cbn [negb] in Hm.
  - cbn [as_docs rbind] in Hm.
    destruct (as_docs (get_or_nil clean "attached_documents")) as [nl|e]; [|done].
    cbn [rbind] in Hm. injection Hm as <-.
    destruct (merge_loop_prefix nl old_docs (seen_urls_of old_docs)) as [extra ->].
    exists extra. unfold get_or_nil. by rewrite lookup_insert_eq.
  - injection Hm as <-. exists []. unfold get_or_nil.
    by rewrite lookup_insert_eq, app_nil_r.
Qed.

(** The entry one iteration writes. *)
Lemma update_one_entry now memory tender tender_no memory' :
  get_tender_no tender = Ok tender_no → PyStr.truthy tender_no = true →
  update_one now memory tender = Ok memory' →
  ∃ entry,
    memory' = <[tender_no := entry]> memory
    ∧ merge_attached (default ∅ (memory !! tender_no))
        (keep_doc_url (default ∅ (memory !! tender_no)) (clean_copy now tender)) = Ok entry
    ∧ ∀ key, key ≠ "attached_documents" → key ≠ "tender_doc_download_url" →
        entry !! key = clean_copy now tender !! key.
Proof.
  intros Hno Ht. rewrite (update_one_unfold now memory tender tender_no Hno Ht).
  destruct (merge_attached _ _) as [entry|e] eqn:Hm; [|done].
  cbn [rbind]. intros [= <-]. exists entry. split; [done|]. split; [done|].
  intros key Hk1 Hk2. rewrite (merge_attached_other _ _ _ key Hm Hk1).
  unfold keep_doc_url. destruct (_ && _); [|done]. by rewrite lookup_insert_ne.
Qed.

Lemma update_one_clean_entry now memory tender tender_no memory' :
  get_tender_no tender = Ok tender_no → PyStr.truthy tender_no = true →
  update_one now memory tender = Ok memory' →
  ∃ entry, memory' = <[tender_no := entry]> memory ∧ clean_entry now entry.
Proof.
  intros Hno Ht Hone.
  destruct (update_one_entry now memory tender tender_no memory' Hno Ht Hone)
    as (entry & -> & _ & Hk).
  exists entry. split; [done|]. split; [|split].
  - rewrite Hk by done. by rewrite clean_copy_lookup.
  - rewrite Hk by done. by rewrite clean_copy_lookup.
  - intros key Hu Hl.
    assert (key ≠ "attached_documents") as H1 by (intros ->; done).
    assert (key ≠ "tender_doc_download_url") as H2 by (intros ->; done).
    rewrite (Hk key H1 H2), clean_copy_lookup.
    destruct (decide (key = "detail_url")); [done|].
    rewrite decide_False by done. by rewrite Hu.
Qed.

(** Identities of the records that carry one. *)
Definition identities (ts : list dict) : list string :=
  tender_id <$> filter (λ t, has_identity t = true) ts.

Lemma identities_cons t ts :
  identities (t :: ts)
  = if has_identity t then tender_id t :: identities ts else identities ts.
Proof.
  unfold identities. rewrite filter_cons. destruct (has_identity t) eqn:Hid.
  - by rewrite decide_True.
  - rewrite decide_False; [done|]. congruence.
Qed.

Lemma update_one_frame now memory tender memory' key :
  update_one now memory tender = Ok memory' →
  (has_identity tender = true → key ≠ tender_id tender) →
  memory' !! key = memory !! key.
Proof.
  intros Hone Hk. destruct (has_identity tender) eqn:Hid.
  - destruct (has_identity_inv tender Hid) as [Hno Ht].
    destruct (update_one_entry now memory tender _ memory' Hno Ht Hone) as (e & -> & _).
    rewrite lookup_insert_ne; [done|]. intros Heq. by apply Hk.
  - rewrite (update_one_blank now memory tender) in Hone.
    + by injection Hone as <-.
    + by eapply update_one_Ok_str.
    + done.
Qed.

Lemma update_loop_cons now memory t ts :
  update_loop now memory (t :: ts)
  = rbind (update_one (now 0) memory t) (λ memory, update_loop (λ i, now (S i)) memory ts).
Proof. done. Qed.

(** What the commit loop does to the snapshot as a whole.  The entry of a
    record carries the clock reading of an iteration on a record with the
    same identity. *)
Lemma update_loop_entries ts : ∀ (now : nat → string) memory memory',
  update_loop now memory ts = Ok memory' →
  (∀ key, is_Some (memory !! key) → is_Some (memory' !! key))
  ∧ (∀ key, key ∉ identities ts → memory' !! key = memory !! key)
  ∧ (∀ t, t ∈ ts → has_identity t = true →
       ∃ entry i t', ts !! i = Some t' ∧ tender_id t' = tender_id t
                     ∧ memory' !! tender_id t = Some entry
                     ∧ clean_entry (now i) entry).
Proof.
  induction ts as [|t ts IH]; intros now memory memory'.
  - intros [= <-]. split; [done|]. split; [done|]. intros t Ht. by apply elem_of_nil in Ht.
  - rewrite update_loop_cons.
    destruct (update_one (now 0) memory t) as [m1|e] eqn:Hone; [|done]. cbn [rbind].
    intros Hrest.
    destruct (IH (λ i, now (S i)) m1 memory' Hrest) as (Hdom & Hframe & Hent).
    assert (∀ key, is_Some (memory !! key) → is_Some (m1 !! key)) as Hdom1.
    { intros key Hs. destruct (has_identity t) eqn:Hid.
      - destruct (has_identity_inv t Hid) as [Hno Ht].
        destruct (update_one_entry (now 0) memory t _ m1 Hno Ht Hone) as (e & -> & _).
        apply lookup_insert_is_Some. destruct (decide (tender_id t = key)); [by left|by right].
      - by rewrite (update_one_frame (now 0) memory t m1 key Hone) by congruence. }
    split; [intros key Hs; by apply Hdom, Hdom1|]. split.
    + intros key Hk. rewrite identities_cons in Hk.
      rewrite Hframe.
      * apply (update_one_frame (now 0) memory t m1 key Hone). intros Hid. rewrite Hid in Hk.
        intros ->. apply Hk. apply list_elem_of_here.
      * destruct (has_identity t); [|done]. intros Hin. apply Hk. by apply list_elem_of_further.
    + assert (∀ t2, t2 ∈ ts → has_identity t2 = true →
                ∃ entry i t', (t :: ts) !! i = Some t' ∧ tender_id t' = tender_id t2
                              ∧ memory' !! tender_id t2 = Some entry
                              ∧ clean_entry (now i) entry) as Hlater.
      { intros t2 Hin2 Hid2.
        destruct (Hent t2 Hin2 Hid2) as (entry & i & t3 & Hi & Heq & Hm & Hc).
        by exists entry, (S i), t3. }
      intros t' Ht' Hid'. apply elem_of_cons in Ht' as [->|Ht']; [|by apply Hlater].
      destruct (decide (tender_id t ∈ identities ts)) as [Hin|Hin].
      * apply list_elem_of_fmap in Hin as (t2 & Heq & Hin2).
        apply list_elem_of_filter in Hin2 as [Hid2 Hin2].
        destruct (Hlater t2 Hin2 Hid2) as (entry & i & t3 & Hi & Heq3 & Hm & Hc).
        exists entry, i, t3. rewrite Heq. by rewrite Heq3.
      * rewrite (Hframe _ Hin).
        destruct (has_identity_inv t Hid') as [Hno Ht].
        destruct (update_one_clean_entry (now 0) memory t _ m1 Hno Ht Hone) as (e & -> & Hc).
        exists e, 0, t. by rewrite lookup_insert_eq.
Qed.

Lemma update_one_keeps now memory tender memory' :
  update_one now memory tender = Ok memory' →
  (∀ key old_docs, snapshot_docs memory key = VDocs old_docs → old_docs ≠ [] →
     ∃ extra, snapshot_docs memory' key = VDocs (old_docs ++ extra))
  ∧ (∀ key, py_truthy (snapshot_doc_url memory key) = true →
       py_truthy (snapshot_doc_url memory' key) = true).
Proof.
  intros Hone. destruct (has_identity tender) eqn:Hid.
  2: { rewrite (update_one_blank now memory tender) in Hone;
         [|by eapply update_one_Ok_str|done].
       injection Hone as <-. split.
       - intros key od Ho _. exists []. by rewrite app_nil_r.
       - done. }
  destruct (has_identity_inv tender Hid) as [Hno Ht].
  destruct (update_one_entry now memory tender _ memory' Hno Ht Hone)
    as (entry & -> & Hm & Hk).
  split.
  - intros key od Ho Hne. destruct (decide (key = tender_id tender)) as [->|Hkey].
    + unfold snapshot_docs in *. rewrite lookup_insert_eq. simpl.
      by apply (merge_attached_keeps _ _ _ _ Hm Ho Hne).
    + exists []. rewrite app_nil_r. unfold snapshot_docs.
      by rewrite lookup_insert_ne.
  - intros key. unfold snapshot_doc_url.
    destruct (decide (key = tender_id tender)) as [->|Hkey];
      [|by rewrite lookup_insert_ne].
    rewrite lookup_insert_eq. simpl. intros Hold.
    unfold get_or_none at 1.
    rewrite (merge_attached_other _ _ _ "tender_doc_download_url" Hm) by done.
    unfold keep_doc_url. rewrite Hold, andb_true_r.
    destruct (py_truthy (get_or_none (clean_copy now tender) "tender_doc_download_url"))
      eqn:Hnew; cbn [negb].
    + exact Hnew.
    + by rewrite lookup_insert_eq.
Qed.

Lemma update_loop_keeps ts : ∀ (now : nat → string) memory memory',
  update_loop now memory ts = Ok memory' →
  (∀ key old_docs, snapshot_docs memory key = VDocs old_docs → old_docs ≠ [] →
     ∃ extra, snapshot_docs memory' key = VDocs (old_docs ++ extra))
  ∧ (∀ key, py_truthy (snapshot_doc_url memory key) = true →
       py_truthy (snapshot_doc_url memory' key) = true).
Proof.
  induction ts as [|t ts IH]; intros now memory memory'.
  - intros [= <-]. split; [|done]. intros key od Ho _. exists []. by rewrite app_nil_r.
  - rewrite update_loop_cons.
    destruct (update_one (now 0) memory t) as [m1|e] eqn:Hone; [|done]. cbn [rbind].
    intros Hrest. destruct (IH (λ i, now (S i)) m1 memory' Hrest) as [Hd Hu].
    destruct (update_one_keeps (now 0) memory t m1 Hone) as [Hd1 Hu1]. split.
    + intros key od Ho Hne. destruct (Hd1 key od Ho Hne) as [x1 H1].
      destruct (Hd key (od ++ x1) H1) as [x2 H2].
      { destruct od; [done|]. done. }
      exists (x1 ++ x2). by rewrite app_assoc.
    + intros key Hs. by apply Hu, Hu1.
Qed.

Lemma update_one_local now memory1 memory2 tender m1 :
  memory1 !! tender_id tender = memory2 !! tender_id tender →
  update_one now memory1 tender = Ok m1 →
  ∃ m2, update_one now memory2 tender = Ok m2
        ∧ m2 !! tender_id tender = m1 !! tender_id tender.
Proof.
  intros Heq Hone. destruct (has_identity tender) eqn:Hid.
  - destruct (has_identity_inv tender Hid) as [Hno Ht].
    rewrite (update_one_unfold now _ tender _ Hno Ht) in Hone.
    rewrite (update_one_unfold now _ tender _ Hno Ht). rewrite <- Heq.
    destruct (merge_attached _ _) as [entry|e]; [|done]. cbn [rbind] in *.
    injection Hone as <-. eexists. split; [done|]. by rewrite !lookup_insert_eq.
  - pose proof (update_one_Ok_str _ _ _ _ Hone) as Hs.
    rewrite (update_one_blank now memory1 tender Hs Hid) in Hone. injection Hone as <-.
    exists memory2. split; [by apply update_one_blank|done].
Qed.

(** With pairwise distinct identities, the entry of a record after the loop
    is the one its own iteration writes over the initial snapshot. *)
Lemma update_loop_nodup ts : ∀ (now : nat → string) memory memory',
  update_loop now memory ts = Ok memory' →
  NoDup (identities ts) →
  ∀ t, t ∈ ts → has_identity t = true →
  ∃ stamp m1, update_one stamp memory t = Ok m1 ∧ memory' !! tender_id t = m1 !! tender_id t.
Proof.
  induction ts as [|t0 ts IH]; intros now memory memory' Hloop Hnd t Ht Hid.
  - by apply elem_of_nil in Ht.
  - rewrite update_loop_cons in Hloop.
    destruct (update_one (now 0) memory t0) as [m1|e] eqn:Hone; [|done].
    cbn [rbind] in Hloop.
    rewrite identities_cons in Hnd.
    destruct (update_loop_entries ts _ m1 memory' Hloop) as (_ & Hframe & _).
    assert (t ∈ ts → tender_id t ∈ identities ts) as Hmem.
    { intros Hin. apply list_elem_of_fmap_2. by apply list_elem_of_filter. }
    destruct (decide (t ∈ ts)) as [Hin|Hnin].
    + assert (NoDup (identities ts) ∧ (has_identity t0 = true → tender_id t ≠ tender_id t0))
        as [Hnd' Hne].
      { destruct (has_identity t0).
        - apply NoDup_cons in Hnd as [Hx Hnd]. split; [done|]. intros _ Heq.
          apply Hx. rewrite <- Heq. by apply Hmem.
        - split; [done|]. done. }
      destruct (IH _ m1 memory' Hloop Hnd' t Hin Hid) as (stamp & m2 & Hone2 & Hm2).
      assert (m1 !! tender_id t = memory !! tender_id t) as Hsame
        by (by apply (update_one_frame (now 0) memory t0 m1 _ Hone)).
      destruct (update_one_local stamp m1 memory t m2 Hsame Hone2) as (m & Hm & Hmm).
      exists stamp, m. split; [done|]. by rewrite Hm2.
    + apply elem_of_cons in Ht as [->|Ht]; [|done].
      exists (now 0), m1. split; [done|]. rewrite Hid in Hnd.
      apply NoDup_cons in Hnd as [Hx _]. by apply Hframe.
Qed.

Lemma update_one_fresh now memory tender tender_no :
  get_tender_no tender = Ok tender_no → PyStr.truthy tender_no = true →
  memory !! tender_no = None →
  update_one now memory tender = Ok (<[tender_no := clean_copy now tender]> memory).
Proof.
  intros Hno Ht Hm. rewrite (update_one_unfold now memory tender tender_no Hno Ht), Hm.
  simpl. unfold keep_doc_url.
  assert (get_or_none (∅ : dict) "tender_doc_download_url" = VNone) as -> by done.
  cbn [py_truthy]. rewrite andb_false_r. unfold merge_attached.
  assert (get_or_nil (∅ : dict) "attached_documents" = VDocs []) as -> by done.
  cbn [py_truthy]. by rewrite !andb_false_r.
Qed.

Lemma update_loop_fresh ts : ∀ (now : nat → string) memory,
  Forall (λ t, has_identity t = true) ts →
  NoDup (tender_id <$> ts) →
  (∀ t, t ∈ ts → memory !! tender_id t = None) →
  ∃ memory', update_loop now memory ts = Ok memory'
    ∧ ∀ t, t ∈ ts → ∃ stamp, memory' !! tender_id t = Some (clean_copy stamp t).
Proof.
  induction ts as [|t0 ts IH]; intros now memory Hall Hnd Hfresh.
  - exists memory. split; [done|]. intros t Ht. by apply elem_of_nil in Ht.
  - apply Forall_cons in Hall as [Hid Hall].
    rewrite fmap_cons in Hnd. apply NoDup_cons in Hnd as [Hx Hnd].
    destruct (has_identity_inv t0 Hid) as [Hno Ht].
    rewrite update_loop_cons.
    rewrite (update_one_fresh (now 0) memory t0 _ Hno Ht) by (apply Hfresh, list_elem_of_here).
    cbn [rbind].
    destruct (IH (λ i, now (S i)) (<[tender_id t0 := clean_copy (now 0) t0]> memory) Hall Hnd)
      as (memory' & Hloop & Hent).
    { intros t Hin. rewrite lookup_insert_ne.
      - by apply Hfresh, list_elem_of_further.
      - intros Heq. apply Hx. rewrite Heq. by apply list_elem_of_fmap_2. }
    exists memory'. split; [done|]. intros t Hin.
    apply elem_of_cons in Hin as [->|Hin]; [|by apply Hent].
    destruct (update_loop_entries ts _ _ memory' Hloop) as (_ & Hframe & _).
    exists (now 0). rewrite Hframe.
    + by rewrite lookup_insert_eq.
    + intros Hin. apply Hx. unfold identities in Hin.
      apply list_elem_of_fmap in Hin as (t2 & -> & Hin2).
      apply list_elem_of_filter in Hin2 as [_ Hin2]. by apply list_elem_of_fmap_2.
Qed.

Lemma elem_of_read_dicts h (ls : list loc) l : l ∈ ls → read_dict h l ∈ read_dict h <$> ls.
Proof. apply list_elem_of_fmap_2. Qed.

(** X6: what a commit does to the snapshot as a whole.  No entry is ever
    deleted; an entry whose key is not the identity of a committed record
    is untouched (records with a blank [tender_no] write nothing); and the
    entry of every committed record has no [detail_url], no internal key
    but [_last_seen], and as [_last_seen] the clock reading of the loop
    iteration on a record of the list with the same identity (the clock is
    read anew in every iteration). *)
Theorem X6_commit_entries (now : nat → string) (memory : gmap string dict) (h : heap)
    (tenders : loc) (memory' : gmap string dict) :
  update_memory now memory h tenders = Ok memory' →
  (∀ key, is_Some (memory !! key) → is_Some (memory' !! key))
  ∧ (∀ key, key ∉ identities (read_dict h <$> read_list h tenders) →
       memory' !! key = memory !! key)
  ∧ (∀ l, l ∈ read_list h tenders → has_identity (read_dict h l) = true →
       ∃ entry i l',
         read_list h tenders !! i = Some l'
         ∧ tender_id (read_dict h l') = tender_id (read_dict h l)
         ∧ memory' !! tender_id (read_dict h l) = Some entry
         ∧ clean_entry (now i) entry).
Proof.
  unfold update_memory. intros Hrun.
  destruct (update_loop_entries _ now memory memory' Hrun) as (Hdom & Hframe & Hent).
  split; [done|]. split; [done|].
  intros l Hl Hid.
  destruct (Hent _ (elem_of_read_dicts h _ l Hl) Hid) as (entry & i & t' & Hi & Heq & Hm & Hc).
  rewrite list_lookup_fmap in Hi.
  destruct (read_list h tenders !! i) as [l'|] eqn:Hl'; [|done].
  injection Hi as <-. by exists entry, i, l'.
Qed.

(** X7: a commit never loses what the snapshot holds about documents.  The
    documents of an entry stay, in their order, at the front of the entry's
    documents, and an entry with a non-empty [tender_doc_download_url]
    still has one afterwards, whatever the committed records contain. *)
Theorem X7_commit_keeps_documents (now : nat → string) (memory : gmap string dict)
    (h : heap)
    (tenders : loc) (memory' : gmap string dict) :
  update_memory now memory h tenders = Ok memory' →
  (∀ key old_docs, snapshot_docs memory key = VDocs old_docs → old_docs ≠ [] →
     ∃ extra, snapshot_docs memory' key = VDocs (old_docs ++ extra))
  ∧ (∀ key, py_truthy (snapshot_doc_url memory key) = true →
       py_truthy (snapshot_doc_url memory' key) = true).
Proof. unfold update_memory. apply update_loop_keeps. Qed.

(** X8: the entry written for a record, when the committed records have
    pairwise distinct identities.  Every listing and detail field of the
    record is stored as it is; [detail_url] is not stored; and
    [tender_doc_download_url] is the record's unless the record's is empty
    or [None] and the previous entry has one, which is then kept. *)
Theorem X8_commit_entry_fields (now : nat → string) (memory : gmap string dict)
    (h : heap)
    (tenders l : loc) (memory' : gmap string dict) :
  update_memory now memory h tenders = Ok memory' →
  NoDup (identities (read_dict h <$> read_list h tenders)) →
  l ∈ read_list h tenders →
  has_identity (read_dict h l) = true →
  let tender := read_dict h l in
  ∃ entry,
    memory' !! tender_id tender = Some entry
    ∧ (∀ key, PyStr.startswith "_" key = false →
         key ∉ ["detail_url"; "tender_doc_download_url"; "attached_documents"] →
         entry !! key = tender !! key)
    ∧ entry !! "detail_url" = None
    ∧ get_or_none entry "tender_doc_download_url"
      = if negb (py_truthy (get_or_none tender "tender_doc_download_url"))
           && py_truthy (snapshot_doc_url memory (tender_id tender))
        then snapshot_doc_url memory (tender_id tender)
        else get_or_none tender "tender_doc_download_url".
Proof.
  intros Hrun Hnd Hl Hid tender. unfold update_memory in Hrun.
  destruct (update_loop_nodup _ now memory memory' Hrun Hnd tender
              (elem_of_read_dicts h _ l Hl) Hid) as (stamp & m1 & Hone & Hm1).
  destruct (has_identity_inv tender Hid) as [Hno Ht].
  destruct (update_one_entry stamp memory tender _ m1 Hno Ht Hone) as (entry & -> & Hm & Hk).
  exists entry. rewrite Hm1, lookup_insert_eq. split; [done|]. split; [|split].
  - intros key Hv Hkey.
    assert (key ≠ "detail_url" ∧ key ≠ "tender_doc_download_url"
            ∧ key ≠ "attached_documents") as (H1 & H2 & H3).
    { split; [|split]; intros ->; apply Hkey; set_solver. }
    rewrite (Hk key H3 H2), clean_copy_lookup. rewrite decide_False by done.
    rewrite decide_False by (intros ->; done). by rewrite Hv.
  - rewrite Hk by done. by rewrite clean_copy_lookup.
  - unfold get_or_none at 1.
    rewrite (merge_attached_other _ _ _ "tender_doc_download_url" Hm) by done.
    unfold keep_doc_url, snapshot_doc_url.
    assert (get_or_none (clean_copy stamp tender) "tender_doc_download_url"
            = get_or_none tender "tender_doc_download_url") as ->.
    { unfold get_or_none. by rewrite clean_copy_lookup. }
    destruct (_ && _).
    + by rewrite lookup_insert_eq.
    + by rewrite clean_copy_lookup.
Qed.

Section CommitThenDetect.

Variable py_repr : pyval → string.

Lemma diff_clean_copy now tender : _diff py_repr (clean_copy now tender) tender = ∅.
Proof.
  apply diff_empty_iff. intros key Hk. unfold norm_field, get_or_empty.
  rewrite clean_copy_lookup. unfold skipped_key in Hk.
  apply orb_false_iff in Hk as [Hu Hd]. apply bool_decide_eq_false in Hd.
  rewrite decide_False by done. rewrite decide_False by (intros ->; done).
  by rewrite Hu.
Qed.

(** X9: records that are new to the snapshot and have pairwise distinct
    identities are committed without error, and a detection run against the
    committed snapshot then reports every one of them UNCHANGED: the commit
    stores each compared field as the detector reads it. *)
Theorem X9_committed_then_unchanged (now : nat → string) (now' : string)
    (memory : gmap string dict) (h : heap) (tenders : loc) :
  Forall (λ l, has_identity (read_dict h l) = true) (read_list h tenders) →
  NoDup (tender_id <$> (read_dict h <$> read_list h tenders)) →
  (∀ l, l ∈ read_list h tenders → memory !! tender_id (read_dict h l) = None) →
  ∃ memory' h' rep,
    update_memory now memory h tenders = Ok memory'
    ∧ detect_changes py_repr memory' now' h tenders = Ok (h', rep)
    ∧ r_unchanged rep = read_list h tenders
    ∧ r_new rep = [] ∧ r_updated rep = [] ∧ r_status_changed rep = [].
Proof.
  intros Hall Hnd Hfresh. unfold update_memory.
  destruct (update_loop_fresh (read_dict h <$> read_list h tenders) now memory)
    as (memory' & Hloop & Hent).
  { apply Forall_fmap. exact Hall. }
  { exact Hnd. }
  { intros t Ht. apply list_elem_of_fmap in Ht as (l & -> & Hl). by apply Hfresh. }
  assert (∀ l, l ∈ read_list h tenders →
            classify py_repr memory' (read_dict h l) = Some UNCHANGED) as Hcls.
  { intros l Hl. pose proof (proj1 (Forall_forall _ _) Hall l Hl) as Hid. simpl in Hid.
    destruct (has_identity_inv _ Hid) as [Hno Ht].
    rewrite (classify_unfold py_repr memory' _ _ Hno Ht).
    destruct (Hent _ (elem_of_read_dicts h _ l Hl)) as [stamp ->].
    rewrite decide_True; [done|]. apply diff_clean_copy. }
  assert (Forall (λ l, tender_no_is_str (read_dict h l)) (read_list h tenders)) as Hstr.
  { eapply Forall_impl; [exact Hall|]. intros l Hid.
    destruct (has_identity_inv _ Hid) as [Hno _]. by eexists. }
  destruct (detect_changes_spec py_repr memory' now' h tenders Hstr)
    as (h' & rep & Hrun & Hnew & Hupd & Hsc & Hunch & _).
  exists memory', h', rep. split; [done|]. split; [done|]. cbv zeta in *.
  rewrite Hnew, Hupd, Hsc, Hunch.
  split; [apply filter_all; intros l Hl; by apply Hcls|].
  split; [|split]; apply filter_none; intros l Hl; rewrite (Hcls l Hl); done.
Qed.

End CommitThenDetect.

(** ** The change detector on the example data *)

Lemma ex_heap_second : 1 ∈ read_list ex_heap 5.
Proof.
  change (read_list ex_heap 5) with [0; 1].
  apply list_elem_of_further, list_elem_of_here.
Defined.

Lemma X2_absent_identity_new_witness :
  ∃ h' rep,
    detect_changes ex_repr ex_memory "now" ex_heap 5 = Ok (h', rep)
    ∧ 1 ∈ r_new rep
    ∧ (1 ∉ r_updated rep) ∧ (1 ∉ r_status_changed rep) ∧ (1 ∉ r_unchanged rep)
    ∧ read_dict h' 1 !! "_change_type" = Some (VStr "NEW").
Proof.
  apply (X2_absent_identity_new ex_repr ex_memory "now" ex_heap 5 1 "T-2").
  - exact ex_heap_tender_nos.
  - exact ex_heap_second.
  - vm_compute. reflexivity.
  - reflexivity.
  - vm_compute. reflexivity.
Defined.

(** The snapshot holds T-1 under another title. *)
Definition ex_entry_retitled : dict :=
  {[ "status" := VStr "Closed"; "tender_title" := VStr "Old title" ]}.

Definition ex_memory_retitled : gmap string dict := {[ "T-1" := ex_entry_retitled ]}.

Lemma X3_field_change_updated_witness :
  ∃ h' rep changes,
    detect_changes ex_repr ex_memory_retitled "now" ex_heap 5 = Ok (h', rep)
    ∧ 0 ∈ r_updated rep
    ∧ (0 ∉ r_new rep) ∧ (0 ∉ r_status_changed rep) ∧ (0 ∉ r_unchanged rep)
    ∧ read_dict h' 0 !! "_change_type" = Some (VStr "UPDATED")
    ∧ read_dict h' 0 !! "_changes" = Some (VChanges changes)
    ∧ ∀ k, changes !! k = field_change ex_repr ex_entry_retitled (read_dict ex_heap 0) k.
Proof.
  apply (X3_field_change_updated ex_repr ex_memory_retitled "now" ex_heap 5 0 "T-1"
           "tender_title" ex_entry_retitled).
  - exact ex_heap_tender_nos.
  - exact ex_heap_first.
  - vm_compute. reflexivity.
  - reflexivity.
  - apply (bool_decide_unpack _). vm_compute. reflexivity.
  - vm_compute. reflexivity.
  - reflexivity.
  - vm_compute. discriminate.
Defined.

Lemma X4_detect_frame_witness :
  ∃ h' rep,
    detect_changes ex_repr ex_memory "now" ex_heap 5 = Ok (h', rep)
    ∧ (∀ l key, key ∉ annotation_keys →
         read_dict h' l !! key = read_dict ex_heap l !! key)
    ∧ (∀ l key, is_Some (read_dict ex_heap l !! key) → is_Some (read_dict h' l !! key))
    ∧ (∀ l, l ∉ read_list ex_heap 5 → read_dict h' l = read_dict ex_heap l)
    ∧ (∀ l, read_list h' l = read_list ex_heap l).
Proof.
  apply (X4_detect_frame ex_repr ex_memory "now" ex_heap 5). exact ex_heap_tender_nos.
Defined.

Lemma X5_detect_repeatable_witness :
  ∃ h' rep h'',
    detect_changes ex_repr ex_memory "now" ex_heap 5 = Ok (h', rep)
    ∧ detect_changes ex_repr ex_memory "now" h' 5 = Ok (h'', rep).
Proof.
  apply (X5_detect_repeatable ex_repr ex_memory "now" ex_heap 5). exact ex_heap_tender_nos.
Defined.

(** A call that returns, and what it returns. *)
Definition is_ok {A} (r : result A) : bool :=
  match r with
  | Ok _ => true
  | Raise _ => false
  end.

Definition ok_value {A} (d : A) (r : result A) : A :=
  match r with
  | Ok x => x
  | Raise _ => d
  end.

Lemma is_ok_value {A} (d : A) (r : result A) : is_ok r = true → r = Ok (ok_value d r).
Proof. by destruct r. Defined.

(** The snapshot after the commit of the example record. *)
Definition ex_committed : gmap string dict :=
  ok_value ∅ (update_memory (λ _, "t1") ex_docs_memory ex_docs_heap 5).

Lemma ex_committed_run :
  update_memory (λ _, "t1") ex_docs_memory ex_docs_heap 5 = Ok ex_committed.
Proof. apply is_ok_value. vm_compute. reflexivity. Defined.

(** Two records committed in one run: each entry carries the clock reading
    of its own iteration. *)
Definition ex_two_heap : heap :=
  Heap {[ 0 := {[ "tender_no" := VStr "T-1"; "status" := VStr "Active" ]};
          1 := {[ "tender_no" := VStr "T-2"; "status" := VStr "Active" ]} ]}
       {[ 5 := [0; 1] ]}.

Definition ex_clock (i : nat) : string :=
  match i with
  | 0 => "2026-02-25T10:00:00.000100"
  | _ => "2026-02-25T10:00:00.000200"
  end.

Example commit_reads_clock_per_record :
  let memory' := ok_value ∅ (update_memory ex_clock ∅ ex_two_heap 5) in
  default ∅ (memory' !! "T-1") !! "_last_seen" = Some (VStr "2026-02-25T10:00:00.000100")
  ∧ default ∅ (memory' !! "T-2") !! "_last_seen" = Some (VStr "2026-02-25T10:00:00.000200").
Proof. vm_compute. split; reflexivity. Qed.

Lemma X6_commit_entries_witness :
  (∀ key, is_Some (ex_docs_memory !! key) → is_Some (ex_committed !! key))
  ∧ (∀ key, key ∉ identities (read_dict ex_docs_heap <$> read_list ex_docs_heap 5) →
       ex_committed !! key = ex_docs_memory !! key)
  ∧ (∀ l, l ∈ read_list ex_docs_heap 5 → has_identity (read_dict ex_docs_heap l) = true →
       ∃ entry i l',
         read_list ex_docs_heap 5 !! i = Some l'
         ∧ tender_id (read_dict ex_docs_heap l') = tender_id (read_dict ex_docs_heap l)
         ∧ ex_committed !! tender_id (read_dict ex_docs_heap l) = Some entry
         ∧ clean_entry "t1" entry).
Proof.
  apply (X6_commit_entries (λ _, "t1") ex_docs_memory ex_docs_heap 5 ex_committed).
  exact ex_committed_run.
Defined.

Lemma X7_commit_keeps_documents_witness :
  (∀ key old_docs, snapshot_docs ex_docs_memory key = VDocs old_docs → old_docs ≠ [] →
     ∃ extra, snapshot_docs ex_committed key = VDocs (old_docs ++ extra))
  ∧ (∀ key, py_truthy (snapshot_doc_url ex_docs_memory key) = true →
       py_truthy (snapshot_doc_url ex_committed key) = true).
Proof.
  apply (X7_commit_keeps_documents (λ _, "t1") ex_docs_memory ex_docs_heap 5 ex_committed).
  exact ex_committed_run.
Defined.

Lemma ex_docs_heap_first : 0 ∈ read_list ex_docs_heap 5.
Proof. change (read_list ex_docs_heap 5) with [0]. apply list_elem_of_here. Defined.

Lemma X8_commit_entry_fields_witness :
  ∃ entry,
    ex_committed !! tender_id (read_dict ex_docs_heap 0) = Some entry
    ∧ (∀ key, PyStr.startswith "_" key = false →
         key ∉ ["detail_url"; "tender_doc_download_url"; "attached_documents"] →
         entry !! key = read_dict ex_docs_heap 0 !! key)
    ∧ entry !! "detail_url" = None
    ∧ get_or_none entry "tender_doc_download_url"
      = if negb (py_truthy (get_or_none (read_dict ex_docs_heap 0) "tender_doc_download_url"))
           && py_truthy (snapshot_doc_url ex_docs_memory (tender_id (read_dict ex_docs_heap 0)))
        then snapshot_doc_url ex_docs_memory (tender_id (read_dict ex_docs_heap 0))
        else get_or_none (read_dict ex_docs_heap 0) "tender_doc_download_url".
Proof.
  apply (X8_commit_entry_fields (λ _, "t1") ex_docs_memory ex_docs_heap 5 0 ex_committed).
  - exact ex_committed_run.
  - apply (bool_decide_unpack _). vm_compute. reflexivity.
  - exact ex_docs_heap_first.
  - vm_compute. reflexivity.
Defined.

Lemma X9_committed_then_unchanged_witness :
  ∃ memory' h' rep,
    update_memory (λ _, "t1") ∅ ex_docs_heap 5 = Ok memory'
    ∧ detect_changes ex_repr memory' "t2" ex_docs_heap 5 = Ok (h', rep)
    ∧ r_unchanged rep = read_list ex_docs_heap 5
    ∧ r_new rep = [] ∧ r_updated rep = [] ∧ r_status_changed rep = [].
Proof.
  apply (X9_committed_then_unchanged ex_repr (λ _, "t1") "t2" ∅ ex_docs_heap 5).
  - change (read_list ex_docs_heap 5) with [0].
    apply List.Forall_cons; [vm_compute; reflexivity|apply List.Forall_nil].
  - apply (bool_decide_unpack _). vm_compute. reflexivity.
  - intros l _. apply lookup_empty.
Defined.

(** ** Phase 1: what the listing harvest returns *)

Module ListingFacts.
Import Scraper Listing PyStrFacts.

Lemma strip_empty : PyStr.strip "" = "".
Proof. reflexivity. Qed.

Lemma safe_cell_text_stripped cells index :
  PyStr.strip (_safe_cell_text cells index) = _safe_cell_text cells index.
Proof.
  unfold _safe_cell_text. destruct (cells !! index) as [[text|]|]; try done.
  apply strip_idempotent.
Qed.

Ltac new_tender_lookup :=
  unfold new_tender; cbn [list_to_map foldr uncurry fst snd];
  repeat (rewrite lookup_insert_ne by done); by rewrite lookup_insert_eq.

Lemma new_tender_tender_no deptt tender_no tender_title status work_area due_date due_days
    detail_url :
  new_tender deptt tender_no tender_title status work_area due_date due_days detail_url
    !! "tender_no" = Some (VStr tender_no).
Proof. new_tender_lookup. Qed.

Lemma new_tender_work_area deptt tender_no tender_title status work_area due_date due_days
    detail_url :
  new_tender deptt tender_no tender_title status work_area due_date due_days detail_url
    !! "work_area" = Some (VStr work_area).
Proof. new_tender_lookup. Qed.

(** The record of an accepted row, field by field. *)
Lemma parse_row_record row tender :
  _parse_row_cells row = Ok (Some tender) →
  let cells := rv_cells row in
  let tender_no := _safe_cell_text cells COL_TENDER_NO in
  (∃ detail_url,
     extract_detail_url (length cells) (rv_action row) = Ok detail_url
     ∧ tender = new_tender (_safe_cell_text cells COL_DEPTT) tender_no
                  (_safe_cell_text cells COL_TENDER_TITLE)
                  (_safe_cell_text cells COL_STATUS)
                  (_safe_cell_text cells COL_WORK_AREA)
                  (_safe_cell_text cells COL_DUE_DATE)
                  (_safe_cell_text cells COL_DUE_DAYS) detail_url)
  ∧ PyStr.truthy tender_no = true
  ∧ (String.length tender_no ≤ 50)%nat
  ∧ contains (String "010" "") tender_no = false
  ∧ (tender_no ∉ _JUNK_TENDER_NOS).
Proof.
  intros Hp cells tender_no. unfold _parse_row_cells in Hp. fold cells tender_no in Hp.
  destruct (PyStr.truthy tender_no) eqn:Ht; cbn [negb] in Hp; [|done].
  destruct (bool_decide (50 < String.length tender_no)) eqn:Hlen; cbn [orb] in Hp; [done|].
  destruct (contains (String "010" "") tender_no) eqn:Hnl; [done|].
  destruct (bool_decide (tender_no ∈ _JUNK_TENDER_NOS)) eqn:Hj; [done|].
  destruct (PyStr.truthy (_safe_cell_text cells COL_STATUS)
            && negb (bool_decide (PyStr.lower (_safe_cell_text cells COL_STATUS)
                                  ∈ _VALID_STATUSES))); [done|].
  destruct (extract_detail_url (length cells) (rv_action row)) as [detail_url|e]; [|done].
  cbn [rbind] in Hp. injection Hp as <-.
  split; [by exists detail_url|]. split; [done|].
  apply bool_decide_eq_false in Hlen. apply bool_decide_eq_false in Hj.
  split; [lia|]. split; done.
Qed.

Lemma harvested_identity tender :
  ScraperFacts.harvested tender →
  has_identity tender = true
  ∧ ∃ work_area, tender !! "work_area" = Some (VStr work_area).
Proof.
  intros [row Hrow]. destruct (parse_row_record row tender Hrow) as ((u & _ & ->) & Ht & _).
  split.
  - unfold has_identity, get_tender_no, get_or_empty. rewrite new_tender_tender_no. simpl.
    by rewrite safe_cell_text_stripped.
  - eexists. apply new_tender_work_area.
Qed.

(** X10: the record of an accepted listing row carries an identity, and it
    is the text of the row's tender-number cell as harvested: stripping it
    again, as the change detector does, changes nothing.  That text is
    non-empty, at most 50 characters long, on one line, and none of the
    known header texts. *)
Theorem X10_harvested_identity (row : row_view) (tender : dict) :
  _parse_row_cells row = Ok (Some tender) →
  let tender_no := _safe_cell_text (rv_cells row) COL_TENDER_NO in
  tender !! "tender_no" = Some (VStr tender_no)
  ∧ get_tender_no tender = Ok tender_no
  ∧ has_identity tender = true
  ∧ tender_no ≠ ""
  ∧ (String.length tender_no ≤ 50)%nat
  ∧ contains (String "010" "") tender_no = false
  ∧ (tender_no ∉ _JUNK_TENDER_NOS).
Proof.
  intros Hp tender_no.
  destruct (parse_row_record row tender Hp) as ((u & _ & ->) & Ht & Hlen & Hnl & Hj).
  fold tender_no in Ht, Hlen, Hnl, Hj |- *.
  assert (get_tender_no (new_tender (_safe_cell_text (rv_cells row) COL_DEPTT) tender_no
            (_safe_cell_text (rv_cells row) COL_TENDER_TITLE)
            (_safe_cell_text (rv_cells row) COL_STATUS)
            (_safe_cell_text (rv_cells row) COL_WORK_AREA)
            (_safe_cell_text (rv_cells row) COL_DUE_DATE)
            (_safe_cell_text (rv_cells row) COL_DUE_DAYS) u) = Ok tender_no) as Hno.
  { unfold get_tender_no, get_or_empty. rewrite new_tender_tender_no. simpl.
    unfold tender_no. by rewrite safe_cell_text_stripped. }
  split; [apply new_tender_tender_no|]. split; [done|].
  split; [unfold has_identity; by rewrite Hno|].
  split; [intros He; by rewrite He in Ht|]. done.
Qed.

(** The record a table row contributes, if any. *)
Definition works_record (r : table_row) : option dict :=
  match r with
  | TRowRaises => None
  | TRow row =>
      if bool_decide (length (rv_cells row) < 7)%nat then None
      else
        match _parse_row_cells row with
        | Ok (Some tender) =>
            if bool_decide
                 (PyStr.lower (_safe_cell_text (rv_cells row) COL_WORK_AREA) = "works")
            then Some tender else None
        | _ => None
        end
  end.

Lemma new_tender_nonempty deptt tender_no tender_title status work_area due_date due_days
    detail_url :
  new_tender deptt tender_no tender_title status work_area due_date due_days detail_url ≠ ∅.
Proof.
  intros He.
  pose proof (new_tender_tender_no deptt tender_no tender_title status work_area due_date
                due_days detail_url) as Hl.
  by rewrite He, lookup_empty in Hl.
Qed.

Lemma table_row_step_spec tenders r :
  table_row_step tenders r = tenders ++ option_list (works_record r).
Proof.
  unfold table_row_step, works_record. destruct r as [|row]; [by rewrite app_nil_r|].
  destruct (bool_decide (length (rv_cells row) < 7)%nat); [by rewrite app_nil_r|].
  destruct (_parse_row_cells row) as [[tender|]|e] eqn:Hp; try by rewrite app_nil_r.
  destruct (parse_row_record row tender Hp) as ((u & _ & ->) & Ht & _).
  rewrite bool_decide_true by apply new_tender_nonempty.
  unfold get_or_none, get_or_empty. rewrite new_tender_tender_no, new_tender_work_area.
  simpl. rewrite Ht. rewrite safe_cell_text_stripped.
  destruct (decide (PyStr.lower (_safe_cell_text (rv_cells row) COL_WORK_AREA) = "works"))
    as [He|Hne].
  - rewrite bool_decide_false by (intros Hn; by apply Hn).
    by rewrite bool_decide_true.
  - rewrite bool_decide_true by done. rewrite bool_decide_false by done.
    by rewrite app_nil_r.
Qed.

Lemma foldl_table_row_step rows : ∀ tenders,
  foldl table_row_step tenders rows = tenders ++ omap works_record rows.
Proof.
  induction rows as [|r rows IH]; intros tenders; simpl.
  - by rewrite app_nil_r.
  - rewrite IH, table_row_step_spec. rewrite <- app_assoc. f_equal.
    by destruct (works_record r).
Qed.

(** X11: [_extract_table_rows] returns, in the order of the rows, the
    records of the rows that have at least seven cells, are accepted by
    [_parse_row_cells] and show the work area "works" in any letter case.
    A row that raises, or whose parsing raises, contributes nothing and
    does not disturb the rows after it; without a table the result is
    empty. *)
Theorem X11_table_rows (page : table_view) :
  (∀ rows, page = TableRows rows →
     _extract_table_rows page = omap works_record rows
     ∧ ∀ tender, tender ∈ _extract_table_rows page ↔
         ∃ row, TRow row ∈ rows ∧ (7 ≤ length (rv_cells row))%nat
                ∧ _parse_row_cells row = Ok (Some tender)
                ∧ PyStr.lower (_safe_cell_text (rv_cells row) COL_WORK_AREA) = "works")
  ∧ (page = TableNone ∨ page = TableRaises → _extract_table_rows page = []).
Proof.
  split.
  - intros rows ->. unfold _extract_table_rows.
    rewrite foldl_table_row_step. cbn [app]. split; [done|].
    intros tender. rewrite list_elem_of_omap. split.
    + intros (r & Hr & Hw). destruct r as [|row]; [done|]. exists row. split; [done|].
      unfold works_record in Hw.
      destruct (bool_decide (length (rv_cells row) < 7)%nat) eqn:Hlen; [done|].
      apply bool_decide_eq_false in Hlen.
      destruct (_parse_row_cells row) as [[t|]|e]; try done.
      destruct (bool_decide (PyStr.lower (_safe_cell_text (rv_cells row) COL_WORK_AREA)
                             = "works")) eqn:Hwa; [|done].
      apply bool_decide_eq_true in Hwa. injection Hw as ->.
      split; [lia|]. split; done.
    + intros (row & Hr & Hlen & Hp & Hwa). exists (TRow row). split; [done|].
      unfold works_record. rewrite bool_decide_false by lia. rewrite Hp.
      by rewrite bool_decide_true.
  - by intros [->| ->].
Qed.

Lemma elem_of_concat {A} (x : A) (ls : list (list A)) :
  x ∈ concat ls → ∃ l, x ∈ l ∧ l ∈ ls.
Proof.
  induction ls as [|l ls IH]; simpl.
  - intros H. by apply elem_of_nil in H.
  - intros H. apply elem_of_app in H as [H|H].
    + exists l. split; [done|apply list_elem_of_here].
    + destruct (IH H) as (l' & H1 & H2). exists l'. split; [done|].
      by apply list_elem_of_further.
Qed.

Lemma elem_of_take_elem {A} (x : A) n (l : list A) : x ∈ take n l → x ∈ l.
Proof.
  intros H. apply elem_of_take in H as (i & Hi & _). by eapply list_elem_of_lookup_2.
Qed.

Lemma new_tender_detail_url deptt tender_no tender_title status work_area due_date due_days
    detail_url :
  new_tender deptt tender_no tender_title status work_area due_date due_days detail_url
    !! "detail_url" = Some (VStr detail_url).
Proof. new_tender_lookup. Qed.

Lemma absolute_url_http path : PyStr.startswith "http" (absolute_url path) = true.
Proof.
  unfold absolute_url. destruct (PyStr.startswith "http" path) eqn:Hp; [done|].
  reflexivity.
Qed.

Lemma extract_detail_url_spec cell_count action detail_url :
  extract_detail_url cell_count action = Ok detail_url →
  (detail_url = "" ∨ PyStr.startswith "http" detail_url = true)
  ∧ ((cell_count ≤ COL_ACTIONS)%nat → detail_url = "")
  ∧ (∀ a, action = Ok a → av_has_img a && av_has_link a = false → detail_url = "").
Proof.
  unfold extract_detail_url.
  destruct (bool_decide (COL_ACTIONS < cell_count)%nat) eqn:Hc.
  2: { intros [= <-]. split; [by left|]. split; [done|]. done. }
  apply bool_decide_eq_true in Hc.
  destruct action as [a|e]; cbn [rbind]; [|done].
  destruct (av_has_img a && av_has_link a) eqn:Hi.
  2: { intros [= <-]. split; [by left|]. split; [done|]. done. }
  intros Hu.
  assert (detail_url = "" ∨ PyStr.startswith "http" detail_url = true) as Hres.
  { destruct (negb (PyStr.truthy _) && PyStr.truthy (av_href a)
              && negb (bool_decide (av_href a = "#"))
              && PyStr.truthy (PyStr.strip (av_href a))) in Hu.
    - injection Hu as <-. right. apply absolute_url_http.
    - injection Hu as <-. destruct (PyStr.truthy (av_onclick a)); [|by left].
      destruct (av_onclick_target a); [|by left]. right. apply absolute_url_http. }
  split; [done|]. split; [intros Hle; unfold COL_ACTIONS in *; lia|].
  intros a' [= <-] Hf. congruence.
Qed.

(** X22: the navigation link of a harvested record.  [detail_url] is the
    empty string or an absolute url starting with "http"; it is empty when
    the row has no Actions cell or that cell lacks the "View Tender
    Details" image or its link.  Parsing a row raises only when the row
    has an Actions cell and reading that cell raises. *)
Theorem X22_detail_url_absolute (row : row_view) :
  (∀ tender, _parse_row_cells row = Ok (Some tender) →
     ∃ detail_url,
       tender !! "detail_url" = Some (VStr detail_url)
       ∧ (detail_url = "" ∨ PyStr.startswith "http" detail_url = true)
       ∧ ((length (rv_cells row) ≤ COL_ACTIONS)%nat → detail_url = "")
       ∧ (∀ a, rv_action row = Ok a → av_has_img a && av_has_link a = false →
            detail_url = ""))
  ∧ (∀ e, _parse_row_cells row = Raise e →
       (COL_ACTIONS < length (rv_cells row))%nat ∧ rv_action row = Raise e).
Proof.
  split.
  - intros tender Hp.
    destruct (parse_row_record row tender Hp) as ((u & Hu & ->) & _).
    exists u. split; [apply new_tender_detail_url|].
    by apply (extract_detail_url_spec _ (rv_action row)).
  - intros e. unfold _parse_row_cells.
    repeat match goal with
           | |- (if ?c then _ else _) = _ → _ => destruct c; [done|]
           end.
    unfold extract_detail_url.
    destruct (bool_decide (COL_ACTIONS < length (rv_cells row))%nat) eqn:Hc; [|done].
    apply bool_decide_eq_true in Hc.
    destruct (rv_action row) as [a|e']; cbn [rbind].
    + destruct (av_has_img a && av_has_link a); [|done].
      by destruct (negb _ && _ && _ && _).
    + by intros [= <-].
Qed.

(** The records of all pages of a listing, in page order. *)
Definition all_pages (ls : listing) : list dict :=
  concat (_extract_table_rows <$> ls_first ls :: ls_next ls).

Lemma listing_loop_spec dev_limit rest : ∀ cur all_tenders,
  (dev_limit = 0 ∨ length all_tenders < dev_limit)%nat →
  listing_loop dev_limit cur rest all_tenders
  = let every := all_tenders ++ concat (_extract_table_rows <$> cur :: rest) in
    if (dev_limit =? 0)%nat then every else take dev_limit every.
Proof.
  induction rest as [|next rest IH]; intros cur acc Hacc; cbn [listing_loop].
  - cbn [fmap list_fmap concat]. rewrite app_nil_r.
    destruct (Nat.eqb_spec dev_limit 0) as [->|Hz]; cbn [negb andb]; [done|].
    destruct (Nat.leb_spec dev_limit (length (acc ++ _extract_table_rows cur))); [done|].
    by rewrite take_ge by lia.
  - cbn [fmap list_fmap concat]. cbv zeta.
    destruct (Nat.eqb_spec dev_limit 0) as [->|Hz]; cbn [negb andb].
    + rewrite IH by (by left). simpl. by rewrite <- app_assoc.
    + destruct (Nat.leb_spec dev_limit (length (acc ++ _extract_table_rows cur))) as [Hle|Hlt].
      * rewrite app_assoc. symmetry. apply take_app_le. lia.
      * rewrite IH by (by right). cbv zeta.
        cbn [fmap list_fmap concat]. by rewrite <- app_assoc.
Qed.

(** X12: [_scrape_listing] returns the records of all pages in page order
    when there is no development limit, and their first [dev_limit] ones
    when there is one: stopping at the page that reaches the limit loses
    nothing.  It raises only when opening the listing does. *)
Theorem X12_scrape_listing (dev_limit : nat) (ls : listing) :
  (ls_open ls = Ok () →
     _scrape_listing dev_limit ls
     = Ok (if (dev_limit =? 0)%nat then all_pages ls else take dev_limit (all_pages ls)))
  ∧ (∀ e, ls_open ls = Raise e → _scrape_listing dev_limit ls = Raise e)
  ∧ (∀ tenders, _scrape_listing dev_limit ls = Ok tenders →
       (0 < dev_limit → length tenders ≤ dev_limit)%nat
       ∧ ∀ tender, tender ∈ tenders → ScraperFacts.harvested tender).
Proof.
  assert (ls_open ls = Ok () →
          _scrape_listing dev_limit ls
          = Ok (if (dev_limit =? 0)%nat then all_pages ls
                else take dev_limit (all_pages ls))) as Hok.
  { intros Ho. unfold _scrape_listing. rewrite Ho. cbn [rbind]. f_equal.
    rewrite listing_loop_spec; [done|].
    destruct dev_limit; [by left|right; simpl; lia]. }
  split; [done|]. split.
  - intros e Ho. unfold _scrape_listing. by rewrite Ho.
  - intros tenders Hrun. destruct (ls_open ls) as [[]|e] eqn:Ho.
    2: { unfold _scrape_listing in Hrun. by rewrite Ho in Hrun. }
    rewrite (Hok eq_refl) in Hrun. injection Hrun as <-. split.
    + intros Hpos. rewrite (proj2 (Nat.eqb_neq dev_limit 0)) by lia.
      rewrite length_take. lia.
    + intros tender Hin.
      assert (tender ∈ all_pages ls) as Hall.
      { destruct (dev_limit =? 0)%nat; [done|].
        by apply (elem_of_take_elem _ dev_limit). }
      unfold all_pages in Hall. apply elem_of_concat in Hall as (ts & Hin' & Hts).
      apply list_elem_of_fmap in Hts as (page & -> & _).
      destruct page as [| |rows]; try by apply elem_of_nil in Hin'.
      unfold _extract_table_rows in Hin'. rewrite foldl_table_row_step in Hin'.
      cbn [app] in Hin'. apply list_elem_of_omap in Hin' as (r & _ & Hw).
      destruct r as [|row]; [done|]. unfold works_record in Hw.
      destruct (bool_decide (length (rv_cells row) < 7)%nat); [done|].
      destruct (_parse_row_cells row) as [[t|]|e] eqn:Hp; try done.
      destruct (bool_decide _); [|done]. injection Hw as ->. by exists row.
Qed.

End ListingFacts.

(** ** Phase 2: what the detail page contributes *)

Module DetailFacts.
Import Scraper Detail PyStrFacts.

Lemma truthy_ne (s : string) : PyStr.truthy s = true ↔ s ≠ "".
Proof. destruct s; simpl; split; intros H; done. Qed.

Lemma doc_url_new_doc file_name file_url description :
  doc_url (new_doc file_name file_url description) = Some file_url.
Proof.
  unfold doc_url, new_doc. rewrite lookup_insert_ne by done. by rewrite lookup_insert_eq.
Qed.

Lemma doc_file_url_truthy link u : doc_file_url link = Some u → PyStr.truthy u = true.
Proof.
  unfold doc_file_url.
  set (fu := if PyStr.truthy (PyStr.strip (dl_onclick link)) then _ else None).
  set (fu' := if negb (from_option PyStr.truthy false fu) then _ else fu).
  destruct (from_option PyStr.truthy false fu') eqn:Ht; cbn [negb]; [|done].
  intros ->. exact Ht.
Qed.

(** The documents collected so far are keyed by url, their urls have been
    seen, and each is a dict of the three document keys. *)
Definition attached_inv (st : list doc * gset string) : Prop :=
  keyed st.1
  ∧ (∀ d, d ∈ st.1 → ∃ u, doc_url d = Some u ∧ u ∈ st.2)
  ∧ Forall (λ d, ∃ file_name file_url description,
              d = new_doc file_name file_url description) st.1.

Lemma attached_inv_push documents (seen_urls : gset string) file_name file_url description :
  attached_inv (documents, seen_urls) →
  PyStr.truthy file_url = true → file_url ∉ seen_urls →
  attached_inv (documents ++ [new_doc file_name file_url description],
                {[file_url]} ∪ seen_urls).
Proof.
  intros ([Ht Hnd] & Hseen & Hshape) Hu Hnew. unfold attached_inv. cbn [fst snd] in *.
  split; [split|split].
  - apply Forall_app. split; [done|]. apply List.Forall_cons; [|apply List.Forall_nil].
    unfold doc_url_truthy. by rewrite doc_url_new_doc.
  - rewrite fmap_app. apply NoDup_app. split; [done|]. split.
    + intros x Hx Hx'. simpl in Hx'. apply list_elem_of_singleton in Hx' as ->.
      rewrite doc_url_new_doc in Hx. apply list_elem_of_fmap in Hx as (d & Hd & Hin).
      destruct (Hseen d Hin) as (u & Hdu & Hus). apply Hnew. congruence.
    + simpl. apply NoDup_singleton.
  - intros d Hd. apply elem_of_app in Hd as [Hd|Hd].
    + destruct (Hseen d Hd) as (u & Hdu & Hus). exists u. split; [done|].
      apply elem_of_union. by right.
    + apply list_elem_of_singleton in Hd as ->. exists file_url.
      split; [apply doc_url_new_doc|]. apply elem_of_union. left. by apply elem_of_singleton.
  - apply Forall_app. split; [done|]. apply List.Forall_cons; [|apply List.Forall_nil].
    by exists file_name, file_url, description.
Qed.

Lemma attached_inv_seen documents (seen_urls : gset string) file_url :
  attached_inv (documents, seen_urls) →
  attached_inv (documents, {[file_url]} ∪ seen_urls).
Proof.
  intros (Hk & Hseen & Hshape). unfold attached_inv. cbn [fst snd] in *.
  split; [done|]. split; [|done].
  intros d Hd. destruct (Hseen d Hd) as (u & Hdu & Hus). exists u. split; [done|].
  apply elem_of_union. by right.
Qed.

Lemma attached_step_inv st r : attached_inv st → attached_inv (attached_step st r).
Proof.
  destruct st as [documents seen_urls]. intros Hinv. unfold attached_step.
  destruct r as [|cell_count link description]; [done|].
  destruct (bool_decide (cell_count < 2)%nat); [done|].
  destruct link as [link|]; [|done].
  destruct (doc_file_url link) as [file_url|] eqn:Hu; [|done].
  apply doc_file_url_truthy in Hu.
  destruct (bool_decide (file_url ∈ seen_urls)) eqn:Hs; [done|].
  apply bool_decide_eq_false in Hs.
  destruct (bool_decide (3 ≤ cell_count)%nat).
  - destruct description as [text|e].
    + by apply attached_inv_push.
    + by apply attached_inv_seen.
  - by apply attached_inv_push.
Qed.

Lemma attached_loop_inv rows : ∀ st,
  attached_inv st → attached_inv (foldl attached_step st rows).
Proof.
  induction rows as [|r rows IH]; intros st Hinv; simpl; [done|].
  by apply IH, attached_step_inv.
Qed.

Lemma attached_inv_empty : attached_inv ([], ∅).
Proof.
  split; [split; [apply List.Forall_nil|apply NoDup_nil_2]|].
  split; [|apply List.Forall_nil]. intros d Hd. by apply elem_of_nil in Hd.
Qed.

Lemma extract_attached_docs_inv page documents :
  _extract_attached_docs page = Ok documents →
  keyed documents
  ∧ Forall (λ d, ∃ file_name file_url description,
              d = new_doc file_name file_url description) documents.
Proof.
  destruct page as [| |rows]; simpl; [done| |].
  - intros [= <-]. split; [split; [apply List.Forall_nil|apply NoDup_nil_2]|].
    apply List.Forall_nil.
  - intros [= <-]. destruct (attached_loop_inv rows _ attached_inv_empty) as (Hk & _ & Hs).
    by split.
Qed.

(** X13: the documents [_extract_attached_docs] returns are keyed by
    [file_url]: every one has a non-empty url and no two share one, which
    is what the merge of [update_memory] relies on.  Each is a dict of
    exactly the keys [file_name], [file_url] and [description], and a page
    without the table gives the empty list. *)
Theorem X13_attached_docs_keyed (page : attach_view) (documents : list doc) :
  _extract_attached_docs page = Ok documents →
  keyed documents
  ∧ Forall (λ d, ∃ file_name file_url description,
              d = new_doc file_name file_url description
              ∧ dom d = {["file_name"; "file_url"; "description"]}) documents
  ∧ (page = AttachNone → documents = []).
Proof.
  intros Hrun. destruct (extract_attached_docs_inv page documents Hrun) as [Hk Hs].
  split; [done|]. split.
  - eapply Forall_impl; [exact Hs|]. intros d (n & u & ds & ->).
    exists n, u, ds. split; [done|]. unfold new_doc.
    rewrite !dom_insert_L, dom_singleton_L. set_solver.
  - intros ->. simpl in Hrun. by injection Hrun as <-.
Qed.

(** *** Detail fields *)

Lemma detail_labels_fields : DETAIL_LABELS.*1 = DETAIL_FIELDS.
Proof. reflexivity. Qed.

Lemma extract_detail_fields_lookup_gen value_text (fields : list string) key :
  (list_to_map (M := gmap string string)
     (omap (λ f, if accept_value f (value_text f) then Some (f, value_text f) else None)
        fields)) !! key
  = if decide (key ∈ fields)
    then (if accept_value key (value_text key) then Some (value_text key) else None)
    else None.
Proof.
  induction fields as [|f fields IH]; [done|]. cbn [omap list_omap].
  destruct (decide (key = f)) as [->|Hne].
  - rewrite decide_True by apply list_elem_of_here.
    destruct (accept_value f (value_text f)) eqn:Ha.
    + cbn [list_to_map foldr]. simpl. by rewrite lookup_insert_eq.
    + rewrite IH. by destruct (decide (f ∈ fields)).
  - assert ((if decide (key ∈ f :: fields)
             then (if accept_value key (value_text key) then Some (value_text key) else None)
             else None)
            = (if decide (key ∈ fields)
               then (if accept_value key (value_text key) then Some (value_text key) else None)
               else None)) as ->.
    { destruct (decide (key ∈ fields)) as [Hin|Hnin].
      - rewrite decide_True; [done|]. by apply list_elem_of_further.
      - rewrite decide_False; [done|]. intros Hin. apply elem_of_cons in Hin as [?|?]; done. }
    destruct (accept_value f (value_text f)); [|apply IH].
    cbn [list_to_map foldr]. simpl. rewrite lookup_insert_ne by done. apply IH.
Qed.

Lemma extract_detail_fields_lookup value_text key :
  _extract_detail_fields value_text !! key
  = if decide (key ∈ DETAIL_FIELDS)
    then (if accept_value key (value_text key) then Some (value_text key) else None)
    else None.
Proof. apply extract_detail_fields_lookup_gen. Qed.

Lemma accept_value_truthy field_name value :
  accept_value field_name value = true → PyStr.truthy value = true.
Proof.
  unfold accept_value. intros H. apply andb_true_iff in H as [H _].
  by apply andb_true_iff in H as [H _].
Qed.

(** A candidate text that passes the junk filter. *)
Definition clean_candidate (value : string) : Prop :=
  PyStr.strip value = value ∧ _is_junk_value value = false.

Lemma label_value_clean label_text v :
  PyStr.truthy (label_value label_text v) = true →
  clean_candidate (label_value label_text v).
Proof.
  unfold label_value. destruct v as [| |row_cell sibling]; [done|done|].
  set (value_text := match row_cell with Some _ => _ | None => "" end).
  assert (PyStr.truthy value_text = true → clean_candidate value_text) as Hrow.
  { unfold value_text. destruct row_cell as [text|]; [|done].
    destruct (PyStr.truthy (PyStr.strip text)); cbn [andb]; [|done].
    destruct (bool_decide (PyStr.strip text = label_text)); cbn [negb andb]; [done|].
    destruct (_is_junk_value (PyStr.strip text)) eqn:Hj; cbn [negb]; [done|].
    intros _. split; [apply strip_idempotent|done]. }
  destruct (PyStr.truthy value_text) eqn:Ht; cbn [negb].
  - intros _. by apply Hrow.
  - destruct sibling as [[text|]|e]; try done.
    destruct (PyStr.truthy (PyStr.strip text)); cbn [andb]; [|done].
    destruct (_is_junk_value (PyStr.strip text)) eqn:Hj; cbn [negb]; [done|].
    intros _. split; [apply strip_idempotent|done].
Qed.

Lemma page_value_text_clean page field_name :
  PyStr.truthy (page_value_text page field_name) = true →
  clean_candidate (page_value_text page field_name).
Proof.
  unfold page_value_text.
  destruct (list_to_map (M := gmap string string) DETAIL_LABELS !! field_name); [|done].
  apply label_value_clean.
Qed.

Lemma not_junk_bounds value :
  _is_junk_value value = false →
  (String.length value ≤ 500)%nat ∧ (count_char "009" value ≤ 3)%nat
  ∧ contains "document.getElementById" value = false.
Proof.
  unfold _is_junk_value. destruct (PyStr.truthy value) eqn:Ht; cbn [negb].
  2: { destruct value; [|done]. intros _. simpl. split; [lia|]. split; [lia|done]. }
  destruct (bool_decide (3 < count_char "009" value)%nat) eqn:Hc; [done|].
  destruct (contains "createOptorDpdw()" value); cbn [orb]; [done|].
  destruct (contains "document.getElementById" value); [done|].
  destruct (bool_decide (500 < String.length value)%nat) eqn:Hl; [done|].
  apply bool_decide_eq_false in Hc. apply bool_decide_eq_false in Hl. intros _.
  split; [lia|]. split; [lia|done].
Qed.

(** X14: what [_extract_detail_fields] keeps.  Every entry of the detail
    data belongs to a field of [DETAIL_LABELS]; its value is non-empty, has
    no outer whitespace, and passed the junk filter: at most 500
    characters, at most three tabs, no script fragment.  A closing date
    contains a slash, and a description is none of the table header
    texts. *)
Theorem X14_detail_fields_validated (page : string → label_view)
    (field_name value : string) :
  _extract_detail_fields (page_value_text page) !! field_name = Some value →
  field_name ∈ DETAIL_FIELDS
  ∧ value ≠ ""
  ∧ PyStr.strip value = value
  ∧ _is_junk_value value = false
  ∧ (String.length value ≤ 500)%nat
  ∧ (count_char "009" value ≤ 3)%nat
  ∧ (field_name = "closing_date" → contains "/" value = true)
  ∧ (field_name = "description" →
     value ∉ ["File Name"; "file name"; "Description"; "Sl. No"]).
Proof.
  rewrite extract_detail_fields_lookup.
  destruct (decide (field_name ∈ DETAIL_FIELDS)) as [Hin|]; [|done].
  destruct (accept_value field_name (page_value_text page field_name)) eqn:Ha; [|done].
  intros [= <-]. pose proof (accept_value_truthy _ _ Ha) as Ht.
  destruct (page_value_text_clean page field_name Ht) as [Hs Hj].
  destruct (not_junk_bounds _ Hj) as (Hlen & Htab & _).
  split; [done|]. split; [by apply truthy_ne|]. do 4 (split; [done|]).
  unfold accept_value in Ha. apply andb_true_iff in Ha as [Ha Hd].
  apply andb_true_iff in Ha as [_ Hc]. split.
  - intros ->. rewrite bool_decide_true in Hc by done. cbn [andb] in Hc.
    by destruct (contains "/" (page_value_text page "closing_date")).
  - intros ->. rewrite bool_decide_true in Hd by done. cbn [andb] in Hd.
    apply negb_true_iff, bool_decide_eq_false in Hd. exact Hd.
Qed.

End DetailFacts.

(** ** Phase 2: what enrichment does to a record *)

Module EnrichFacts.
Import Scraper Detail ScraperFacts DetailFacts ListingFacts.

Lemma update_detail_lookup (tender : dict) (value_text : string → string) key :
  update_detail tender (_extract_detail_fields value_text) !! key
  = if decide (key ∈ DETAIL_FIELDS)
    then (if accept_value key (value_text key) then Some (VStr (value_text key))
          else tender !! key)
    else tender !! key.
Proof.
  unfold update_detail. rewrite lookup_union, lookup_fmap, map_lookup_filter.
  rewrite extract_detail_fields_lookup.
  destruct (decide (key ∈ DETAIL_FIELDS)); [|simpl; by destruct (tender !! key)].
  destruct (accept_value key (value_text key)) eqn:Ha; [|simpl; by destruct (tender !! key)].
  simpl. rewrite option_guard_True by (by apply accept_value_truthy in Ha).
  simpl. by destruct (tender !! key).
Qed.

Lemma store_docs_lookup (tender : dict) d key :
  key ≠ "tender_doc_download_url" → key ≠ "attached_documents" →
  store_docs tender d !! key = tender !! key.
Proof.
  intros H1 H2. unfold store_docs. destruct d as [url docs|].
  - by rewrite !lookup_insert_ne.
  - unfold mark_empty_dict. by rewrite !setdefault_lookup_ne.
Qed.

Lemma enrich_dict_lookup (tender : dict) value_text d key :
  key ≠ "tender_doc_download_url" → key ≠ "attached_documents" →
  enrich_dict tender value_text d !! key
  = if decide (key ∈ DETAIL_FIELDS)
    then (if accept_value key (value_text key) then Some (VStr (value_text key))
          else tender !! key)
    else tender !! key.
Proof.
  intros H1 H2. unfold enrich_dict. rewrite store_docs_lookup by done.
  apply update_detail_lookup.
Qed.

(** The store [scrape_tenders] leaves, record by record. *)
Lemma scrape_tenders_records context br h listing_tenders :
  (∀ l, l ∈ read_list h listing_tenders → harvested (read_dict h l)) →
  read_list (scrape_tenders context br h listing_tenders).1
            (scrape_tenders context br h listing_tenders).2
  = read_list h listing_tenders
  ∧ ∀ l, record_ok h (browser_loads br) l
           (read_dict (scrape_tenders context br h listing_tenders).1 l).
Proof.
  intros Hharv. unfold scrape_tenders.
  destruct (read_list h listing_tenders) as [|l0 ls] eqn:Hitems.
  - cbn [fst snd]. split.
    + unfold read_list. cbn [h_lists]. by rewrite lookup_insert_eq.
    + intros l. by left.
  - destruct (scrape_details_ok context br h listing_tenders) as [[Hlists Hrec] Hres].
    { intros l Hl. apply Hharv. by rewrite <- Hitems. }
    destruct (_scrape_details context br h listing_tenders) as [h' res].
    cbn [fst snd] in *.
    assert (res = Ok listing_tenders ∨ ∃ e, res = Raise e) as [->|[e ->]] by done.
    all: cbn [fst snd]; split; [|done].
    all: unfold read_list in *; by rewrite Hlists.
Qed.

Lemma record_ok_lookup h loads l (d : dict) key :
  record_ok h loads l d →
  key ≠ "tender_doc_download_url" → key ≠ "attached_documents" →
  (key ∉ DETAIL_FIELDS → d !! key = read_dict h l !! key)
  ∧ (d !! key = read_dict h l !! key
     ∨ ∃ value, d !! key = Some (VStr value) ∧ value ≠ "").
Proof.
  intros [->|(vt & dout & _ & ->)] H1 H2; [by split; [|left]|].
  rewrite (enrich_dict_lookup _ vt dout key H1 H2).
  destruct (decide (key ∈ DETAIL_FIELDS)) as [Hin|Hnin].
  - split; [done|]. destruct (accept_value key (vt key)) eqn:Ha; [|by left].
    right. exists (vt key). split; [done|]. apply truthy_ne. by eapply accept_value_truthy.
  - split; [done|by left].
Qed.

(** X15: Phase 2 only adds.  Whatever the browser does, after
    [scrape_tenders] every harvested record has its listing fields and its
    identity exactly as Phase 1 read them; a detail field either still has
    its harvested value or holds a non-empty text taken from the detail
    page. *)
Theorem X15_enrichment_only_adds (context : bool) (br : browser) (h : heap)
    (listing_tenders l : loc) :
  (∀ l, l ∈ read_list h listing_tenders → harvested (read_dict h l)) →
  let h' := (scrape_tenders context br h listing_tenders).1 in
  (∀ key, key ∉ DETAIL_FIELDS →
     key ∉ ["tender_doc_download_url"; "attached_documents"] →
     read_dict h' l !! key = read_dict h l !! key)
  ∧ (∀ key, key ∈ DETAIL_FIELDS →
       read_dict h' l !! key = read_dict h l !! key
       ∨ ∃ value, read_dict h' l !! key = Some (VStr value) ∧ value ≠ "")
  ∧ get_tender_no (read_dict h' l) = get_tender_no (read_dict h l).
Proof.
  intros Hharv h'.
  destruct (scrape_tenders_records context br h listing_tenders Hharv) as [_ Hrec].
  specialize (Hrec l). fold h' in Hrec. split; [|split].
  - intros key Hk Hd.
    apply (record_ok_lookup h _ l _ key Hrec); [| |done]; intros ->; apply Hd; set_solver.
  - intros key Hk.
    apply (record_ok_lookup h _ l _ key Hrec); intros ->; revert Hk;
      apply (bool_decide_unpack _); vm_compute; exact I.
  - unfold get_tender_no, get_or_empty.
    rewrite (proj1 (record_ok_lookup h _ l _ "tender_no" Hrec ltac:(done) ltac:(done)));
      [done|]. apply (bool_decide_unpack _). vm_compute. exact I.
Qed.

Section Pipeline.

Variable py_repr : pyval → string.

(** X16: the change detector accepts whatever the scraper returns.  On the
    records of [scrape_tenders], harvested from listing rows,
    [detect_changes] never raises and skips none: the four buckets together
    hold exactly the scraped records, and the four counts of the summary
    add up to its total. *)
Theorem X16_scraped_records_all_classified (memory : gmap string dict) (now : string)
    (context : bool) (br : browser) (h : heap) (listing_tenders : loc) :
  (∀ l, l ∈ read_list h listing_tenders → harvested (read_dict h l)) →
  let h' := (scrape_tenders context br h listing_tenders).1 in
  let returned := (scrape_tenders context br h listing_tenders).2 in
  ∃ h'' rep,
    detect_changes py_repr memory now h' returned = Ok (h'', rep)
    ∧ r_new rep ++ r_updated rep ++ r_status_changed rep ++ r_unchanged rep
        ≡ₚ read_list h listing_tenders
    ∧ (new_count (r_summary rep) + updated_count (r_summary rep)
       + status_changed_count (r_summary rep) + unchanged_count (r_summary rep)
       = total_scraped (r_summary rep))%nat.
Proof.
  intros Hharv h' returned.
  destruct (scrape_tenders_records context br h listing_tenders Hharv) as [Hitems Hrec].
  fold h' returned in Hitems. fold h' in Hrec.
  assert (∀ l, l ∈ read_list h' returned → has_identity (read_dict h' l) = true) as Hid.
  { intros l Hl. rewrite Hitems in Hl.
    destruct (harvested_identity _ (Hharv l Hl)) as [Hi _].
    unfold has_identity in *. unfold get_tender_no, get_or_empty in *.
    rewrite (proj1 (record_ok_lookup h _ l _ "tender_no" (Hrec l) ltac:(done) ltac:(done)));
      [done|]. apply (bool_decide_unpack _). vm_compute. exact I. }
  assert (Forall (λ l, tender_no_is_str (read_dict h' l)) (read_list h' returned)) as Hstr.
  { apply Forall_forall. intros l Hl. specialize (Hid l Hl).
    destruct (has_identity_inv _ Hid) as [Hno _]. by eexists. }
  destruct (detect_changes_spec py_repr memory now h' returned Hstr)
    as (h'' & rep & Hrun & Hnew & Hupd & Hsc & Hunch & _ & Hsum & _).
  exists h'', rep. split; [done|]. cbv zeta in *.
  assert (r_new rep ++ r_updated rep ++ r_status_changed rep ++ r_unchanged rep
          ≡ₚ read_list h' returned) as Hperm.
  { rewrite Hnew, Hupd, Hsc, Hunch.
    rewrite (filter_classes_partition (λ l, classify py_repr memory (read_dict h' l))).
    rewrite (filter_classified_identity py_repr memory h').
    rewrite filter_all; [done|exact Hid]. }
  split; [by rewrite Hperm, Hitems|].
  rewrite Hsum. cbn [new_count updated_count status_changed_count unchanged_count
                       total_scraped].
  rewrite <- (Permutation_length Hperm). rewrite !length_app. lia.
Qed.

End Pipeline.

Lemma absolute_url_truthy s :
  PyStr.truthy s = true → PyStr.truthy (absolute_url s) = true.
Proof.
  intros Hs. unfold absolute_url. by destruct (PyStr.startswith "http" s).
Qed.

(** A captured download url is never the empty string. *)
Lemma capture_tender_doc_url_truthy context b url :
  _capture_tender_doc_url context b = Some url → PyStr.truthy url = true.
Proof.
  unfold _capture_tender_doc_url. intros Hc.
  repeat match goal with
         | H : context [match ?x with _ => _ end] |- _ =>
             destruct x eqn:?; try discriminate H
         end.
  all: simplify_eq.
  all: try (by apply absolute_url_truthy).
  all: match goal with H : (PyStr.truthy ?t && _) = true |- _ =>
         by apply andb_true_iff in H as [H _] end.
Qed.

(** X17: the documents Phase 2 stores are fit for the commit.  A record
    enriched with the outcome of [_extract_documents] has a list of
    attached documents keyed by [file_url], and its
    [tender_doc_download_url] is [None] or a non-empty string, never the
    empty string. *)
Theorem X17_stored_documents_keyed (tender : dict) (value_text : string → string)
    (context : bool) (b : doc_button) (page : attach_view) :
  let enriched := enrich_dict tender value_text (_extract_documents context b page) in
  (∃ documents, enriched !! "attached_documents" = Some (VDocs documents)
                ∧ keyed documents)
  ∧ (enriched !! "tender_doc_download_url" = Some VNone
     ∨ ∃ url, enriched !! "tender_doc_download_url" = Some (VStr url) ∧ url ≠ "").
Proof.
  intros enriched. unfold enriched, enrich_dict, _extract_documents, store_docs. split.
  - eexists. split; [apply lookup_insert_eq|].
    destruct (_extract_attached_docs page) as [documents|e] eqn:Hd.
    + by destruct (extract_attached_docs_inv page documents Hd).
    + split; [apply List.Forall_nil|apply NoDup_nil_2].
  - rewrite lookup_insert_ne by done. rewrite lookup_insert_eq.
    destruct (_capture_tender_doc_url context b) as [url|] eqn:Hc; [|by left].
    right. exists url. split; [done|]. apply truthy_ne.
    by apply (capture_tender_doc_url_truthy context b).
Qed.

End EnrichFacts.

(** ** Phase 1 and Phase 2 on the example data *)

Module ScraperExamples.
Import Scraper ScraperFacts Listing ListingFacts Detail DetailFacts EnrichFacts.

Lemma ex_row_active_accepted :
  _parse_row_cells ex_row_active = Ok (Some (default ∅ (accepted_record ex_row_active))).
Proof.
  apply accepted_record_Some. apply (bool_decide_unpack _). vm_compute. reflexivity.
Defined.

Lemma X10_harvested_identity_witness :
  default ∅ (accepted_record ex_row_active) !! "tender_no"
    = Some (VStr (_safe_cell_text (rv_cells ex_row_active) COL_TENDER_NO))
  ∧ get_tender_no (default ∅ (accepted_record ex_row_active))
    = Ok (_safe_cell_text (rv_cells ex_row_active) COL_TENDER_NO)
  ∧ has_identity (default ∅ (accepted_record ex_row_active)) = true
  ∧ _safe_cell_text (rv_cells ex_row_active) COL_TENDER_NO ≠ ""
  ∧ (String.length (_safe_cell_text (rv_cells ex_row_active) COL_TENDER_NO) ≤ 50)%nat
  ∧ contains (String "010" "") (_safe_cell_text (rv_cells ex_row_active) COL_TENDER_NO)
    = false
  ∧ (_safe_cell_text (rv_cells ex_row_active) COL_TENDER_NO ∉ _JUNK_TENDER_NOS).
Proof.
  apply (X10_harvested_identity ex_row_active). exact ex_row_active_accepted.
Defined.

(** An [#attach_docs] table: two rows with the same url, a row that raises,
    a row without a link target, and a row with its url in [href]. *)
Definition ex_attach : attach_view :=
  AttachRows
    [ DRow 3 (Some (DocLink " nit.pdf " "window.open('/ireps/upload/nit.pdf')"
                      (Some "/ireps/upload/nit.pdf") "#")) (Ok " Notice ");
      DRow 3 (Some (DocLink "nit-copy.pdf" "window.open('/ireps/upload/nit.pdf')"
                      (Some "/ireps/upload/nit.pdf") "#")) (Ok "Copy");
      DRowRaises;
      DRow 2 (Some (DocLink "none" "" None "#")) (Ok "");
      DRow 2 (Some (DocLink "boq.xls" "" None "https://x/boq.xls")) (Ok "") ].

Definition ex_attached : list doc :=
  match _extract_attached_docs ex_attach with
  | Ok documents => documents
  | Raise _ => []
  end.

Lemma ex_attached_run : _extract_attached_docs ex_attach = Ok ex_attached.
Proof. reflexivity. Defined.

Lemma X13_attached_docs_keyed_witness :
  keyed ex_attached
  ∧ Forall (λ d, ∃ file_name file_url description,
              d = new_doc file_name file_url description
              ∧ dom d = {["file_name"; "file_url"; "description"]}) ex_attached
  ∧ (ex_attach = AttachNone → ex_attached = []).
Proof. apply (X13_attached_docs_keyed ex_attach ex_attached). exact ex_attached_run. Defined.

Example ex_attached_value :
  ex_attached
  = [ new_doc "nit.pdf" "https://www.ireps.gov.in/ireps/upload/nit.pdf" "Notice";
      new_doc "boq.xls" "https://x/boq.xls" "" ].
Proof. apply (bool_decide_unpack _). vm_compute. reflexivity. Qed.

(** A detail page that shows a closing date in the row of its label, a
    description only as the header text of the documents table, and no
    other label. *)
Definition ex_detail_page (field_name : string) : label_view :=
  if bool_decide (field_name = "closing_date")
  then LabelFound (Some " 25/02/2026 14:00 ") (Ok None)
  else if bool_decide (field_name = "description")
  then LabelFound None (Ok (Some "File Name"))
  else LabelMissing.

Lemma X14_detail_fields_validated_witness :
  "closing_date" ∈ DETAIL_FIELDS
  ∧ "25/02/2026 14:00" ≠ ""
  ∧ PyStr.strip "25/02/2026 14:00" = "25/02/2026 14:00"
  ∧ _is_junk_value "25/02/2026 14:00" = false
  ∧ (String.length "25/02/2026 14:00" ≤ 500)%nat
  ∧ (count_char "009" "25/02/2026 14:00" ≤ 3)%nat
  ∧ ("closing_date" = "closing_date" → contains "/" "25/02/2026 14:00" = true)
  ∧ ("closing_date" = "description" →
     "25/02/2026 14:00" ∉ ["File Name"; "file name"; "Description"; "Sl. No"]).
Proof.
  apply (X14_detail_fields_validated ex_detail_page "closing_date" "25/02/2026 14:00").
  vm_compute. reflexivity.
Defined.

Example ex_detail_page_fields :
  _extract_detail_fields (page_value_text ex_detail_page)
  = {[ "closing_date" := "25/02/2026 14:00" ]}.
Proof. apply (bool_decide_unpack _). vm_compute. reflexivity. Qed.

Lemma ex_harvest_heap_harvested :
  ∀ l, l ∈ read_list ex_harvest_heap 5 → harvested (read_dict ex_harvest_heap l).
Proof.
  intros l Hl. change (read_list ex_harvest_heap 5) with [0] in Hl.
  apply list_elem_of_singleton in Hl as ->. exists ex_row_active.
  exact ex_row_active_accepted.
Defined.

(** A listing whose only page shows that tender, and its detail view loads
    with the example detail page and the example documents. *)
Definition ex_browser_loading : browser :=
  Browser (Ok ())
    (PageRows [LRow "Works" "T-9" true
                 (λ _, AtLoaded (page_value_text ex_detail_page)
                         (_extract_documents true
                            (DocButton (Ok (Some "/ireps/works/pdfdocs/t9.pdf")) (Ok true)
                               (Ok "about:blank") (Ok None))
                            ex_attach))]) [].

Lemma X15_enrichment_only_adds_witness :
  (∀ key, key ∉ DETAIL_FIELDS →
     key ∉ ["tender_doc_download_url"; "attached_documents"] →
     read_dict (scrape_tenders true ex_browser_loading ex_harvest_heap 5).1 0 !! key
     = read_dict ex_harvest_heap 0 !! key)
  ∧ (∀ key, key ∈ DETAIL_FIELDS →
       read_dict (scrape_tenders true ex_browser_loading ex_harvest_heap 5).1 0 !! key
       = read_dict ex_harvest_heap 0 !! key
       ∨ ∃ value,
           read_dict (scrape_tenders true ex_browser_loading ex_harvest_heap 5).1 0 !! key
           = Some (VStr value) ∧ value ≠ "")
  ∧ get_tender_no (read_dict (scrape_tenders true ex_browser_loading ex_harvest_heap 5).1 0)
    = get_tender_no (read_dict ex_harvest_heap 0).
Proof.
  apply (X15_enrichment_only_adds true ex_browser_loading ex_harvest_heap 5 0).
  exact ex_harvest_heap_harvested.
Defined.

Lemma X16_scraped_records_all_classified_witness :
  ∃ h'' rep,
    detect_changes ex_repr ex_memory "now"
      (scrape_tenders true ex_browser_loading ex_harvest_heap 5).1
      (scrape_tenders true ex_browser_loading ex_harvest_heap 5).2 = Ok (h'', rep)
    ∧ r_new rep ++ r_updated rep ++ r_status_changed rep ++ r_unchanged rep
        ≡ₚ read_list ex_harvest_heap 5
    ∧ (new_count (r_summary rep) + updated_count (r_summary rep)
       + status_changed_count (r_summary rep) + unchanged_count (r_summary rep)
       = total_scraped (r_summary rep))%nat.
Proof.
  apply (X16_scraped_records_all_classified ex_repr ex_memory "now" true ex_browser_loading
           ex_harvest_heap 5).
  exact ex_harvest_heap_harvested.
Defined.

End ScraperExamples.

(** ** The CAPTCHA solver *)

Module CaptchaFacts.
Import Captcha.

(** A pass that gives no usable text. *)
Definition failed (a : solve_answer) : Prop :=
  match a with
  | SolveRaises _ => True
  | SolveCode code => PyStr.strip code = ""
  end.

Lemma truthy_false_empty (s : string) : PyStr.truthy s = false ↔ s = "".
Proof. destruct s; simpl; split; intros H; done. Qed.

Lemma solve_loop_spec max_retries answers n : ∀ attempt last_error,
  match solve_loop max_retries n attempt answers last_error with
  | Ok text =>
      ∃ k code, (attempt ≤ k < attempt + n)%nat
        ∧ answers k = SolveCode code ∧ text = PyStr.strip code ∧ text ≠ ""
        ∧ ∀ j, (attempt ≤ j < k)%nat → failed (answers j)
  | Raise e =>
      (∃ msg, e = RuntimeError msg)
      ∧ ∀ j, (attempt ≤ j < attempt + n)%nat → failed (answers j)
  end.
Proof.
  induction n as [|n IH]; intros attempt last_error; cbn [solve_loop].
  - split; [by eexists|]. intros j Hj. lia.
  - destruct (answers attempt) as [msg|code] eqn:Ha.
    + specialize (IH (S attempt) (Some msg)).
      destruct (solve_loop max_retries n (S attempt) answers (Some msg)) as [text|e].
      * destruct IH as (k & code & Hk & Hans & Ht & Hne & Hfail).
        exists k, code. split; [lia|]. do 3 (split; [done|]).
        intros j Hj. destruct (decide (j = attempt)) as [->|Hn]; [by rewrite Ha|].
        apply Hfail. lia.
      * destruct IH as [Hm Hfail]. split; [done|]. intros j Hj.
        destruct (decide (j = attempt)) as [->|Hn]; [by rewrite Ha|]. apply Hfail. lia.
    + destruct (PyStr.truthy (PyStr.strip code)) eqn:Ht; cbn [negb].
      * exists attempt, code. split; [lia|]. do 2 (split; [done|]).
        split; [intros He; by rewrite He in Ht|]. intros j Hj. lia.
      * specialize (IH (S attempt) (Some "2captcha returned empty result")).
        apply truthy_false_empty in Ht.
        destruct (solve_loop max_retries n (S attempt) answers
                    (Some "2captcha returned empty result")) as [text|e].
        -- destruct IH as (k & code' & Hk & Hans & Ht' & Hne & Hfail).
           exists k, code'. split; [lia|]. do 3 (split; [done|]).
           intros j Hj. destruct (decide (j = attempt)) as [->|Hn]; [by rewrite Ha|].
           apply Hfail. lia.
        -- destruct IH as [Hm Hfail]. split; [done|]. intros j Hj.
           destruct (decide (j = attempt)) as [->|Hn]; [by rewrite Ha|]. apply Hfail. lia.
Qed.

(** X18: [solve_from_element] returns the stripped answer of the first
    pass, among the passes 1 to [max_retries], that gives a non-blank text;
    the text it returns is never empty.  It raises exactly when every one
    of these passes fails, and then always a [RuntimeError], whatever the
    passes raised. *)
Theorem X18_captcha_first_answer (max_retries : nat) (answers : nat → solve_answer) :
  match solve_from_element max_retries answers with
  | Ok text =>
      ∃ k code, (1 ≤ k ≤ max_retries)%nat
        ∧ answers k = SolveCode code ∧ text = PyStr.strip code ∧ text ≠ ""
        ∧ ∀ j, (1 ≤ j < k)%nat → failed (answers j)
  | Raise e =>
      (∃ msg, e = RuntimeError msg)
      ∧ ∀ j, (1 ≤ j ≤ max_retries)%nat → failed (answers j)
  end.
Proof.
  unfold solve_from_element.
  pose proof (solve_loop_spec max_retries answers max_retries 1 None) as H.
  destruct (solve_loop max_retries max_retries 1 answers None) as [text|e].
  - destruct H as (k & code & Hk & Hans & Ht & Hne & Hfail).
    exists k, code. split; [lia|]. done.
  - destruct H as [Hm Hfail]. split; [done|]. intros j Hj. apply Hfail. lia.
Qed.

Example captcha_second_pass :
  solve_from_element 3
    (λ k, match k with 1 => SolveCode "  " | 2 => SolveCode " x7Kp " | _ => SolveRaises "" end)
  = Ok "x7Kp"
  ∧ solve_from_element 3 (λ _, SolveRaises "timeout")
    = Raise (RuntimeError "CAPTCHA solving failed after 3 attempts: timeout").
Proof. vm_compute. by split. Qed.

End CaptchaFacts.

(** ** The OTP receiver: what [wait_for_otp] returns *)

Module OtpMore.
Import Otp OtpFacts.

Lemma otp_truthy_Some o : otp_truthy o = true → ∃ s, o = Some s ∧ s ≠ "".
Proof.
  destruct o as [s|]; [|done]. simpl. intros H. exists s. split; [done|].
  intros ->. done.
Qed.

Lemma fresh_ticket_inv request_time r :
  fresh_ticket request_time r = true →
  (∃ s, _latest_otp r = Some s ∧ s ≠ "") ∧ (request_time < _otp_timestamp r)%Z.
Proof.
  unfold fresh_ticket. intros H. apply andb_true_iff in H as [H1 H2].
  split; [by apply otp_truthy_Some|]. by apply bool_decide_eq_true in H2.
Qed.

Lemma poll_existing_spec request_time answers : ∀ r r' otp,
  poll_existing request_time answers r = (r', Some otp) →
  otp ≠ "" ∧ _latest_otp r' = Some otp
  ∧ (request_time < _otp_timestamp r')%Z
  ∧ (Some otp, _otp_timestamp r') ∈ answers
  ∧ _otp_request_time r' = _otp_request_time r
  ∧ _use_existing_server r' = _use_existing_server r.
Proof.
  induction answers as [|[o ts] answers IH]; intros r r' otp; simpl; [done|].
  destruct (otp_truthy o) eqn:Ho; cbn [andb].
  - destruct (bool_decide (request_time < ts)%Z) eqn:Hts.
    + intros [= <- ->]. apply otp_truthy_Some in Ho as (s & [= <-] & Hne).
      apply bool_decide_eq_true in Hts. cbn. split; [done|]. split; [done|].
      split; [done|]. split; [apply list_elem_of_here|done].
    + intros H. destruct (IH r r' otp H) as (H1 & H2 & H3 & H4 & H5).
      do 3 (split; [done|]). split; [by apply list_elem_of_further|done].
  - intros H. destruct (IH r r' otp H) as (H1 & H2 & H3 & H4 & H5).
    do 3 (split; [done|]). split; [by apply list_elem_of_further|done].
Qed.

Lemma poll_existing_none request_time answers : ∀ r r',
  poll_existing request_time answers r = (r', None) → r' = r.
Proof.
  induction answers as [|[o ts] answers IH]; intros r r'; simpl; [by intros [= <-]|].
  destruct (otp_truthy o) eqn:Ho; cbn [andb]; [|apply IH].
  destruct (bool_decide (request_time < ts)%Z); [|apply IH].
  intros [= _ ->]. done.
Qed.

(** What a returned code tells about the receiver afterwards. *)
Lemma wait_for_otp_returned (env : wait_env) (r : receiver) (otp : string) :
  (wait_for_otp env r).2 = Some otp →
  let r' := (wait_for_otp env r).1 in
  otp ≠ ""
  ∧ _latest_otp r' = Some otp
  ∧ _otp_request_time r' = _otp_request_time r
  ∧ ((_otp_request_time r < _otp_timestamp r')%Z
     ∨ (w_headless env = false
        ∧ (∃ line, w_typed env = Some line ∧ otp = PyStr.strip line)
        ∧ isdigit otp = true ∧ (4 ≤ String.length otp ≤ 8)%nat
        ∧ _otp_timestamp r' = w_now env)).
Proof.
  unfold wait_for_otp.
  destruct (fresh_ticket (_otp_request_time r) r) eqn:Hf.
  { cbn. intros Ho. destruct (fresh_ticket_inv _ _ Hf) as [(s & Hs & Hne) Hlt].
    rewrite Hs in Ho. injection Ho as ->. split; [done|]. split; [done|].
    split; [done|by left]. }
  set (mid := if _use_existing_server r then _ else _).
  assert (∀ r1 found, mid = (r1, found) →
            _otp_request_time r1 = _otp_request_time r
            ∧ ∀ o, found = Some o →
                o ≠ "" ∧ _latest_otp r1 = Some o
                ∧ (_otp_request_time r < _otp_timestamp r1)%Z) as Hmid.
  { intros r1 found. unfold mid. destruct (_use_existing_server r).
    - intros Hp. destruct found as [o|].
      + destruct (poll_existing_spec _ _ _ _ _ Hp) as (H1 & H2 & H3 & _ & H5 & _).
        split; [done|]. intros o' [= <-]. done.
      + split; [|done]. by rewrite (poll_existing_none _ _ _ _ Hp).
    - destruct (deliver_all_frame (w_during env) r) as [Hrt _].
      destruct (_event (deliver_all (w_during env) r)
                && fresh_ticket (_otp_request_time r) (deliver_all (w_during env) r))
        eqn:Hw.
      + intros [= <- <-]. split; [done|]. intros o Ho.
        apply andb_true_iff in Hw as [_ Hw].
        destruct (fresh_ticket_inv _ _ Hw) as [(s & Hs & Hne) Hlt].
        rewrite Hs in Ho. injection Ho as <-. done.
      + intros [= <- <-]. split; [done|]. done. }
  destruct mid as [r1 found]. destruct (Hmid r1 found eq_refl) as [Hrt Hfound].
  destruct found as [o|].
  { cbn. intros [= ->]. destruct (Hfound otp eq_refl) as (H1 & H2 & H3).
    split; [done|]. split; [done|]. split; [done|by left]. }
  destruct (w_headless env) eqn:Hh; [done|].
  unfold manual_entry. destruct (w_typed env) as [line|] eqn:Hty; [|done].
  destruct (PyStr.truthy (PyStr.strip line)) eqn:Ht; cbn [andb]; [|done].
  destruct (isdigit (PyStr.strip line)) eqn:Hd; cbn [andb]; [|done].
  destruct (bool_decide (4 ≤ String.length (PyStr.strip line) ≤ 8)%nat) eqn:Hl; [|done].
  cbn. intros [= <-]. apply bool_decide_eq_true in Hl.
  split; [intros He; by rewrite He in Ht|]. split; [done|]. split; [done|].
  right. split; [done|]. split; [by exists line|]. done.
Qed.

(** X19: whatever the mode, a code that [wait_for_otp] returns is
    non-empty and is the code the receiver holds afterwards, and the
    registered request time is as before.  Its ticket is stamped strictly
    after the request, unless it was typed in by hand, which happens only
    outside unattended mode: then it is the typed line without outer
    whitespace, 4 to 8 digits, stamped with the time of the entry. *)
Theorem X19_wait_for_otp_result (env : wait_env) (r : receiver) (otp : string) :
  (wait_for_otp env r).2 = Some otp →
  let r' := (wait_for_otp env r).1 in
  otp ≠ ""
  ∧ _latest_otp r' = Some otp
  ∧ _otp_request_time r' = _otp_request_time r
  ∧ ((_otp_request_time r < _otp_timestamp r')%Z
     ∨ (w_headless env = false
        ∧ (∃ line, w_typed env = Some line ∧ otp = PyStr.strip line)
        ∧ isdigit otp = true ∧ (4 ≤ String.length otp ≤ 8)%nat
        ∧ _otp_timestamp r' = w_now env)).
Proof. apply wait_for_otp_returned. Qed.

(** X20: a ticket is not used up by being returned.  When [wait_for_otp]
    returns a code whose ticket is newer than the registered request, a
    further call, without a new request in between, returns the same code
    at once and leaves the receiver as it is, whatever happens around that
    call; only [clear_for_new_otp] retires a ticket. *)
Theorem X20_ticket_not_consumed (env env' : wait_env) (r : receiver) (otp : string) :
  (wait_for_otp env r).2 = Some otp →
  let r' := (wait_for_otp env r).1 in
  (_otp_request_time r < _otp_timestamp r')%Z →
  wait_for_otp env' r' = (r', Some otp)
  ∧ ∀ T, (_otp_timestamp r' ≤ T)%Z →
      fresh_ticket T (clear_for_new_otp T r') = false.
Proof.
  intros Ho r' Hlt.
  destruct (wait_for_otp_returned env r otp Ho) as (Hne & Hl & Hrt & _).
  fold r' in Hl, Hrt. split.
  - unfold wait_for_otp. rewrite Hrt.
    assert (fresh_ticket (_otp_request_time r) r' = true) as ->; [|by rewrite Hl].
    unfold fresh_ticket. rewrite Hl. cbn.
    assert (PyStr.truthy otp = true) as -> by (by destruct otp).
    by apply bool_decide_eq_true_2.
  - intros T HT. unfold fresh_ticket, clear_for_new_otp. cbn.
    rewrite bool_decide_eq_false_2 by lia. by rewrite andb_false_r.
Qed.

(** X23: what the webhook stores.  Deliveries without a code change
    nothing: they never clear a stored code.  After a delivery with a code
    that is followed only by deliveries without one, the receiver holds
    that code with the time of that delivery and its event is set; the
    registered request time is never touched. *)
Theorem X23_webhook_keeps_last_code (ds : list delivery) (r : receiver) :
  (Forall (λ d, otp_truthy (d_otp d) = false) ds → deliver_all ds r = r)
  ∧ (∀ ds1 d ds2, ds = ds1 ++ d :: ds2 → otp_truthy (d_otp d) = true →
       Forall (λ d, otp_truthy (d_otp d) = false) ds2 →
       let r' := deliver_all ds r in
       _latest_otp r' = d_otp d ∧ _otp_timestamp r' = d_time d ∧ _event r' = true
       ∧ _otp_request_time r' = _otp_request_time r).
Proof.
  assert (∀ ds r, Forall (λ d, otp_truthy (d_otp d) = false) ds → deliver_all ds r = r)
    as Hnone.
  { clear. intros ds. induction ds as [|d ds IH]; intros r Hall; [done|].
    apply Forall_cons in Hall as [Hd Hall].
    change (deliver_all (d :: ds) r) with (deliver_all ds (sms_webhook d r)).
    rewrite IH by done. unfold sms_webhook. by rewrite Hd. }
  split; [apply Hnone|].
  intros ds1 d ds2 -> Hd Hall r'. unfold r'.
  rewrite deliver_all_app.
  change (deliver_all (d :: ds2) (deliver_all ds1 r))
    with (deliver_all ds2 (sms_webhook d (deliver_all ds1 r))).
  rewrite Hnone by done. unfold sms_webhook. rewrite Hd. cbn.
  do 3 (split; [done|]). apply deliver_all_frame.
Qed.

Lemma X19_wait_for_otp_result_witness :
  "482910" ≠ ""
  ∧ _latest_otp (wait_for_otp (ex_wait_env [Delivery (Some "482910") 204])
                   (clear_for_new_otp 200 ex_receiver)).1 = Some "482910"
  ∧ _otp_request_time (wait_for_otp (ex_wait_env [Delivery (Some "482910") 204])
                         (clear_for_new_otp 200 ex_receiver)).1
    = _otp_request_time (clear_for_new_otp 200 ex_receiver)
  ∧ ((_otp_request_time (clear_for_new_otp 200 ex_receiver)
      < _otp_timestamp (wait_for_otp (ex_wait_env [Delivery (Some "482910") 204])
                          (clear_for_new_otp 200 ex_receiver)).1)%Z
     ∨ (w_headless (ex_wait_env [Delivery (Some "482910") 204]) = false
        ∧ (∃ line, w_typed (ex_wait_env [Delivery (Some "482910") 204]) = Some line
                   ∧ "482910" = PyStr.strip line)
        ∧ isdigit "482910" = true ∧ (4 ≤ String.length "482910" ≤ 8)%nat
        ∧ _otp_timestamp (wait_for_otp (ex_wait_env [Delivery (Some "482910") 204])
                            (clear_for_new_otp 200 ex_receiver)).1
          = w_now (ex_wait_env [Delivery (Some "482910") 204]))).
Proof.
  apply (X19_wait_for_otp_result (ex_wait_env [Delivery (Some "482910") 204])
           (clear_for_new_otp 200 ex_receiver) "482910").
  reflexivity.
Defined.

Lemma X20_ticket_not_consumed_witness :
  wait_for_otp (ex_wait_env [])
    (wait_for_otp (ex_wait_env [Delivery (Some "482910") 204])
       (clear_for_new_otp 200 ex_receiver)).1
  = ((wait_for_otp (ex_wait_env [Delivery (Some "482910") 204])
        (clear_for_new_otp 200 ex_receiver)).1, Some "482910")
  ∧ ∀ T, (_otp_timestamp (wait_for_otp (ex_wait_env [Delivery (Some "482910") 204])
                             (clear_for_new_otp 200 ex_receiver)).1 ≤ T)%Z →
      fresh_ticket T
        (clear_for_new_otp T
           (wait_for_otp (ex_wait_env [Delivery (Some "482910") 204])
              (clear_for_new_otp 200 ex_receiver)).1) = false.
Proof.
  apply (X20_ticket_not_consumed (ex_wait_env [Delivery (Some "482910") 204])
           (ex_wait_env []) (clear_for_new_otp 200 ex_receiver) "482910").
  - reflexivity.
  - vm_compute. reflexivity.
Defined.

End OtpMore.

(** ** The login flow: how a run ends *)

Module LoginMore.
Import Login LoginFacts.

(** How an attempt that starts without a saved session can end. *)
Definition attempt_ends (max attempt : nat) (env : attempt_env) (o : attempt_outcome) : Prop :=
  match o with
  | LoggedIn st => session_saved st = true
  | CaptchaRetry st => session_saved st = false ∧ (attempt < max)%nat
  | Raised (RuntimeError _) st => session_saved st = false
  | Raised (OtherError _) st => session_saved st = false ∧ ae_crash env ≠ NoCrash
  | Raised AttributeError _ => False
  end.

Lemma submit_otp_ends max attempt env st :
  session_saved st = false →
  attempt_ends max attempt env (submit_otp env st).
Proof.
  intros Hs. unfold submit_otp, submit_cached_otp, submit_webhook_otp, success.
  repeat match goal with
         | |- context [match ?x with _ => _ end] => destruct x
         end; simpl; done.
Qed.

Lemma attempt_body_ends max attempt env st :
  session_saved st = false →
  attempt_ends max attempt env (attempt_body max attempt env st)
  ∧ (ae_crash env = CrashBeforeGetOtp →
     attempt_body max attempt env st = Raised (OtherError "playwright") st).
Proof.
  intros Hs. unfold attempt_body. split.
  - destruct (ae_crash env) eqn:Hc; [|simpl; by rewrite Hc|].
    all: destruct (ae_captcha_image env); cbn [negb]; [|by simpl].
    all: destruct (ae_captcha_text env); [|by simpl].
    2: simpl; by rewrite Hc.
    destruct (ae_captcha_rejected env).
    + destruct (bool_decide (max ≤ attempt)%nat) eqn:Hle; [by simpl|].
      apply bool_decide_eq_false in Hle. simpl. split; [done|lia].
    + pose proof (submit_otp_ends max attempt env
                    (LoginState (cached_otp st) (S (otp_generations st))
                       (attempts_started st) (otp_cache_file st) (session_saved st))
                    Hs) as H.
      destruct (submit_otp env _) as [st'|st'|[|msg|msg] st']; simpl in *; done.
  - by intros ->.
Qed.

(** The loop, entered at pass [attempt] with [n] passes left. *)
Lemma attempt_loop_ends max n : ∀ attempt envs st,
  (attempt + n = S max)%nat → attempt = S (attempts_started st) →
  session_saved st = false →
  let run := attempt_loop max n attempt envs st in
  (run.1 = Ok true ↔ session_saved run.2 = true)
  ∧ (∀ msg, run.1 = Raise (RuntimeError msg) → attempts_started run.2 = max)
  ∧ (∀ msg, run.1 = Raise (OtherError msg) →
       ae_crash (envs (attempts_started run.2)) ≠ NoCrash)
  ∧ run.1 ≠ Raise AttributeError
  ∧ (∀ k, (attempt ≤ k)%nat → ae_crash (envs k) = CrashBeforeGetOtp →
       (attempts_started run.2 ≤ k)%nat).
Proof.
  induction n as [|n IH]; intros attempt envs st Hn Ha Hs; cbn [attempt_loop].
  - cbv zeta. cbn [fst snd]. split; [split; [done|by rewrite Hs]|].
    split; [intros _ _; lia|]. split; [done|]. split; [done|]. intros k Hk _. lia.
  - set (st1 := LoginState (cached_otp st) (otp_generations st) (S (attempts_started st))
                  (otp_cache_file st) (session_saved st)).
    assert (attempts_started st1 = attempt) as Ha1 by (cbn; lia).
    destruct (attempt_body_ends max attempt (envs attempt) st1 Hs) as [Hend Hcrash].
    pose proof (attempt_body_counters max attempt (envs attempt) st1) as [Hcnt _].
    destruct (attempt_body max attempt (envs attempt) st1) as [st2|st2|e st2] eqn:Hb;
      cbn [outcome_state] in Hcnt; cbn [attempt_ends] in Hend.
    + cbv zeta. cbn [fst snd]. split; [done|]. split; [done|]. split; [done|].
      split; [done|]. intros k Hk Hck. lia.
    + destruct Hend as [Hs2 Hlt].
      assert (∀ k, (attempt ≤ k)%nat → ae_crash (envs k) = CrashBeforeGetOtp →
                (S attempt ≤ k)%nat) as Hnext.
      { intros k Hk Hck. destruct (decide (k = attempt)) as [->|]; [|lia].
        specialize (Hcrash Hck). congruence. }
      destruct (IH (S attempt) envs st2 ltac:(lia) ltac:(lia) Hs2)
        as (H1 & H2 & H3 & H4 & H5).
      cbv zeta in *. split; [done|]. split; [done|]. split; [done|]. split; [done|].
      intros k Hk Hck. apply H5; [|done]. by apply Hnext.
    + destruct e as [|msg|msg]; [done| |].
      * destruct (bool_decide (max ≤ attempt)%nat) eqn:Hle.
        -- apply bool_decide_eq_true in Hle. cbv zeta. cbn [fst snd].
           split; [split; [done|by rewrite Hend]|].
           split; [intros _ _; lia|]. split; [done|]. split; [done|].
           intros k Hk Hck. lia.
        -- apply bool_decide_eq_false in Hle.
           assert (∀ k, (attempt ≤ k)%nat → ae_crash (envs k) = CrashBeforeGetOtp →
                     (S attempt ≤ k)%nat) as Hnext.
           { intros k Hk Hck. destruct (decide (k = attempt)) as [->|]; [|lia].
             specialize (Hcrash Hck). congruence. }
           destruct (IH (S attempt) envs st2 ltac:(lia) ltac:(lia) Hend)
             as (H1 & H2 & H3 & H4 & H5).
           cbv zeta in *. split; [done|]. split; [done|]. split; [done|]. split; [done|].
           intros k Hk Hck. apply H5; [|done]. by apply Hnext.
      * destruct Hend as [Hs2 Hc]. cbv zeta. cbn [fst snd].
        split; [split; [done|by rewrite Hs2]|]. split; [done|].
        split; [intros _ _; by rewrite Hcnt, Ha1|]. split; [done|].
        intros k Hk Hck. lia.
Qed.

(** X21: how a login run ends, for any attempt limit.  It returns [True]
    exactly when the session was saved.  A [RuntimeError] leaves the run
    only after the last allowed attempt: before that it is retried.  Any
    other error is never retried: it leaves the run in the attempt in which
    a browser call failed, so a browser failure before "Get OTP" in attempt
    [k] means no attempt after [k] is started. *)
Theorem X21_login_run_ends (max_login_attempts : nat) (loaded cache_file : option string)
    (envs : nat → attempt_env) :
  let run := _perform_login max_login_attempts loaded cache_file envs in
  (run.1 = Ok true ↔ session_saved run.2 = true)
  ∧ (∀ msg, run.1 = Raise (RuntimeError msg) →
       attempts_started run.2 = max_login_attempts)
  ∧ (∀ msg, run.1 = Raise (OtherError msg) →
       ae_crash (envs (attempts_started run.2)) ≠ NoCrash)
  ∧ (∀ k, (1 ≤ k)%nat → ae_crash (envs k) = CrashBeforeGetOtp →
       (attempts_started run.2 ≤ k)%nat).
Proof.
  intros run. unfold run, _perform_login.
  destruct (attempt_loop_ends max_login_attempts max_login_attempts 1 envs
              (LoginState loaded 0 0 cache_file false) ltac:(lia) eq_refl eq_refl)
    as (H1 & H2 & H3 & _ & H5).
  done.
Qed.

End LoginMore.
